(** * build_site.py: the portfolio build, embedded and verified

    A shallow embedding of [scripts/build_site.py]: the coercions of CSV
    cells, the aggregation of [compute_summary], the ordering of
    [export_publications_json], the sections of the two CV renderers and
    the file effects of [main].

    Conventions.
    - Python [str] is [string]; the case mappings, [strip] and the digit
      classes are the ASCII ones (Python's are Unicode-aware; outside
      ASCII the embedding treats a character as a plain symbol).
    - Python [float] is IEEE binary64, taken from [SpecFloat] with
      [prec = 53] and [emax = 1024]; Python [int] is [Z].
    - An exception is a value of [exn]; code that may raise returns
      [Res A], and [try ... except Exception] is [try_except].
    - Code that touches files is a function of the [World]: the files and
      the trace of what was done to them.
    - The interpreter and the libraries the build calls into ([json],
      [pd.read_csv], ReportLab, python-docx, the clock) are the fields of
      the class [Runtime]; every theorem holds for every runtime.
    - What pandas does with the columns the script builds is written out
      where the script depends on it: the dtype a column of [apply]
      results gets, [dropna], [sort_values]. *)

From Stdlib Require Import List String Ascii ZArith Bool Lia.
From Stdlib Require Import Permutation Sorted.
From Stdlib Require Import SpecFloat DecimalString.
Import ListNotations.
Local Open Scope string_scope.
Local Open Scope Z_scope.

Set Implicit Arguments.

(** ** Python strings *)

Module Str.

Definition is_upper (c : ascii) : bool :=
  let n := nat_of_ascii c in (Nat.leb 65 n && Nat.leb n 90)%bool.

Definition is_lower (c : ascii) : bool :=
  let n := nat_of_ascii c in (Nat.leb 97 n && Nat.leb n 122)%bool.

Definition is_digit (c : ascii) : bool :=
  let n := nat_of_ascii c in (Nat.leb 48 n && Nat.leb n 57)%bool.

(** [str.isspace] on ASCII: TAB..CR, FS..US and the blank. *)
Definition is_space (c : ascii) : bool :=
  let n := nat_of_ascii c in
  ((Nat.leb 9 n && Nat.leb n 13) || (Nat.leb 28 n && Nat.leb n 32))%bool.

Definition lower_char (c : ascii) : ascii :=
  if is_upper c then ascii_of_nat (nat_of_ascii c + 32) else c.

Definition upper_char (c : ascii) : ascii :=
  if is_lower c then ascii_of_nat (nat_of_ascii c - 32) else c.

Fixpoint map_chars (f : ascii -> ascii) (s : string) : string :=
  match s with
  | EmptyString => EmptyString
  | String c r => String (f c) (map_chars f r)
  end.

(** [s.lower()] and [s.upper()] *)
Definition lower : string -> string := map_chars lower_char.
Definition upper : string -> string := map_chars upper_char.

Fixpoint lstrip (s : string) : string :=
  match s with
  | String c r => if is_space c then lstrip r else s
  | EmptyString => EmptyString
  end.

Fixpoint rstrip (s : string) : string :=
  match s with
  | EmptyString => EmptyString
  | String c r =>
      match rstrip r with
      | EmptyString => if is_space c then EmptyString else String c EmptyString
      | r' => String c r'
      end
  end.

(** [s.strip()] *)
Definition strip (s : string) : string := rstrip (lstrip s).

Fixpoint starts_with (p s : string) : bool :=
  match p, s with
  | EmptyString, _ => true
  | String a p', String b s' => (Ascii.eqb a b && starts_with p' s')%bool
  | String _ _, EmptyString => false
  end.

(** [p in s]; also [Series.str.contains(p)] for a pattern without regex
    metacharacters, such as "oral", "poster" and "book chapter". *)
Fixpoint contains (p s : string) : bool :=
  (starts_with p s ||
   match s with
   | EmptyString => false
   | String _ s' => contains p s'
   end)%bool.

(** truth value of a string: [if s:] *)
Definition truthy (s : string) : bool :=
  match s with EmptyString => false | _ => true end.

(** [sep.join(parts)] *)
Fixpoint join (sep : string) (parts : list string) : string :=
  match parts with
  | [] => ""
  | [p] => p
  | p :: rest => p ++ sep ++ join sep rest
  end.

Fixpoint chars (s : string) : list ascii :=
  match s with
  | EmptyString => []
  | String c r => c :: chars r
  end.

Fixpoint split_on (sep : ascii) (cur : string) (s : string) : list string :=
  match s with
  | EmptyString => [cur]
  | String c r =>
      if Ascii.eqb c sep then cur :: split_on sep "" r
      else split_on sep (cur ++ String c "") r
  end.

(** [s.split(sep)] for a one-character separator *)
Definition split (sep : ascii) (s : string) : list string := split_on sep "" s.

End Str.

(** ** Exceptions *)

Inductive exn : Type :=
| FileNotFoundError
| ValueError
| TypeError
| OverflowError
| AttributeError
| UnboundLocalError
| UnicodeDecodeError
| ParserError.

Inductive Res (A : Type) : Type :=
| Ret (a : A)
| Raise (e : exn).
Arguments Ret {A} a.
Arguments Raise {A} e.

Definition bind {A B} (m : Res A) (k : A -> Res B) : Res B :=
  match m with
  | Ret a => k a
  | Raise e => Raise e
  end.

(** [try: body / except Exception: handler]; every [exn] above derives
    from [Exception]. *)
Definition try_except {A} (body : Res A) (handler : exn -> Res A) : Res A :=
  match body with
  | Ret a => Ret a
  | Raise e => handler e
  end.

Declare Scope res_scope.
Delimit Scope res_scope with res.
Notation "x <- m ;; k" := (bind m (fun x => k))
  (at level 61, m at next level, right associativity) : res_scope.
Local Open Scope res_scope.

(** [Series.apply(f)]: [f] on each element in turn, stopping at the first
    exception. *)
Fixpoint mapM {A B} (f : A -> Res B) (l : list A) : Res (list B) :=
  match l with
  | [] => Ret []
  | a :: r => b <- f a ;; bs <- mapM f r ;; Ret (b :: bs)
  end.

(** ** Python floats: IEEE binary64 *)

Module Float.

Definition prec : Z := 53.
Definition emax : Z := 1024.

Definition float := spec_float.

Definition zero : float := S754_zero false.
Definition nan : float := S754_nan.
Definition inf (neg : bool) : float := S754_infinity neg.

Definition add : float -> float -> float := SFadd prec emax.
Definition div : float -> float -> float := SFdiv prec emax.

(** the nearest double to an integer ([float(n)] before the range check) *)
Definition of_Z (z : Z) : float := binary_normalize prec emax z 0 false.

(** [math.isnan] *)
Definition is_nan (x : float) : bool :=
  match x with S754_nan => true | _ => false end.

Definition is_finite (x : float) : bool :=
  match x with S754_zero _ | S754_finite _ _ _ => true | _ => false end.

(** leibniz equality of representations, decidable *)
Definition same (x y : float) : bool :=
  match x, y with
  | S754_zero a, S754_zero b => Bool.eqb a b
  | S754_infinity a, S754_infinity b => Bool.eqb a b
  | S754_nan, S754_nan => true
  | S754_finite a m e, S754_finite b n f =>
      (Bool.eqb a b && Pos.eqb m n && Z.eqb e f)%bool
  | _, _ => false
  end.

(** [x.is_integer()] *)
Definition is_integer (x : float) : bool :=
  match x with
  | S754_zero _ => true
  | S754_finite _ m e =>
      if 0 <=? e then true else (Z.pos m mod 2 ^ (- e) =? 0)
  | _ => false
  end.

(** [int(x)]: truncation towards zero; infinities and NaN raise. *)
Definition to_int (x : float) : Res Z :=
  match x with
  | S754_zero _ => Ret 0
  | S754_finite s m e =>
      let a := if 0 <=? e then Z.pos m * 2 ^ e else Z.pos m / 2 ^ (- e) in
      Ret (if s then - a else a)
  | S754_infinity _ => Raise OverflowError
  | S754_nan => Raise ValueError
  end.

(** The nearest double to [m * 10^k] for a decimal literal with digits [m]
    and decimal exponent [k], rounding to nearest even: what [strtod]
    returns. *)
Definition of_decimal (neg : bool) (m : Z) (k : Z) : float :=
  match m with
  | Z0 => S754_zero neg
  | Zneg _ => S754_nan
  | Zpos p =>
      if 0 <=? k
      then binary_normalize prec emax
             (if neg then - (Z.pos p * 10 ^ k) else Z.pos p * 10 ^ k) 0 neg
      else div (S754_finite neg p 0) (S754_finite false (Z.to_pos (10 ^ (- k))) 0)
  end.

(** [n] such that [n] is the integer nearest to [m * 2^e * 1000], ties to
    even: the digits [dtoa] produces in mode 3 with three decimals. *)
Definition scaled_half_even (m : positive) (e : Z) : Z :=
  if 0 <=? e then Z.pos m * 2 ^ e * 1000
  else
    let d := 2 ^ (- e) in
    let q := (Z.pos m * 1000) / d in
    let r := (Z.pos m * 1000) mod d in
    match (2 * r ?= d) with
    | Lt => q
    | Gt => q + 1
    | Eq => if Z.even q then q else q + 1
    end.

(** [round(x, 3)]: [float.__round__] with [ndigits = 3] rounds the exact
    binary value to three decimals (half to even) and converts the decimal
    back; non-finite values are returned unchanged. *)
Definition round3 (x : float) : float :=
  match x with
  | S754_finite s m e => of_decimal s (scaled_half_even m e) (-3)
  | _ => x
  end.

End Float.

(** *** Parsing a float literal: [float(s)] for a string *)

Module FloatLit.
Import Str.

Definition digit_val (c : ascii) : Z := Z.of_nat (nat_of_ascii c - 48).

(** PEP 515: an underscore must stand between two digits; the literal
    without its underscores, or [None]. *)
Fixpoint drop_underscores (prev : ascii) (s : string) : option string :=
  match s with
  | EmptyString => if Ascii.eqb prev "_" then None else Some EmptyString
  | String c r =>
      if Ascii.eqb c "_" then
        if is_digit prev then drop_underscores c r else None
      else
        if (Ascii.eqb prev "_" && negb (is_digit c))%bool then None
        else option_map (String c) (drop_underscores c r)
  end.

(** a maximal run of digits: its value, its length and the rest *)
Fixpoint digits (acc : Z) (n : Z) (s : string) : Z * Z * string :=
  match s with
  | String c r => if is_digit c then digits (10 * acc + digit_val c) (n + 1) r
                  else (acc, n, s)
  | EmptyString => (acc, n, s)
  end.

Definition sign (s : string) : bool * string :=
  match s with
  | String "-" r => (true, r)
  | String "+" r => (false, r)
  | _ => (false, s)
  end.

(** the optional exponent part; [None] when malformed or followed by
    anything *)
Definition exponent (s : string) : option Z :=
  match s with
  | EmptyString => Some 0
  | String c r =>
      if (Ascii.eqb c "e" || Ascii.eqb c "E")%bool then
        let '(neg, r1) := sign r in
        match digits 0 0 r1 with
        | (v, n, EmptyString) =>
            if 0 <? n then Some (if neg then - v else v) else None
        | _ => None
        end
      else None
  end.

Definition decimal (neg : bool) (s : string) : option Float.float :=
  let '(ip, ni, r1) := digits 0 0 s in
  let '(m, nf, r2) :=
    match r1 with
    | String "." r => let '(m, nf, r2) := digits ip 0 r in (m, nf, r2)
    | _ => (ip, 0, r1)
    end in
  if 0 <? ni + nf then
    match exponent r2 with
    | Some ex => Some (Float.of_decimal neg m (ex - nf))
    | None => None
    end
  else None.

(** [float(s)] on a string: surrounding whitespace is ignored, then an
    optional sign and either [inf], [infinity], [nan] (any case) or a
    decimal literal. [None] is [ValueError]. *)
Definition parse (s : string) : option Float.float :=
  match drop_underscores " " (strip s) with
  | None => None
  | Some t =>
      let '(neg, body) := sign t in
      let lb := lower body in
      if (String.eqb lb "inf" || String.eqb lb "infinity")%bool
      then Some (Float.inf neg)
      else if String.eqb lb "nan" then Some Float.nan
      else decimal neg body
  end.

End FloatLit.

(** ** Python values *)

(** [datetime.datetime] at midnight, as [strptime] returns it for a format
    without time fields. *)
Record datetime : Type := mk_datetime { dt_year : Z; dt_month : Z; dt_day : Z }.

(** The values a cell, a coerced cell or an argument of the coercions can
    be. A list is kept by what [pd.isna] sees of it: for each element
    whether it is null. *)
Inductive PyVal : Type :=
| VNone
| VBool (b : bool)
| VInt (z : Z)
| VFloat (f : Float.float)
| VStr (s : string)
| VDatetime (d : datetime)
| VNaT
| VList (nulls : list bool).

Module Py.

(** [float(x)] *)
Definition float (x : PyVal) : Res Float.float :=
  match x with
  | VFloat f => Ret f
  | VInt z =>
      let f := Float.of_Z z in
      if Float.is_finite f then Ret f else Raise OverflowError
  | VBool b => Ret (Float.of_Z (if b then 1 else 0))
  | VStr s =>
      match FloatLit.parse s with
      | Some f => Ret f
      | None => Raise ValueError
      end
  | VNone | VDatetime _ | VNaT | VList _ => Raise TypeError
  end.

(** [int(f)] for a float [f] *)
Definition int (f : Float.float) : Res Z := Float.to_int f.

(** [isinstance(x, float)] *)
Definition is_float (x : PyVal) : bool :=
  match x with VFloat _ => true | _ => false end.

(** [isinstance(x, int)]; [bool] is a subclass of [int]. *)
Definition is_int (x : PyVal) : bool :=
  match x with VInt _ | VBool _ => true | _ => false end.

(** [isinstance(x, datetime)]; [pd.Timestamp] and [pd.NaT] both derive
    from [datetime]. *)
Definition is_datetime (x : PyVal) : bool :=
  match x with VDatetime _ | VNaT => true | _ => false end.

(** the integer an [int] (or [bool]) is *)
Definition int_value (x : PyVal) : Z :=
  match x with
  | VInt z => z
  | VBool b => if b then 1 else 0
  | _ => 0
  end.

End Py.

(** ** pandas scalars *)

Module Pd.

(** the result of [pd.isna]: a bool for a scalar, an array for a list *)
Inductive isna_result : Type :=
| IsnaScalar (b : bool)
| IsnaArray (mask : list bool).

Definition isna (x : PyVal) : isna_result :=
  match x with
  | VNone | VNaT => IsnaScalar true
  | VFloat f => IsnaScalar (Float.is_nan f)
  | VList nulls => IsnaArray nulls
  | VBool _ | VInt _ | VStr _ | VDatetime _ => IsnaScalar false
  end.

(** [if pd.isna(x):] the truth value of an array is an error unless it
    has exactly one element. *)
Definition truth (r : isna_result) : Res bool :=
  match r with
  | IsnaScalar b => Ret b
  | IsnaArray [b] => Ret b
  | IsnaArray _ => Raise ValueError
  end.

(** [pd.isna(x)] where the code knows [x] to be a scalar *)
Definition isna_scalar (x : PyVal) : bool :=
  match isna x with
  | IsnaScalar b => b
  | IsnaArray _ => false
  end.

End Pd.

(** ** The coercions of [build_site.py] *)

Definition _safe_float (x : PyVal) : Res (option Float.float) :=
  try_except
    (na <- Pd.truth (Pd.isna x) ;;
     if na then Ret None
     else f <- Py.float x ;; Ret (Some f))
    (fun _ => Ret None).

Definition _safe_int (x : PyVal) : Res (option Z) :=
  try_except
    (na <- Pd.truth (Pd.isna x) ;;
     if na then Ret None
     else f <- Py.float x ;; n <- Py.int f ;; Ret (Some n))
    (fun _ => Ret None).

(** *** Dates *)

Module Date.
Import Str.

Definition all_digits (s : string) : bool := forallb is_digit (chars s).

Fixpoint number (acc : Z) (s : string) : Z :=
  match s with
  | EmptyString => acc
  | String c r => number (10 * acc + FloatLit.digit_val c) r
  end.

(** the directive [%d]: [3[0-1]|[1-2]\d|0[1-9]|[1-9]| [1-9]] *)
Definition field_d (s : string) : option Z :=
  match s with
  | String a (String b EmptyString) =>
      if (Ascii.eqb a " " && is_digit b && negb (Ascii.eqb b "0"))%bool
      then Some (FloatLit.digit_val b)
      else if (is_digit a && is_digit b)%bool then
        let v := number 0 s in
        if ((1 <=? v) && (v <=? 31))%bool then Some v else None
      else None
  | String a EmptyString =>
      if (is_digit a && negb (Ascii.eqb a "0"))%bool
      then Some (FloatLit.digit_val a) else None
  | _ => None
  end.

(** the directive [%m]: [1[0-2]|0[1-9]|[1-9]] *)
Definition field_m (s : string) : option Z :=
  match s with
  | String a (String b EmptyString) =>
      if (is_digit a && is_digit b)%bool then
        let v := number 0 s in
        if ((1 <=? v) && (v <=? 12))%bool then Some v else None
      else None
  | String a EmptyString =>
      if (is_digit a && negb (Ascii.eqb a "0"))%bool
      then Some (FloatLit.digit_val a) else None
  | _ => None
  end.

(** the directive [%Y]: four digits *)
Definition field_Y (s : string) : option Z :=
  if (Nat.eqb (String.length s) 4 && all_digits s)%bool
  then Some (number 0 s) else None.

Definition is_leap (y : Z) : bool :=
  ((y mod 4 =? 0) && (negb (y mod 100 =? 0) || (y mod 400 =? 0)))%bool.

Definition days_in_month (y m : Z) : Z :=
  if m =? 2 then (if is_leap y then 29 else 28)
  else if ((m =? 4) || (m =? 6) || (m =? 9) || (m =? 11))%bool then 30
  else 31.

(** the check of the [datetime] constructor *)
Definition valid (y m d : Z) : bool :=
  ((1 <=? y) && (y <=? 9999) && (1 <=? m) && (m <=? 12) &&
   (1 <=? d) && (d <=? days_in_month y m))%bool.

Definition build (y m d : option Z) : Res datetime :=
  match y, m, d with
  | Some y, Some m, Some d =>
      if valid y m d then Ret (mk_datetime y m d) else Raise ValueError
  | _, _, _ => Raise ValueError
  end.

Inductive format : Type :=
| DATE_FMT        (* "%d.%m.%Y" *)
| ISO_FMT.        (* "%Y-%m-%d" *)

(** [datetime.strptime(s, fmt)]: the whole string must match the format,
    and the fields must make a date. *)
Definition strptime (s : string) (fmt : format) : Res datetime :=
  match fmt with
  | DATE_FMT =>
      match split "." s with
      | [d; m; y] => build (field_Y y) (field_m m) (field_d d)
      | _ => Raise ValueError
      end
  | ISO_FMT =>
      match split "-" s with
      | [y; m; d] => build (field_Y y) (field_m m) (field_d d)
      | _ => Raise ValueError
      end
  end.

(** days from 1970-01-01 to the given civil date *)
Definition days_from_civil (y m d : Z) : Z :=
  let y' := if m <=? 2 then y - 1 else y in
  let era := y' / 400 in
  let yoe := y' - era * 400 in
  let mp := (m + 9) mod 12 in
  let doy := (153 * mp + 2) / 5 + d - 1 in
  let doe := yoe * 365 + yoe / 4 - yoe / 100 + doy in
  era * 146097 + doe - 719468.

(** [dt.timestamp()] in seconds. The float it returns is integral and
    exact, so it is kept as an integer; the zone is taken to be UTC (as
    [pd.Timestamp.timestamp] does for a naive value). *)
Definition timestamp (d : datetime) : Z :=
  86400 * days_from_civil (dt_year d) (dt_month d) (dt_day d).

(** within the bounds of [datetime64[ns]] *)
Definition in_ns_range (d : datetime) : bool :=
  let t := timestamp d in ((-9223286400 <=? t) && (t <=? 9223286400))%bool.

End Date.

(** ** JSON values and Python dicts read from JSON *)

#[local] Set Warnings "-register-all".

(** what [json.loads] returns and [json.dumps] takes; the fields of an
    object are those of the dict, in insertion order, each key once *)
Inductive Json : Type :=
| JNull
| JBool (b : bool)
| JInt (z : Z)
| JFloat (f : Float.float)
| JStr (s : string)
| JArr (items : list Json)
| JObj (fields : list (string * Json)).

Fixpoint assoc (k : string) (fields : list (string * Json)) : option Json :=
  match fields with
  | [] => None
  | (k', v) :: rest => if String.eqb k k' then Some v else assoc k rest
  end.

(** [d.get(k, default)]: only a dict has the method. *)
Definition dict_get (d : Json) (k : string) (default : Json) : Res Json :=
  match d with
  | JObj fields =>
      Ret (match assoc k fields with Some v => v | None => default end)
  | _ => Raise AttributeError
  end.

(** truth value of a JSON value: [if x:] *)
Definition json_truthy (j : Json) : bool :=
  match j with
  | JNull => false
  | JBool b => b
  | JInt z => negb (z =? 0)
  | JFloat f => match f with S754_zero _ => false | _ => true end
  | JStr s => Str.truthy s
  | JArr l => match l with [] => false | _ => true end
  | JObj l => match l with [] => false | _ => true end
  end.

(** ** The publications table *)

(** A row of [data/publications.csv] as [pd.read_csv(dtype=str,
    keep_default_na=False)] gives it: every cell is a string. *)
Record Row : Type := mk_row {
  record_type : string;
  year : string;
  category : string;
  subtype : string;
  citation : string;
  doi : string;
  mnicsw_points : string;
  impact_factor : string;
  start_date : string;
  end_date : string;
  city : string;
  country : string;
  award : string
}.

Definition Table : Type := list Row.

(** ** What the build takes from its surroundings *)

Inductive Encoding : Type := utf_8_sig | utf_8 | cp1250 | iso_8859_2 | latin1.

(** the outcome of one [pd.read_csv] on the bytes of a file *)
Inductive CsvResult : Type :=
| DecodeFail
| ParseFail
| Parsed (t : Table).

(** a ReportLab flowable, and an item of a python-docx document *)
Inductive Flowable : Type :=
| Paragraph (text : string) (style : string)
| Spacer (height : Z)
| SummaryTable (cells : list (string * string)).

Inductive DocxItem : Type :=
| Heading (text : Json) (level : Z)     (* the value handed to [add_heading] *)
| Para (text : string).

(** The interpreter, the libraries and the clock:
    - [repr] and [repr_json] are [str(x)] for a value that is not a string;
    - [today] is [datetime.now().strftime(DATE_FMT)];
    - [project_root] is [PROJECT_ROOT.as_posix()];
    - [docx_installed] tells whether [from docx import Document] succeeds;
    - [json_loads] is [json.loads] on the text of a file ([None]: the text
      does not decode or is not JSON), [json_dumps] is [json.dumps];
    - [read_csv] is [pd.read_csv(..., encoding=enc, sep=None,
      engine="python")] on the bytes of a file;
    - [ttfont] tells whether [TTFont] loads the bytes as a font;
    - [render_pdf author base_font bold_font story] is the file that
      [doc.build(story)] writes, [render_docx] the one [doc.save] writes. *)
Class Runtime : Type := {
  repr : PyVal -> string;
  repr_json : Json -> string;
  today : string;
  project_root : string;
  docx_installed : bool;
  json_loads : string -> option Json;
  json_dumps : Json -> string;
  read_csv : Encoding -> string -> CsvResult;
  ttfont : string -> bool;
  render_pdf : Json -> string -> string -> list Flowable -> string;
  render_docx : list DocxItem -> string
}.

Section ParseDate.
Context {RT : Runtime}.

(** [str(x)] *)
Definition py_str (x : PyVal) : string :=
  match x with
  | VStr s => s
  | _ => repr x
  end.

(** the loop [for fmt in (DATE_FMT, "%Y-%m-%d")] *)
Fixpoint try_formats (s : string) (fmts : list Date.format) : Res (option datetime) :=
  match fmts with
  | [] => Ret None
  | fmt :: rest =>
      try_except
        (d <- Date.strptime s fmt ;; Ret (Some d))
        (fun _ => try_formats s rest)
  end.

Definition _parse_date_ddmmyyyy (s : PyVal) : Res (option datetime) :=
  match s with
  | VNone => Ret None
  | _ =>
      if (Py.is_float s && Pd.isna_scalar s)%bool then Ret None
      else
        let s := Str.strip (py_str s) in
        if negb (Str.truthy s) then Ret None
        else try_formats s [Date.DATE_FMT; Date.ISO_FMT]
  end.

End ParseDate.

(** *** Series and the dtype pandas infers for the result of [apply] *)

Module Series.

Definition zip_with {A B C} (f : A -> B -> C) (a : list A) (b : list B) : list C :=
  map (fun p => f (fst p) (snd p)) (combine a b).

(** [.str.upper()], [.str.lower()], [.eq(x)], [.str.contains(p)] *)
Definition str_upper : list string -> list string := map Str.upper.
Definition str_lower : list string -> list string := map Str.lower.
Definition eq (x : string) : list string -> list bool := map (fun s => String.eqb s x).
Definition str_contains (p : string) : list string -> list bool := map (Str.contains p).

(** [a | b], [a & b], [~a] on boolean masks *)
Definition or : list bool -> list bool -> list bool := zip_with orb.
Definition and : list bool -> list bool -> list bool := zip_with andb.
Definition not : list bool -> list bool := map negb.

(** [df.loc[mask]] *)
Definition loc {A} (rows : list A) (mask : list bool) : list A :=
  map fst (filter snd (combine rows mask)).

Definition INT64_MIN : Z := - 2 ^ 63.
Definition INT64_MAX : Z := 2 ^ 63 - 1.
Definition UINT64_MAX : Z := 2 ^ 64 - 1.

Definition is_none {A} (o : option A) : bool :=
  match o with None => true | Some _ => false end.

(** [lib.maybe_convert_objects] on integers: the scan gives up on a
    numeric dtype when, before the first null, an integer does not fit 64
    bits or signed and unsigned 64-bit values are mixed. *)
Fixpoint int_scan_object (sint uint : bool) (l : list (option Z)) : bool :=
  match l with
  | [] => false
  | None :: _ => false
  | Some v :: r =>
      let sint := (sint || ((INT64_MIN <=? v) && (v <? 0)))%bool in
      let uint := (uint || ((INT64_MAX <? v) && (v <=? UINT64_MAX)))%bool in
      if ((uint && sint) || (UINT64_MAX <? v) || (v <? INT64_MIN))%bool then true
      else int_scan_object sint uint r
  end.

Definition box_int (o : option Z) : PyVal :=
  match o with Some z => VInt z | None => VNone end.

Definition box_int_as_float (o : option Z) : PyVal :=
  match o with Some z => VFloat (Float.of_Z z) | None => VFloat Float.nan end.

(** The Series that [apply] builds from Python ints and [None]:
    - no [None]: an integer column, its values read back as [int];
    - ints and [None]: a float64 column, [None] becoming NaN and every
      int a float (unless the scan above keeps the objects);
    - only [None]: an object column of [None]. *)
Definition infer_int (col : list (option Z)) : list PyVal :=
  if existsb is_none col then
    if (int_scan_object false false col || forallb is_none col)%bool
    then map box_int col
    else map box_int_as_float col
  else map box_int col.

Definition box_float (o : option Float.float) : PyVal :=
  match o with Some f => VFloat f | None => VNone end.

Definition box_float_nan (o : option Float.float) : PyVal :=
  match o with Some f => VFloat f | None => VFloat Float.nan end.

(** floats and [None]: float64 with NaN for [None]; only [None]: object *)
Definition infer_float (col : list (option Float.float)) : list PyVal :=
  if forallb is_none col then map box_float col else map box_float_nan col.

Definition box_datetime (o : option datetime) : PyVal :=
  match o with Some d => VDatetime d | None => VNone end.

Definition box_timestamp (o : option datetime) : PyVal :=
  match o with Some d => VDatetime d | None => VNaT end.

Definition fits_ns (o : option datetime) : bool :=
  match o with Some d => Date.in_ns_range d | None => true end.

(** datetimes and [None]: datetime64[ns] with NaT for [None] when every
    date fits; otherwise the objects are kept. *)
Definition infer_datetime (col : list (option datetime)) : list PyVal :=
  if (negb (forallb is_none col) && forallb fits_ns col)%bool
  then map box_timestamp col
  else map box_datetime col.

(** [.dropna()] *)
Definition dropna (s : list PyVal) : list PyVal :=
  filter (fun v => negb (Pd.isna_scalar v)) s.

(** a cell as a number to add; anything else cannot be added to a float *)
Definition number (v : PyVal) : Res Float.float :=
  match v with
  | VFloat f => Ret f
  | VInt z => Ret (Float.of_Z z)
  | VBool b => Ret (Float.of_Z (if b then 1 else 0))
  | _ => Raise TypeError
  end.

(** [float(s.sum())]: the elements added up from zero. (The order in
    which numpy associates the additions is its own; here it is left to
    right.) *)
Definition sum (s : list PyVal) : Res Float.float :=
  fold_left (fun acc v => a <- acc ;; f <- number v ;; Ret (Float.add a f))
            s (Ret Float.zero).

End Series.

(** [count_where(mask)]: [int(mask.sum())] *)
Definition count_where (mask : list bool) : Z :=
  Z.of_nat (List.length (filter (fun b : bool => b) mask)).

(** *** Sorting a frame by a key column, descending *)

Section SortValues.
Variables K A : Type.
(** Python's [<] on keys, and [pd.isna] on keys *)
Variable ltb : K -> K -> bool.
Variable key_isna : K -> bool.

Fixpoint insert (x : K * A) (l : list (K * A)) : list (K * A) :=
  match l with
  | [] => [x]
  | y :: r => if ltb (fst y) (fst x) then y :: insert x r else x :: y :: r
  end.

(** ascending and stable; numpy's default kind sorts short arrays by
    insertion and gives equal keys no promised order on long ones. *)
Definition argsort (l : list (K * A)) : list (K * A) := fold_right insert [] l.

(** [nargsort(..., ascending=False, na_position="last")]: the non-null
    keys are reversed, sorted ascending and reversed again; the null keys
    follow in their original order. *)
Definition nargsort_desc (l : list (K * A)) : list (K * A) :=
  rev (argsort (rev (filter (fun p => negb (key_isna (fst p))) l)))
  ++ filter (fun p => key_isna (fst p)) l.

(** [df.sort_values(by=key, ascending=False)] *)
Definition sort_values_desc (keys : list K) (rows : list A) : list A :=
  map snd (nargsort_desc (combine keys rows)).

End SortValues.

(** *** The frame after [load_publications_df] *)

Record DataFrame : Type := mk_frame {
  rows : Table;
  year_int : list PyVal;
  mnicsw_points_num : list PyVal;
  impact_factor_num : list PyVal;
  start_date_dt : list PyVal;
  end_date_dt : list PyVal
}.

(** [df[c]] for a CSV column [c] *)
Definition col (c : Row -> string) (df : DataFrame) : list string :=
  map c (rows df).

Definition cells (c : Row -> string) (t : Table) : list PyVal :=
  map (fun r => VStr (c r)) t.

Section Load.
Context {RT : Runtime}.

(** the second half of [load_publications_df]: the coerced columns *)
Definition coerce_columns (t : Table) : Res DataFrame :=
  ys <- mapM _safe_int (cells year t) ;;
  ps <- mapM _safe_float (cells mnicsw_points t) ;;
  fs <- mapM _safe_float (cells impact_factor t) ;;
  sd <- mapM _parse_date_ddmmyyyy (cells start_date t) ;;
  ed <- mapM _parse_date_ddmmyyyy (cells end_date t) ;;
  Ret (mk_frame t
         (Series.infer_int ys)
         (Series.infer_float ps)
         (Series.infer_float fs)
         (Series.infer_datetime sd)
         (Series.infer_datetime ed)).

End Load.

(** ** [compute_summary] *)

Record Totals : Type := mk_totals {
  totals_mnicsw_points : Json;
  totals_sum_impact_factor : Json;
  totals_records_total : Z;
  totals_publications_list_a : Z;
  totals_publications_list_b : Z;
  totals_book_chapters : Z;
  totals_conference_contributions_total : Z;
  totals_conference_oral_presentations : Z;
  totals_conference_posters : Z;
  totals_conference_type_unspecified : Z
}.

Record ScholarMetrics : Type := mk_scholar {
  citations_all : Json;
  h_index_all : Json;
  i10_index_all : Json;
  last_updated : Json;
  profile_url : Json
}.

Record Summary : Type := mk_summary {
  computed_from : string;
  generated_on : string;
  totals : Totals;
  scholar_metrics : ScholarMetrics;
  year_counts : list (string * Z)
}.

(** the masks of [compute_summary] *)
Definition is_list_a (df : DataFrame) : list bool :=
  Series.eq "A" (Series.str_upper (col category df)).

Definition is_chapter (df : DataFrame) : list bool :=
  Series.or (Series.eq "book_chapter" (col record_type df))
            (Series.str_contains "book chapter" (Series.str_lower (col category df))).

Definition is_list_b (df : DataFrame) : list bool :=
  Series.or (Series.eq "B" (Series.str_upper (col category df))) (is_chapter df).

Definition is_conf (df : DataFrame) : list bool :=
  Series.or (Series.eq "conference_contribution" (col record_type df))
            (Series.eq "conference" (Series.str_lower (col category df))).

Definition conf_oral (df : DataFrame) : list bool :=
  Series.and (is_conf df)
             (Series.str_contains "oral" (Series.str_lower (col subtype df))).

Definition conf_poster (df : DataFrame) : list bool :=
  Series.and (is_conf df)
             (Series.str_contains "poster" (Series.str_lower (col subtype df))).

(** [float(pd.Series(column).dropna().sum())] *)
Definition column_total (column : list PyVal) : Res Float.float :=
  Series.sum (Series.dropna column).

(** [int(total) if float(total).is_integer() else total] *)
Definition int_if_integer (total : Float.float) : Res Json :=
  if Float.is_integer total
  then n <- Py.int total ;; Ret (JInt n)
  else Ret (JFloat total).

(** the integer a year cell stands for *)
Definition year_of_cell (v : PyVal) : option Z :=
  match v with
  | VInt z => Some z
  | VFloat f => match Float.to_int f with Ret z => Some z | Raise _ => None end
  | _ => None
  end.

Definition year_key (v : PyVal) : Z :=
  match year_of_cell v with Some z => z | None => 0 end.

(** the sizes of the runs of equal years in a list ordered by year *)
Fixpoint group_sizes (l : list PyVal) : list (PyVal * Z) :=
  match l with
  | [] => []
  | v :: r =>
      match group_sizes r with
      | (v', n) :: g =>
          if year_key v =? year_key v' then (v, n + 1) :: g
          else (v, 1) :: (v', n) :: g
      | [] => [(v, 1)]
      end
  end.

Section Summary.
Context {RT : Runtime}.

(** [df.dropna(subset=["year_int"]).groupby("year_int").size()
       .sort_index(ascending=False).to_dict()], with [str(k)] for keys *)
Definition compute_year_counts (df : DataFrame) : list (string * Z) :=
  let ys := Series.dropna (year_int df) in
  let sorted := sort_values_desc Z.ltb (fun _ => false) (map year_key ys) ys in
  map (fun p => (py_str (fst p), snd p)) (group_sizes sorted).

Definition compute_summary (df : DataFrame) (metrics : Json) : Res Summary :=
  total_points <- column_total (mnicsw_points_num df) ;;
  total_if <- column_total (impact_factor_num df) ;;
  let year_counts := compute_year_counts df in
  points <- int_if_integer total_points ;;
  let t := mk_totals
      points
      (JFloat (Float.round3 total_if))
      (Z.of_nat (List.length (rows df)))
      (count_where (is_list_a df))
      (count_where (is_list_b df))
      (count_where (is_chapter df))
      (count_where (is_conf df))
      (count_where (conf_oral df))
      (count_where (conf_poster df))
      (count_where (Series.and (is_conf df)
                       (Series.not (Series.or (conf_oral df) (conf_poster df))))) in
  c <- dict_get metrics "citations_all" (JStr "") ;;
  h <- dict_get metrics "h_index_all" (JStr "") ;;
  i <- dict_get metrics "i10_index_all" (JStr "") ;;
  l <- dict_get metrics "last_updated" (JStr "") ;;
  u <- dict_get metrics "profile_url" (JStr "") ;;
  Ret (mk_summary (project_root ++ "/data/publications.csv") today t (mk_scholar c h i l u) year_counts).

End Summary.

Definition totals_json (t : Totals) : Json :=
  JObj [ ("mnicsw_points", totals_mnicsw_points t);
         ("sum_impact_factor", totals_sum_impact_factor t);
         ("records_total", JInt (totals_records_total t));
         ("publications_list_a", JInt (totals_publications_list_a t));
         ("publications_list_b", JInt (totals_publications_list_b t));
         ("book_chapters", JInt (totals_book_chapters t));
         ("conference_contributions_total", JInt (totals_conference_contributions_total t));
         ("conference_oral_presentations", JInt (totals_conference_oral_presentations t));
         ("conference_posters", JInt (totals_conference_posters t));
         ("conference_type_unspecified", JInt (totals_conference_type_unspecified t)) ].

Definition scholar_json (m : ScholarMetrics) : Json :=
  JObj [ ("citations_all", citations_all m);
         ("h_index_all", h_index_all m);
         ("i10_index_all", i10_index_all m);
         ("last_updated", last_updated m);
         ("profile_url", profile_url m) ].

(** the dict that [main] hands to [json.dumps] *)
Definition summary_json (s : Summary) : Json :=
  JObj [ ("computed_from", JStr (computed_from s));
         ("generated_on", JStr (generated_on s));
         ("totals", totals_json (totals s));
         ("scholar_metrics", scholar_json (scholar_metrics s));
         ("year_counts", JObj (map (fun p => (fst p, JInt (snd p))) (year_counts s))) ].

(** ** [export_publications_json]: the order of the records *)

(** [dt.timestamp() if isinstance(dt, datetime) and not pd.isna(dt)
    else 0.0] *)
Definition timestamp_or_zero (dt : PyVal) : Z :=
  if (Py.is_datetime dt && negb (Pd.isna_scalar dt))%bool
  then match dt with VDatetime d => Date.timestamp d | _ => 0 end
  else 0.

(** [sort_key(row)]: the pair [(y, ts)] for the row's [year_int] and
    [start_date_dt] *)
Definition sort_key (year_cell start_cell : PyVal) : Z * Z :=
  let y := if Py.is_int year_cell then Py.int_value year_cell else -1 in
  let ts := timestamp_or_zero start_cell in
  (y, ts).

(** Python's [<] on pairs *)
Definition pair_ltb (a b : Z * Z) : bool :=
  ((fst a <? fst b) || ((fst a =? fst b) && (snd a <? snd b)))%bool.

(** [df_sorted]: the rows ordered by the [_sort] column, descending *)
Definition sorted_rows (df : DataFrame) : list Row :=
  let _sort := Series.zip_with sort_key (year_int df) (start_date_dt df) in
  sort_values_desc pair_ltb (fun _ => false) _sort (rows df).

(** a record of [keep_cols] *)
Definition record_json (r : Row) : Json :=
  JObj [ ("record_type", JStr (record_type r));
         ("year", JStr (year r));
         ("category", JStr (category r));
         ("subtype", JStr (subtype r));
         ("citation", JStr (citation r));
         ("doi", JStr (doi r));
         ("mnicsw_points", JStr (mnicsw_points r));
         ("impact_factor", JStr (impact_factor r));
         ("start_date", JStr (start_date r));
         ("end_date", JStr (end_date r));
         ("city", JStr (city r));
         ("country", JStr (country r));
         ("award", JStr (award r)) ].

(** [df_sorted[keep_cols].to_dict(orient="records")] *)
Definition publications_records (df : DataFrame) : list Json :=
  map record_json (sorted_rows df).

(** ** The CV documents *)

Module Text.

Definition of_Z (z : Z) : string := NilZero.string_of_int (Z.to_int z).
Definition of_nat (n : nat) : string := of_Z (Z.of_nat n).

(** two digits, as [%d] and [%m] print *)
Definition two_digits (z : Z) : string :=
  if z <? 10 then "0" ++ of_Z z else of_Z z.

Fixpoint escape (s : string) : string :=
  match s with
  | EmptyString => EmptyString
  | String c r =>
      if Ascii.eqb c "&" then "&amp;" ++ escape r
      else if Ascii.eqb c "<" then "&lt;" ++ escape r
      else if Ascii.eqb c ">" then "&gt;" ++ escape r
      else String c (escape r)
  end.

(** [enumerate(l, start=1)] *)
Definition enumerate {A} (l : list A) : list (nat * A) :=
  combine (seq 1 (List.length l)) l.

End Text.

(** Python's comparison of numbers, exact between ints and floats (the
    ints met here are exactly representable). *)
Definition num_compare (a b : PyVal) : option comparison :=
  match a, b with
  | VInt x, VInt y => Some (x ?= y)
  | VFloat x, VFloat y => SFcompare x y
  | VInt x, VFloat y => SFcompare (Float.of_Z x) y
  | VFloat x, VInt y => SFcompare x (Float.of_Z y)
  | _, _ => None
  end.

Definition num_ltb (a b : PyVal) : bool :=
  match num_compare a b with Some Lt => true | _ => false end.

Definition num_eqb (a b : PyVal) : bool :=
  match num_compare a b with Some Eq => true | _ => false end.

(** the masks the two renderers pass to [add_section], and the
    conference mask *)
Definition cv_list_a (t : Table) : list bool :=
  Series.eq "A" (Series.str_upper (map category t)).

Definition cv_list_b (t : Table) : list bool :=
  Series.eq "B" (Series.str_upper (map category t)).

Definition cv_chapters (t : Table) : list bool :=
  Series.or (Series.eq "book_chapter" (map record_type t))
            (Series.str_contains "book chapter" (Series.str_lower (map category t))).

Definition cv_conferences (t : Table) : list bool :=
  Series.or (Series.eq "conference_contribution" (map record_type t))
            (Series.eq "conference" (Series.str_lower (map category t))).

(** truth value of a cell: [None], zero and [False] are false, NaN is
    true *)
Definition cell_truthy (v : PyVal) : bool :=
  match v with
  | VNone => false
  | VBool b => b
  | VInt z => negb (z =? 0)
  | VFloat f => match f with S754_zero _ => false | _ => true end
  | VStr s => Str.truthy s
  | VList l => match l with [] => false | _ => true end
  | VDatetime _ | VNaT => true
  end.

(** [(ts, r["year_int"] or 0)] for the row's [start_dt] and [year_int] *)
Definition conf_sort_key (start_cell year_cell : PyVal) : Z * PyVal :=
  (timestamp_or_zero start_cell,
   if cell_truthy year_cell then year_cell else VInt 0).

(** Python's [<] on these pairs: the first components decide unless they
    are equal; NaN is neither equal to nor below anything. *)
Definition conf_key_ltb (a b : Z * PyVal) : bool :=
  if fst a =? fst b
  then (negb (num_eqb (snd a) (snd b)) && num_ltb (snd a) (snd b))%bool
  else fst a <? fst b.

(** [extras] and the text of an entry of [add_section] *)
Definition extras (r : Row) : list string :=
  (if Str.truthy (mnicsw_points r) then ["MNiSW: " ++ mnicsw_points r] else []) ++
  (if Str.truthy (impact_factor r) then ["IF: " ++ impact_factor r] else []) ++
  (if Str.truthy (doi r) then ["DOI: " ++ doi r] else []).

Definition entry_text (i : nat) (r : Row) : string :=
  let extra_line :=
    match extras r with
    | [] => ""
    | e => " (" ++ Str.join "; " e ++ ")"
    end in
  Text.of_nat i ++ ". " ++ citation r ++ extra_line.

(** [dt.strftime(DATE_FMT)] *)
Definition strftime (d : datetime) : string :=
  Text.two_digits (dt_day d) ++ "." ++ Text.two_digits (dt_month d) ++ "."
  ++ Text.of_Z (dt_year d).

Definition same_date (a b : datetime) : bool :=
  ((dt_year a =? dt_year b) && (dt_month a =? dt_month b) && (dt_day a =? dt_day b))%bool.

Section Cv.
Context {RT : Runtime}.

(** [str(x)] for a value read from JSON *)
Definition json_str (j : Json) : string :=
  match j with
  | JStr s => s
  | _ => repr_json j
  end.

(** [_rl_escape(s)]: [escape(str(s) if s is not None else "")] *)
Definition _rl_escape (s : Json) : string :=
  Text.escape (match s with JNull => "" | _ => json_str s end).

(** [sep.join(items)]: every item has to be a string. *)
Fixpoint join_values (items : list Json) : Res (list string) :=
  match items with
  | [] => Ret []
  | JStr s :: rest => r <- join_values rest ;; Ret (s :: r)
  | _ :: _ => Raise TypeError
  end.

(** the rows of a section of [add_section]: [df.loc[mask]], ordered by
    [year_int] descending, rows without a year last *)
Definition section_rows (t : Table) (mask : list bool) : Res (list Row) :=
  let sub := Series.loc t mask in
  ys <- mapM _safe_int (cells year sub) ;;
  Ret (sort_values_desc num_ltb Pd.isna_scalar (Series.infer_int ys) sub).

(** the rows of the conference section, ordered by [_sort] descending *)
Definition conference_rows (t : Table) : Res (list Row) :=
  let conf := Series.loc t (cv_conferences t) in
  ys <- mapM _safe_int (cells year conf) ;;
  sd <- mapM _parse_date_ddmmyyyy (cells start_date conf) ;;
  let _sort := Series.zip_with conf_sort_key
                 (Series.infer_datetime sd) (Series.infer_int ys) in
  Ret (sort_values_desc conf_key_ltb (fun _ => false) _sort conf).

Definition _format_date_range (start end_ : string) : Res string :=
  start_dt <- _parse_date_ddmmyyyy (VStr start) ;;
  end_dt <- _parse_date_ddmmyyyy (VStr end_) ;;
  match start_dt, end_dt with
  | Some s, Some e =>
      if same_date s e then Ret (strftime s)
      else Ret (strftime s ++ "–" ++ strftime e)
  | Some s, None => Ret (strftime s)
  | None, _ => Ret ""
  end.

Definition conference_entry_text (i : nat) (r : Row) : Res string :=
  dr <- _format_date_range (start_date r) (end_date r) ;;
  let loc := Str.join ", " (filter Str.truthy [city r; country r]) in
  let tail_parts := filter Str.truthy [subtype r; dr; loc; award r] in
  let tail := match tail_parts with
              | [] => ""
              | _ => " — " ++ Str.join " · " tail_parts
              end in
  Ret (Text.of_nat i ++ ". " ++ citation r ++ tail).

(** the nine lines of the summary, before [str] *)
Definition summary_items (s : Summary) : list (string * Json) :=
  let t := totals s in
  let m := scholar_metrics s in
  [ ("MNiSW points (computed)", totals_mnicsw_points t);
    ("Sum of journal impact factors (computed)", totals_sum_impact_factor t);
    ("Publications (List A)", JInt (totals_publications_list_a t));
    ("Other publications (List B)", JInt (totals_publications_list_b t));
    ("Book chapters", JInt (totals_book_chapters t));
    ("Conference contributions (total)", JInt (totals_conference_contributions_total t));
    ("Google Scholar citations", citations_all m);
    ("Google Scholar h-index", h_index_all m);
    ("Google Scholar last updated", last_updated m) ].

(** [" · ".join([f"{k}: {v}" for k, v in links.items()])] *)
Definition links_line (links : Json) : Res string :=
  match links with
  | JObj fields =>
      Ret (Str.join " · " (map (fun kv => fst kv ++ ": " ++ json_str (snd kv)) fields))
  | _ => Raise AttributeError
  end.

(** *** The PDF story *)

(** the paragraphs of a section of [add_section] for the rows [sub] *)
Definition pdf_entries (sub : list Row) : list Flowable :=
  match sub with
  | [] => [Paragraph "No records." "Body"; Spacer 6]
  | _ =>
      flat_map (fun ir => [Paragraph (_rl_escape (JStr (entry_text (fst ir) (snd ir)))) "Body";
                           Spacer 2])
               (Text.enumerate sub)
      ++ [Spacer 8]
  end.

Definition pdf_add_section (t : Table) (title : string) (mask : list bool)
  : Res (list Flowable) :=
  sub <- section_rows t mask ;;
  Ret (Paragraph (_rl_escape (JStr title)) "H2" :: pdf_entries sub).

(** the texts of the conference entries, numbered from 1 *)
Definition conference_texts (conf : list Row) : Res (list string) :=
  mapM (fun ir => conference_entry_text (fst ir) (snd ir)) (Text.enumerate conf).

Definition pdf_conference_paragraphs (texts : list string) : list Flowable :=
  flat_map (fun text => [Paragraph (_rl_escape (JStr text)) "Body"; Spacer 2]) texts.

Definition pdf_conferences (t : Table) : Res (list Flowable) :=
  let head := Paragraph (_rl_escape (JStr "Conference contributions")) "H2" in
  match Series.loc t (cv_conferences t) with
  | [] => Ret [head; Paragraph "No records." "Body"]
  | _ =>
      conf <- conference_rows t ;;
      texts <- conference_texts conf ;;
      Ret (head :: pdf_conference_paragraphs texts)
  end.

(** the author of the document and the flowables handed to [doc.build] *)
Definition pdf_story (profile : Json) (summary : Summary) (df : DataFrame)
  : Res (Json * list Flowable) :=
  author <- dict_get profile "name" (JStr "") ;;
  name <- dict_get profile "name" (JStr "Name") ;;
  role <- dict_get profile "role" (JStr "") ;;
  affiliation <- dict_get profile "affiliation" (JStr "") ;;
  location <- dict_get profile "location" (JStr "") ;;
  email <- dict_get profile "email" (JStr "") ;;
  links <- dict_get profile "links" (JObj []) ;;
  header_lines <- join_values (filter json_truthy [role; affiliation; location; email]) ;;
  link_part <- (if json_truthy links
                then line <- links_line links ;; Ret [Paragraph (_rl_escape (JStr line)) "Small"]
                else Ret []) ;;
  let t := rows df in
  a <- pdf_add_section t "Peer-reviewed publications (List A)" (cv_list_a t) ;;
  b <- pdf_add_section t "Other publications (List B)" (cv_list_b t) ;;
  c <- pdf_add_section t "Book chapters" (cv_chapters t) ;;
  conf <- pdf_conferences t ;;
  Ret (author,
       ([Paragraph (_rl_escape name) "H1";
         Paragraph (_rl_escape (JStr (Str.join " · " header_lines))) "Body"]
        ++ link_part
        ++ [Spacer 10;
            Paragraph "Summary" "H2";
            SummaryTable (map (fun kv => (fst kv, json_str (snd kv))) (summary_items summary));
            Spacer 10]
        ++ a ++ b ++ c ++ conf)%list).

(** *** The DOCX document *)

(** the paragraphs of a section of [add_section] for the rows [sub] *)
Definition docx_entries (sub : list Row) : list DocxItem :=
  match sub with
  | [] => [Para "No records."]
  | _ => map (fun ir => Para (entry_text (fst ir) (snd ir))) (Text.enumerate sub)
  end.

Definition docx_add_section (t : Table) (title : string) (mask : list bool)
  : Res (list DocxItem) :=
  sub <- section_rows t mask ;;
  Ret (Heading (JStr title) 1 :: docx_entries sub).

Definition docx_conferences (t : Table) : Res (list DocxItem) :=
  let head := Heading (JStr "Conference contributions") 1 in
  conf <- conference_rows t ;;
  match conf with
  | [] => Ret [head; Para "No records."]
  | _ =>
      texts <- conference_texts conf ;;
      Ret (head :: map Para texts)
  end.

Definition docx_document (profile : Json) (summary : Summary) (df : DataFrame)
  : Res (list DocxItem) :=
  name <- dict_get profile "name" (JStr "Name") ;;
  role <- dict_get profile "role" (JStr "") ;;
  affiliation <- dict_get profile "affiliation" (JStr "") ;;
  location <- dict_get profile "location" (JStr "") ;;
  email <- dict_get profile "email" (JStr "") ;;
  header <- join_values (filter json_truthy [role; affiliation; location; email]) ;;
  let header_line := Str.join " · " header in
  links <- dict_get profile "links" (JObj []) ;;
  link_part <- (if json_truthy links
                then line <- links_line links ;; Ret [Para line]
                else Ret []) ;;
  let t := rows df in
  a <- docx_add_section t "Peer-reviewed publications (List A)" (cv_list_a t) ;;
  b <- docx_add_section t "Other publications (List B)" (cv_list_b t) ;;
  c <- docx_add_section t "Book chapters" (cv_chapters t) ;;
  conf <- docx_conferences t ;;
  Ret ([Heading name 0]
       ++ (if Str.truthy header_line then [Para header_line] else [])
       ++ link_part
       ++ [Heading (JStr "Summary") 1]
       ++ map (fun kv => Para (fst kv ++ ": " ++ json_str (snd kv))%string) (summary_items summary)
       ++ a ++ b ++ c ++ conf)%list.

End Cv.

(** ** Files *)

Inductive Path : Type :=
| PUBLICATIONS_CSV
| PUBLICATIONS_JSON
| SUMMARY_JSON
| PROFILE_JSON
| METRICS_JSON
| CV_PDF
| CV_DOCX
| FONT_REGULAR      (* assets/fonts/DejaVuSans.ttf *)
| FONT_BOLD.        (* assets/fonts/DejaVuSans-Bold.ttf *)

Definition Path_eq_dec (a b : Path) : {a = b} + {a <> b}.
Proof. decide equality. Defined.

Definition path_eqb (a b : Path) : bool :=
  if Path_eq_dec a b then true else false.

(** what a run does to files, in order *)
Inductive Event : Type :=
| Probe (p : Path)
| Read (p : Path)
| Write (p : Path).

Definition FileSystem : Type := Path -> option string.

Record World : Type := mk_world {
  fs : FileSystem;
  trace : list Event
}.

Definition log (e : Event) (w : World) : World :=
  mk_world (fs w) (trace w ++ [e]).

(** a computation on files that may raise; the world it leaves behind is
    kept when it raises *)
Definition IO (A : Type) : Type := World -> Res A * World.

Definition io_ret {A} (a : A) : IO A := fun w => (Ret a, w).
Definition io_raise {A} (e : exn) : IO A := fun w => (Raise e, w).
Definition io_lift {A} (r : Res A) : IO A := fun w => (r, w).

Definition io_bind {A B} (m : IO A) (k : A -> IO B) : IO B :=
  fun w =>
    match m w with
    | (Ret a, w') => k a w'
    | (Raise e, w') => (Raise e, w')
    end.

Definition io_try {A} (body : IO A) (handler : exn -> IO A) : IO A :=
  fun w =>
    match body w with
    | (Ret a, w') => (Ret a, w')
    | (Raise e, w') => handler e w'
    end.

Notation "x <~ m ;; k" := (io_bind m (fun x => k))
  (at level 61, m at next level, right associativity) : res_scope.

(** [p.exists()] *)
Definition path_exists (p : Path) : IO bool :=
  fun w => (Ret (match fs w p with Some _ => true | None => false end),
            log (Probe p) w).

(** opening [p] and reading it to the end *)
Definition read_bytes (p : Path) : IO string :=
  fun w =>
    match fs w p with
    | Some s => (Ret s, log (Read p) w)
    | None => (Raise FileNotFoundError, w)
    end.

(** [p.write_text(s)], [doc.build], [doc.save] *)
Definition write_bytes (p : Path) (s : string) : IO unit :=
  fun w =>
    (Ret tt,
     mk_world (fun q => if path_eqb q p then Some s else fs w q)
              (trace w ++ [Write p])).

(** ** The build *)

Section Build.
Context {RT : Runtime}.

Definition load_profile : IO Json :=
  ex <~ path_exists PROFILE_JSON ;;
  if negb ex then io_raise FileNotFoundError
  else
    text <~ read_bytes PROFILE_JSON ;;
    match json_loads text with
    | Some j => io_ret j
    | None => io_raise ValueError
    end.

Definition default_metrics : Json :=
  JObj [ ("source", JStr "Google Scholar");
         ("author_id", JStr "");
         ("profile_url", JStr "");
         ("citations_all", JStr "");
         ("citations_since_2016", JStr "");
         ("h_index_all", JStr "");
         ("h_index_since_2016", JStr "");
         ("i10_index_all", JStr "");
         ("i10_index_since_2016", JStr "");
         ("last_updated", JStr "");
         ("note", JStr "metrics.json not found") ].

Definition load_scholar_metrics : IO Json :=
  ex <~ path_exists METRICS_JSON ;;
  if negb ex then io_ret default_metrics
  else
    text <~ read_bytes METRICS_JSON ;;
    match json_loads text with
    | Some j => io_ret j
    | None => io_raise ValueError
    end.

Definition encodings_to_try : list Encoding :=
  [utf_8_sig; utf_8; cp1250; iso_8859_2; latin1].

(** one [pd.read_csv(PUBLICATIONS_CSV, ..., encoding=enc)] *)
Definition read_csv_file (enc : Encoding) : IO Table :=
  bytes <~ read_bytes PUBLICATIONS_CSV ;;
  match read_csv enc bytes with
  | Parsed t => io_ret t
  | DecodeFail => io_raise UnicodeDecodeError
  | ParseFail => io_raise ParserError
  end.

(** the loop over the encodings: [(df, last_err)] when it ends *)
Fixpoint read_with_fallback (encs : list Encoding) (last_err : option exn)
  : IO (option Table * option exn) :=
  match encs with
  | [] => io_ret (None, last_err)
  | enc :: rest =>
      io_try
        (t <~ read_csv_file enc ;; io_ret (Some t, last_err))
        (fun e => read_with_fallback rest (Some e))
  end.

Definition load_publications_df : IO DataFrame :=
  ex <~ path_exists PUBLICATIONS_CSV ;;
  if negb ex then io_raise FileNotFoundError
  else
    r <~ read_with_fallback encodings_to_try None ;;
    match r with
    | (None, Some e) => io_raise e
    | (None, None) => io_raise UnboundLocalError
    | (Some t, _) => io_lift (coerce_columns t)
    end.

Definition export_publications_json (df : DataFrame) : IO unit :=
  write_bytes PUBLICATIONS_JSON (json_dumps (JArr (publications_records df))).

(** the fonts of the PDF: DejaVu when the files are there and load,
    Helvetica otherwise *)
Definition load_font (p : Path) : IO unit :=
  bytes <~ read_bytes p ;;
  if ttfont bytes then io_ret tt else io_raise ValueError.

Definition choose_fonts : IO (string * string) :=
  io_try
    (ex <~ path_exists FONT_REGULAR ;;
     if ex then
       _ <~ load_font FONT_REGULAR ;;
       ex_bold <~ path_exists FONT_BOLD ;;
       if ex_bold then
         _ <~ load_font FONT_BOLD ;;
         io_ret ("DejaVuSans", "DejaVuSans-Bold")
       else io_ret ("DejaVuSans", "DejaVuSans")
     else io_ret ("Helvetica", "Helvetica-Bold"))
    (fun _ => io_ret ("Helvetica", "Helvetica-Bold")).

(** (creating the assets directory leaves no event) *)
Definition generate_cv_pdf (profile : Json) (summary : Summary) (df : DataFrame)
  : IO unit :=
  fonts <~ choose_fonts ;;
  doc <~ io_lift (pdf_story profile summary df) ;;
  write_bytes CV_PDF (render_pdf (fst doc) (fst fonts) (snd fonts) (snd doc)).

Definition generate_cv_docx (profile : Json) (summary : Summary) (df : DataFrame)
  : IO unit :=
  if negb docx_installed then io_ret tt
  else
    doc <~ io_lift (docx_document profile summary df) ;;
    write_bytes CV_DOCX (render_docx doc).

(** (the lines printed at the end are left out) *)
Definition main : IO unit :=
  profile <~ load_profile ;;
  metrics <~ load_scholar_metrics ;;
  df <~ load_publications_df ;;
  _ <~ export_publications_json df ;;
  summary <~ io_lift (compute_summary df metrics) ;;
  _ <~ write_bytes SUMMARY_JSON (json_dumps (summary_json summary)) ;;
  _ <~ generate_cv_pdf profile summary df ;;
  generate_cv_docx profile summary df.

End Build.

(** * [fetch_scholar_metrics_serpapi.py]: the metrics of a response *)

Module FetchMetrics.

(** [d.get(k)] for a dict with the fields [d] *)
Definition get (d : list (string * Json)) (k : string) : Json :=
  match assoc k d with Some v => v | None => JNull end.

(** the loop [for k in (...): if k in d: since_val = d.get(k); break] *)
Fixpoint since_value (d : list (string * Json)) (keys : list string) : Json :=
  match keys with
  | [] => JNull
  | k :: rest =>
      match assoc k d with
      | Some v => v
      | None => since_value d rest
      end
  end.

Definition SINCE_KEYS : list string :=
  ["since_2016"; "depuis_2016"; "since_2017"; "since_2018"]%string.

(** [_extract_since_key(d)]; only a dict has [get] *)
Definition _extract_since_key (d : Json) : Res (Json * Json) :=
  match d with
  | JObj fields => Ret (get fields "all", since_value fields SINCE_KEYS)
  | _ => Raise AttributeError
  end.

(** the six variables of [_parse_cited_by_table] *)
Record Cited : Type := mk_cited {
  citations_all : Json;
  citations_since : Json;
  h_all : Json;
  h_since : Json;
  i10_all : Json;
  i10_since : Json
}.

(** the loop [for key in keys: if key in row and isinstance(row[key],
    dict): ...; break]: the dict it stops at *)
Fixpoint first_dict (row : list (string * Json)) (keys : list string) : option Json :=
  match keys with
  | [] => None
  | key :: rest =>
      match assoc key row with
      | Some (JObj d) => Some (JObj d)
      | _ => first_dict row rest
      end
  end.

(** the body of the loop over the rows of the table *)
Definition row_step (st : Cited) (row : Json) : Res Cited :=
  match row with
  | JObj fields =>
      match assoc "citations" fields with
      | Some (JObj d) =>
          p <- _extract_since_key (JObj d) ;;
          Ret (mk_cited (fst p) (snd p) (h_all st) (h_since st) (i10_all st) (i10_since st))
      | _ =>
          st1 <- match first_dict fields ["h_index"; "indice_h"]%string with
                 | Some d =>
                     p <- _extract_since_key d ;;
                     Ret (mk_cited (citations_all st) (citations_since st)
                                   (fst p) (snd p) (i10_all st) (i10_since st))
                 | None => Ret st
                 end ;;
          match first_dict fields ["i10_index"; "indice_i10"]%string with
          | Some d =>
              p <- _extract_since_key d ;;
              Ret (mk_cited (citations_all st1) (citations_since st1)
                            (h_all st1) (h_since st1) (fst p) (snd p))
          | None => Ret st1
          end
      end
  | _ => Ret st
  end.

Fixpoint rows_loop (st : Cited) (rows : list Json) : Res Cited :=
  match rows with
  | [] => Ret st
  | row :: rest => st' <- row_step st row ;; rows_loop st' rest
  end.

Definition cited_json (st : Cited) : Json :=
  JObj [ ("citations_all", citations_all st);
         ("citations_since_2016", citations_since st);
         ("h_index_all", h_all st);
         ("h_index_since_2016", h_since st);
         ("i10_index_all", i10_all st);
         ("i10_index_since_2016", i10_since st) ]%string.

Definition _parse_cited_by_table (table : Json) : Res Json :=
  match table with
  | JArr rows =>
      st <- rows_loop (mk_cited JNull JNull JNull JNull JNull JNull) rows ;;
      Ret (cited_json st)
  | _ => Ret (JObj [])
  end.


End FetchMetrics.

(** ** A small runtime to run the build on examples *)

Module Demo.

Definition newline : string := String (ascii_of_nat 10) "".
Definition quote : string := String (ascii_of_nat 34) "".

Definition repr_float (f : Float.float) : string :=
  match f with
  | S754_nan => "nan"
  | S754_infinity s => if s then "-inf" else "inf"
  | _ =>
      if Float.is_integer f
      then match Float.to_int f with
           | Ret z => Text.of_Z z ++ ".0"
           | Raise _ => "?"
           end
      else "<float>"
  end.

Definition demo_repr (v : PyVal) : string :=
  match v with
  | VNone => "None"
  | VBool b => if b then "True" else "False"
  | VInt z => Text.of_Z z
  | VFloat f => repr_float f
  | VStr s => s
  | VDatetime d =>
      Text.of_Z (dt_year d) ++ "-" ++ Text.two_digits (dt_month d) ++ "-"
      ++ Text.two_digits (dt_day d) ++ " 00:00:00"
  | VNaT => "NaT"
  | VList _ => "[...]"
  end.

Fixpoint demo_dumps (j : Json) : string :=
  match j with
  | JNull => "null"
  | JBool b => if b then "true" else "false"
  | JInt z => Text.of_Z z
  | JFloat f => repr_float f
  | JStr s => quote ++ s ++ quote
  | JArr items => "[" ++ Str.join ", " (map demo_dumps items) ++ "]"
  | JObj fields =>
      "{" ++ Str.join ", "
               (map (fun kv => quote ++ fst kv ++ quote ++ ": " ++ demo_dumps (snd kv)) fields)
      ++ "}"
  end.

(** a reader of the smallest JSON texts *)
Definition demo_loads (s : string) : option Json :=
  let t := Str.strip s in
  if String.eqb t "{}" then Some (JObj [])
  else if String.eqb t "[]" then Some (JArr [])
  else if String.eqb t "null" then Some JNull
  else if (Str.truthy t && Date.all_digits t)%bool then Some (JInt (Date.number 0 t))
  else None.

Definition high_byte (c : ascii) : bool := Nat.leb 128 (nat_of_ascii c).

Definition cp1250_undefined (c : ascii) : bool :=
  let n := nat_of_ascii c in
  (Nat.eqb n 129 || Nat.eqb n 131 || Nat.eqb n 136 || Nat.eqb n 144 || Nat.eqb n 152)%bool.

(** whether the bytes decode: this reader takes only ASCII for UTF-8 *)
Definition decodes (enc : Encoding) (bytes : string) : bool :=
  match enc with
  | utf_8_sig | utf_8 => negb (existsb high_byte (Str.chars bytes))
  | cp1250 => negb (existsb cp1250_undefined (Str.chars bytes))
  | iso_8859_2 | latin1 => true
  end.

Definition row_of_fields (f : list string) : option Row :=
  match f with
  | [a; b; c; d; e; f; g; h; i; j; k; l; m] => Some (mk_row a b c d e f g h i j k l m)
  | _ => None
  end.

Fixpoint rows_of_lines (lines : list string) : option Table :=
  match lines with
  | [] => Some []
  | l :: rest =>
      if Str.truthy l then
        match row_of_fields (Str.split ";" l), rows_of_lines rest with
        | Some r, Some t => Some (r :: t)
        | _, _ => None
        end
      else rows_of_lines rest
  end.

(** a reader of semicolon-separated lines of thirteen fields under a
    header line *)
Definition demo_read_csv (enc : Encoding) (bytes : string) : CsvResult :=
  if decodes enc bytes then
    match Str.split (ascii_of_nat 10) bytes with
    | [] => ParseFail
    | header :: lines =>
        if Str.truthy header then
          match rows_of_lines lines with
          | Some t => Parsed t
          | None => ParseFail
          end
        else ParseFail
    end
  else DecodeFail.

Definition flowable_text (f : Flowable) : string :=
  match f with
  | Paragraph text _ => text
  | Spacer _ => ""
  | SummaryTable cells => Str.join newline (map (fun kv => fst kv ++ " " ++ snd kv) cells)
  end.

Definition item_text (i : DocxItem) : string :=
  match i with
  | Heading text _ => match text with JStr s => s | _ => "" end
  | Para text => text
  end.

#[export] Instance runtime : Runtime := {|
  repr := demo_repr;
  repr_json := demo_dumps;
  today := "03.11.2026";
  project_root := "/site";
  docx_installed := true;
  json_loads := demo_loads;
  json_dumps := demo_dumps;
  read_csv := demo_read_csv;
  ttfont := fun _ => true;
  render_pdf := fun author base bold story =>
    "%PDF " ++ base ++ newline ++ Str.join newline (map flowable_text story);
  render_docx := fun doc => "PK " ++ Str.join newline (map item_text doc)
|}.

Definition header : string :=
  "record_type;year;category;subtype;citation;doi;mnicsw_points;impact_factor;start_date;end_date;city;country;award".

(** the bytes of a CSV file with the given lines under the header *)
Definition csv_file (lines : list string) : string :=
  Str.join newline (header :: lines) ++ newline.

Definition no_files : FileSystem := fun _ => None.

Definition with_file (p : Path) (s : string) (f : FileSystem) : FileSystem :=
  fun q => if path_eqb q p then Some s else f q.

Definition start (f : FileSystem) : World := mk_world f [].

End Demo.

(** * The vocabulary of the statements *)

(** the value of a computation known not to raise *)
Definition value_or {A} (d : A) (r : Res A) : A :=
  match r with Ret a => a | Raise _ => d end.

Definition total {A B} (f : A -> Res B) : Prop :=
  forall x, exists r, f x = Ret r.

(** ** Rows and their predicates *)

Definition row_is_a (r : Row) : bool := String.eqb (Str.upper (category r)) "A".
Definition row_is_b (r : Row) : bool := String.eqb (Str.upper (category r)) "B".

Definition row_is_chapter (r : Row) : bool :=
  (String.eqb (record_type r) "book_chapter"
   || Str.contains "book chapter" (Str.lower (category r)))%bool.

Definition row_is_conf (r : Row) : bool :=
  (String.eqb (record_type r) "conference_contribution"
   || String.eqb (Str.lower (category r)) "conference")%bool.

Definition row_has_oral (r : Row) : bool := Str.contains "oral" (Str.lower (subtype r)).
Definition row_has_poster (r : Row) : bool := Str.contains "poster" (Str.lower (subtype r)).

(** the number of rows that satisfy a predicate *)
Definition count_rows (p : Row -> bool) (t : Table) : Z :=
  Z.of_nat (List.length (filter p t)).

(** The sum over the rows of the values of column [c] that parse as floats
    and are not NaN, added up from zero in row order; a row whose cell does
    not parse, or parses to NaN, leaves the sum as it is. *)
Definition parsed_sum (c : Row -> string) (t : Table) : Float.float :=
  fold_left
    (fun acc r =>
       match _safe_float (VStr (c r)) with
       | Ret (Some f) => if Float.is_nan f then acc else Float.add acc f
       | _ => acc
       end)
    t Float.zero.






(** ** Files and events *)

Definition Event_eq_dec (a b : Event) : {a = b} + {a <> b}.
Proof. decide equality; apply Path_eq_dec. Defined.

(** how often an event occurs *)
Definition occurrences (e : Event) (l : list Event) : nat :=
  count_occ Event_eq_dec l e.

Definition is_input (p : Path) : bool :=
  match p with
  | PUBLICATIONS_CSV | PROFILE_JSON | METRICS_JSON | FONT_REGULAR | FONT_BOLD => true
  | _ => false
  end.

Definition is_output (p : Path) : bool :=
  match p with
  | PUBLICATIONS_JSON | SUMMARY_JSON | CV_PDF | CV_DOCX => true
  | _ => false
  end.



Section Vocabulary.
Context {RT : Runtime}.

(** the frame [coerce_columns] returns, column by column *)
Definition coerced (t : Table) : DataFrame :=
  mk_frame t
    (Series.infer_int (map (fun r => value_or None (_safe_int (VStr (year r)))) t))
    (Series.infer_float (map (fun r => value_or None (_safe_float (VStr (mnicsw_points r)))) t))
    (Series.infer_float (map (fun r => value_or None (_safe_float (VStr (impact_factor r)))) t))
    (Series.infer_datetime
       (map (fun r => value_or None (_parse_date_ddmmyyyy (VStr (start_date r)))) t))
    (Series.infer_datetime
       (map (fun r => value_or None (_parse_date_ddmmyyyy (VStr (end_date r)))) t)).

(** what the loop over the encodings ends with, for the bytes of the file *)
Fixpoint fallback_result (encs : list Encoding) (last_err : option exn) (bytes : string)
  : option Table * option exn :=
  match encs with
  | [] => (None, last_err)
  | enc :: rest =>
      match read_csv enc bytes with
      | Parsed t => (Some t, last_err)
      | DecodeFail => fallback_result rest (Some UnicodeDecodeError) bytes
      | ParseFail => fallback_result rest (Some ParserError) bytes
      end
  end.

(** the result of [load_publications_df] when the file is there *)
Definition load_outcome (bytes : string) : Res DataFrame :=
  match fallback_result encodings_to_try None bytes with
  | (Some t, _) => coerce_columns t
  | (None, Some e) => Raise e
  | (None, None) => Raise UnboundLocalError
  end.

(** a JSON file that is there but does not parse *)
Definition json_broken (w : World) (p : Path) : bool :=
  match fs w p with
  | Some text => match json_loads text with Some _ => false | None => true end
  | None => false
  end.


(** [conf] are the rows under "Conference contributions", in order, in
    the PDF and in the DOCX: one numbered entry for each *)
Definition conference_section_of (t : Table) (conf : list Row) : Prop :=
  exists texts,
    conference_rows t = Ret conf /\
    conference_texts conf = Ret texts /\
    List.length texts = List.length conf /\
    pdf_conferences t
    = Ret (Paragraph (_rl_escape (JStr "Conference contributions")) "H2"
           :: match texts with
              | [] => [Paragraph "No records." "Body"]
              | _ => pdf_conference_paragraphs texts
              end) /\
    docx_conferences t
    = Ret (Heading (JStr "Conference contributions") 1
           :: match texts with
              | [] => [Para "No records."]
              | _ => map Para texts
              end).

(** the key the export is meant to sort by: the year, and the start of
    the conference or the epoch *)
Definition year_of_row (r : Row) : option Z := value_or None (_safe_int (VStr (year r))).

Definition start_of_row (r : Row) : option datetime :=
  value_or None (_parse_date_ddmmyyyy (VStr (start_date r))).

Definition intended_key (r : Row) : Z * Z :=
  (match year_of_row r with Some y => y | None => -1 end,
   match start_of_row r with Some d => Date.timestamp d | None => 0 end).

End Vocabulary.

(** ** Example tables and file systems *)

Module Examples.
Import Demo.

Local Open Scope string_scope.

(** a publication row with a type, a year, a category, points and an
    impact factor *)
Definition pub (rt y cat pts impact : string) : Row :=
  mk_row rt y cat "" ("Paper " ++ y) "" pts impact "" "" "" "" "".

(** a conference row with a year, a subtype and a start date *)
Definition talk (y sub start : string) : Row :=
  mk_row "conference_contribution" y "conference" sub ("Talk " ++ y) "" "" ""
         start "" "" "" "".

Definition summary_of (t : Table) : Summary :=
  value_or (mk_summary "" "" (mk_totals JNull JNull 0 0 0 0 0 0 0 0)
                       (mk_scholar JNull JNull JNull JNull JNull) [])
           (compute_summary (coerced t) default_metrics).

(** a table with an article, a chapter in List B, and three talks *)
Definition mixed_table : Table :=
  [ pub "article" "2020" "A" "100" "2.5";
    pub "book_chapter" "2019" "B" "20" "";
    talk "2021" "Oral presentation" "12.05.2021";
    talk "2021" "Poster" "2021-05-13";
    talk "2022" "Keynote" "" ].




(** three articles, the second without a year *)
Definition gap_table : Table :=
  [ pub "article" "2020" "A" "" ""; pub "article" "" "A" "" "";
    pub "article" "2021" "A" "" "" ].



(** a file in a Central European encoding: the byte 243 is no UTF-8 *)
Definition latin2_csv : string :=
  csv_file [ "article;2020;A;;Kr" ++ String (ascii_of_nat 243) "l;;10;1.5;;;;;" ].


Definition latin2 : World :=
  start (with_file PROFILE_JSON "{}" (with_file PUBLICATIONS_CSV latin2_csv no_files)).

Definition broken_metrics : World :=
  start (with_file PROFILE_JSON "{}" (with_file METRICS_JSON "oops" no_files)).

End Examples.

(** further tables and worlds *)
Module Worlds.
Import Demo.

Local Open Scope string_scope.

(** the table in [Examples.latin2_csv], as cp1250 reads it *)
Definition latin2_table : Table :=
  [ mk_row "article" "2020" "A" "" ("Kr" ++ String (ascii_of_nat 243) "l") ""
           "10" "1.5" "" "" "" "" "" ].


End Worlds.

(** * Properties *)

(** ** The coercions never raise *)

Lemma try_except_total {A} (body : Res A) (handler : exn -> Res A) :
  (forall e, exists r, handler e = Ret r) ->
  exists r, try_except body handler = Ret r.
Proof.
  intros H. destruct body as [a | e]; simpl.
  - now exists a.
  - apply H.
Qed.

Lemma total_value {A B} (d : B) (f : A -> Res B) :
  total f -> forall x, f x = Ret (value_or d (f x)).
Proof.
  intros H x. destruct (H x) as [r Hr]. now rewrite Hr.
Qed.

Lemma mapM_total {A B} (d : B) (f : A -> Res B) :
  total f -> forall l, mapM f l = Ret (map (fun x => value_or d (f x)) l).
Proof.
  intros H l. induction l as [| a l IH]; simpl.
  - reflexivity.
  - rewrite (total_value d H a), IH. reflexivity.
Qed.

Lemma _safe_float_total : total _safe_float.
Proof.
  intros x. unfold _safe_float. apply try_except_total.
  intros _. now exists None.
Qed.

Lemma _safe_int_total : total _safe_int.
Proof.
  intros x. unfold _safe_int. apply try_except_total.
  intros _. now exists None.
Qed.

Section DateTotal.
Context {RT : Runtime}.

Lemma try_formats_total (s : string) (fmts : list Date.format) :
  exists r, try_formats s fmts = Ret r.
Proof.
  induction fmts as [| fmt rest IH]; simpl.
  - now exists None.
  - apply try_except_total. intros _. exact IH.
Qed.

Lemma _parse_date_ddmmyyyy_total : total _parse_date_ddmmyyyy.
Proof.
  intros x. unfold _parse_date_ddmmyyyy.
  destruct x; try (now exists None);
    match goal with
    | |- context [if ?c then _ else _] => destruct c; [now exists None |]
    end;
    (match goal with
     | |- context [if ?c then _ else _] => destruct c; [now exists None |]
     end);
    apply try_formats_total.
Qed.

Lemma coerce_columns_ret (t : Table) : coerce_columns t = Ret (coerced t).
Proof.
  unfold coerce_columns, cells.
  rewrite (mapM_total None _safe_int_total).
  rewrite (mapM_total None _safe_float_total), (mapM_total None _safe_float_total).
  rewrite (mapM_total None _parse_date_ddmmyyyy_total).
  rewrite (mapM_total None _parse_date_ddmmyyyy_total).
  simpl. unfold coerced. now rewrite !map_map.
Qed.

End DateTotal.

Lemma infer_int_length (c : list (option Z)) :
  List.length (Series.infer_int c) = List.length c.
Proof.
  unfold Series.infer_int.
  repeat match goal with |- context [if ?b then _ else _] => destruct b end;
    apply length_map.
Qed.


Lemma infer_datetime_length (c : list (option datetime)) :
  List.length (Series.infer_datetime c) = List.length c.
Proof.
  unfold Series.infer_datetime.
  match goal with |- context [if ?b then _ else _] => destruct b end;
    apply length_map.
Qed.


(** ** The masks of [compute_summary], row by row *)

Lemma zip_with_map {A B C D} (f : B -> C -> D) (g : A -> B) (h : A -> C) (l : list A) :
  Series.zip_with f (map g l) (map h l) = map (fun x => f (g x) (h x)) l.
Proof.
  unfold Series.zip_with. induction l as [| a l IH]; simpl; [reflexivity |].
  now rewrite IH.
Qed.

Lemma count_map {A} (p : A -> bool) (l : list A) :
  count_where (map p l) = Z.of_nat (List.length (filter p l)).
Proof.
  unfold count_where. f_equal.
  induction l as [| a l IH]; simpl; [reflexivity |].
  destruct (p a); simpl; now rewrite IH.
Qed.

Lemma loc_map {A} (p : A -> bool) (l : list A) :
  Series.loc l (map p l) = filter p l.
Proof.
  unfold Series.loc. induction l as [| a l IH]; simpl; [reflexivity |].
  destruct (p a); simpl; now rewrite IH.
Qed.

Lemma is_list_a_rows df : is_list_a df = map row_is_a (rows df).
Proof.
  unfold is_list_a, Series.eq, Series.str_upper, col. now rewrite !map_map.
Qed.

Lemma is_chapter_rows df : is_chapter df = map row_is_chapter (rows df).
Proof.
  unfold is_chapter, Series.or, Series.eq, Series.str_contains, Series.str_lower, col.
  rewrite !map_map. apply zip_with_map.
Qed.

Lemma is_list_b_rows df :
  is_list_b df = map (fun r => (row_is_b r || row_is_chapter r)%bool) (rows df).
Proof.
  unfold is_list_b. rewrite is_chapter_rows.
  unfold Series.or, Series.eq, Series.str_upper, col.
  rewrite !map_map. apply (zip_with_map orb).
Qed.

Lemma is_conf_rows df : is_conf df = map row_is_conf (rows df).
Proof.
  unfold is_conf, Series.or, Series.eq, Series.str_lower, col.
  rewrite !map_map. apply zip_with_map.
Qed.

Lemma conf_oral_rows df :
  conf_oral df = map (fun r => (row_is_conf r && row_has_oral r)%bool) (rows df).
Proof.
  unfold conf_oral. rewrite is_conf_rows.
  unfold Series.and, Series.str_contains, Series.str_lower, col.
  rewrite !map_map. apply (zip_with_map andb).
Qed.

Lemma conf_poster_rows df :
  conf_poster df = map (fun r => (row_is_conf r && row_has_poster r)%bool) (rows df).
Proof.
  unfold conf_poster. rewrite is_conf_rows.
  unfold Series.and, Series.str_contains, Series.str_lower, col.
  rewrite !map_map. apply (zip_with_map andb).
Qed.

Lemma conf_unspecified_rows df :
  Series.and (is_conf df) (Series.not (Series.or (conf_oral df) (conf_poster df)))
  = map (fun r => (row_is_conf r
                   && negb ((row_is_conf r && row_has_oral r)
                            || (row_is_conf r && row_has_poster r)))%bool) (rows df).
Proof.
  rewrite is_conf_rows, conf_oral_rows, conf_poster_rows.
  unfold Series.or, Series.and, Series.not.
  rewrite (zip_with_map orb), map_map. apply (zip_with_map andb).
Qed.

(** what [compute_summary] returns when it returns *)
Lemma compute_summary_inv (RT : Runtime) df metrics s :
  compute_summary df metrics = Ret s ->
  exists total_points total_if points,
    column_total (mnicsw_points_num df) = Ret total_points /\
    column_total (impact_factor_num df) = Ret total_if /\
    int_if_integer total_points = Ret points /\
    totals s = mk_totals points (JFloat (Float.round3 total_if))
                 (Z.of_nat (List.length (rows df)))
                 (count_rows row_is_a (rows df))
                 (count_rows (fun r => (row_is_b r || row_is_chapter r)%bool) (rows df))
                 (count_rows row_is_chapter (rows df))
                 (count_rows row_is_conf (rows df))
                 (count_rows (fun r => (row_is_conf r && row_has_oral r)%bool) (rows df))
                 (count_rows (fun r => (row_is_conf r && row_has_poster r)%bool) (rows df))
                 (count_rows (fun r => (row_is_conf r
                      && negb ((row_is_conf r && row_has_oral r)
                               || (row_is_conf r && row_has_poster r)))%bool) (rows df)) /\
    exists c h i l u,
      dict_get metrics "citations_all" (JStr "") = Ret c /\
      dict_get metrics "h_index_all" (JStr "") = Ret h /\
      dict_get metrics "i10_index_all" (JStr "") = Ret i /\
      dict_get metrics "last_updated" (JStr "") = Ret l /\
      dict_get metrics "profile_url" (JStr "") = Ret u /\
      scholar_metrics s = mk_scholar c h i l u.
Proof.
  unfold compute_summary. intros H.
  destruct (column_total (mnicsw_points_num df)) as [tp |] eqn:Etp; simpl in H; [| discriminate].
  destruct (column_total (impact_factor_num df)) as [ti |] eqn:Eti; simpl in H; [| discriminate].
  destruct (int_if_integer tp) as [points |] eqn:Ep; simpl in H; [| discriminate].
  destruct (dict_get metrics "citations_all" (JStr "")) as [c |] eqn:Ec; simpl in H; [| discriminate].
  destruct (dict_get metrics "h_index_all" (JStr "")) as [h |] eqn:Eh; simpl in H; [| discriminate].
  destruct (dict_get metrics "i10_index_all" (JStr "")) as [i |] eqn:Ei; simpl in H; [| discriminate].
  destruct (dict_get metrics "last_updated" (JStr "")) as [l |] eqn:El; simpl in H; [| discriminate].
  destruct (dict_get metrics "profile_url" (JStr "")) as [u |] eqn:Eu; simpl in H; [| discriminate].
  injection H as <-. cbn [totals scholar_metrics].
  exists tp, ti, points. split; [reflexivity |]. split; [reflexivity |].
  split; [exact Ep |]. split.
  - rewrite conf_unspecified_rows, is_list_a_rows, is_list_b_rows, is_chapter_rows,
      is_conf_rows, conf_oral_rows, conf_poster_rows.
    unfold count_rows. now rewrite !count_map.
  - exists c, h, i, l, u. repeat split.
Qed.

(** *** Counting *)

Lemma filter_length_le_imp {A} (p q : A -> bool) (l : list A) :
  (forall x, p x = true -> q x = true) ->
  (List.length (filter p l) <= List.length (filter q l))%nat.
Proof.
  intros H. induction l as [| a l IH]; simpl; [lia |].
  destruct (p a) eqn:Hp.
  - rewrite (H a Hp). simpl. lia.
  - destruct (q a); simpl; lia.
Qed.

Lemma filter_length_split {A} (p q : A -> bool) (l : list A) :
  (List.length (filter (fun x => p x && q x)%bool l)
   + List.length (filter (fun x => p x && negb (q x))%bool l)
   = List.length (filter p l))%nat.
Proof.
  induction l as [| a l IH]; simpl; [reflexivity |].
  destruct (p a), (q a); simpl; lia.
Qed.

Lemma filter_length_or {A} (p q : A -> bool) (l : list A) :
  (List.length (filter p l) + List.length (filter q l)
   = List.length (filter (fun x => p x || q x)%bool l)
     + List.length (filter (fun x => p x && q x)%bool l))%nat.
Proof.
  induction l as [| a l IH]; simpl; [reflexivity |].
  destruct (p a), (q a); simpl; lia.
Qed.

Lemma filter_length_zero {A} (p : A -> bool) (l : list A) :
  List.length (filter p l) = 0%nat <-> (forall x, In x l -> p x = false).
Proof.
  induction l as [| a l IH]; simpl.
  - split; [intros _ x [] | reflexivity].
  - destruct (p a) eqn:Hp; simpl.
    + split; [discriminate |].
      intros H. specialize (H a (or_introl eq_refl)). congruence.
    + rewrite IH. split.
      * intros H x [<- | Hx]; auto.
      * intros H x Hx. apply H. now right.
Qed.

(** C9. In every summary, [totals.book_chapters] is at most
    [totals.publications_list_b]: the two are the numbers of rows that
    satisfy the book-chapter predicate ([record_type] equal to
    "book_chapter", or [category] containing "book chapter" in any case)
    and the List B predicate, and the latter is the disjunction of
    category "B" with the former, so every row counted as a chapter is
    counted in List B. *)
Theorem book_chapters_le_list_b (RT : Runtime) df metrics s :
  compute_summary df metrics = Ret s ->
  totals_book_chapters (totals s) <= totals_publications_list_b (totals s) /\
  totals_book_chapters (totals s) = count_rows row_is_chapter (rows df) /\
  totals_publications_list_b (totals s)
  = count_rows (fun r => (row_is_b r || row_is_chapter r)%bool) (rows df) /\
  (forall r, row_is_chapter r = true -> (row_is_b r || row_is_chapter r)%bool = true).
Proof.
  intros H.
  destruct (compute_summary_inv _ _ _ H) as (tp & ti & points & _ & _ & _ & Ht & _).
  rewrite Ht; simpl. split; [| repeat split].
  - unfold count_rows. apply inj_le, filter_length_le_imp.
    intros r Hr. rewrite Hr. apply orb_true_r.
  - intros r Hr. rewrite Hr. apply orb_true_r.
Qed.

(** C10. In every summary, [totals.conference_type_unspecified] is
    [totals.conference_contributions_total] minus the number of conference
    rows whose subtype contains "oral" or "poster" (in any case); hence
    oral presentations + posters + unspecified is at least the conference
    total, and equals it exactly when no conference row has a subtype that
    contains both words. *)
Theorem conference_breakdown (RT : Runtime) df metrics s :
  compute_summary df metrics = Ret s ->
  let T := totals s in
  totals_conference_type_unspecified T
  = totals_conference_contributions_total T
    - count_rows (fun r => (row_has_oral r || row_has_poster r)%bool)
        (filter row_is_conf (rows df)) /\
  totals_conference_oral_presentations T + totals_conference_posters T
    + totals_conference_type_unspecified T
  >= totals_conference_contributions_total T /\
  (totals_conference_oral_presentations T + totals_conference_posters T
     + totals_conference_type_unspecified T
   = totals_conference_contributions_total T
   <-> forall r, In r (rows df) -> row_is_conf r = true ->
                 (row_has_oral r && row_has_poster r)%bool = false).
Proof.
  intros H T. subst T.
  destruct (compute_summary_inv _ _ _ H) as (tp & ti & points & _ & _ & _ & Ht & _).
  rewrite Ht; simpl. clear Ht H. unfold count_rows.
  set (t := rows df).
  set (c := row_is_conf). set (o := row_has_oral). set (p := row_has_poster).
  (* the masks, simplified under [c] *)
  assert (Eo : filter (fun r => c r && o r)%bool t = filter o (filter c t)).
  { clear. induction t as [| a t IH]; simpl; [reflexivity |].
    destruct (c a); simpl; [destruct (o a) |]; now rewrite IH. }
  assert (Ep : filter (fun r => c r && p r)%bool t = filter p (filter c t)).
  { clear. induction t as [| a t IH]; simpl; [reflexivity |].
    destruct (c a); simpl; [destruct (p a) |]; now rewrite IH. }
  assert (Eu : filter (fun r => c r && negb ((c r && o r) || (c r && p r)))%bool t
               = filter (fun r => negb (o r || p r)) (filter c t)).
  { clear. induction t as [| a t IH]; simpl; [reflexivity |].
    destruct (c a); simpl; [destruct (o a), (p a) |]; simpl; now rewrite IH. }
  rewrite Eo, Ep, Eu. clear Eo Ep Eu.
  set (cs := filter c t).
  pose proof (filter_length_or o p cs) as Hor.
  pose proof (filter_length_split (fun _ : Row => true) (fun r => o r || p r)%bool cs) as Hsp.
  simpl in Hsp.
  assert (Hall : filter (fun _ : Row => true) cs = cs).
  { clear. induction cs as [| a l IH]; simpl; [reflexivity | now rewrite IH]. }
  rewrite Hall in Hsp.
  split; [lia |]. split; [lia |].
  split.
  - intros Heq r Hin Hc.
    assert (Hz : List.length (filter (fun x => o x && p x)%bool cs) = 0%nat) by lia.
    apply (proj1 (filter_length_zero _ _) Hz).
    unfold cs. apply filter_In. now split.
  - intros Hno.
    assert (Hz : List.length (filter (fun x => o x && p x)%bool cs) = 0%nat).
    { apply filter_length_zero. intros x Hx. unfold cs in Hx.
      apply filter_In in Hx. destruct Hx as [Hin Hc]. now apply Hno. }
    lia.
Qed.

(** ** The two float totals *)

(** the non-null values of a column of parsed floats *)
Definition kept (o : option Float.float) : list Float.float :=
  match o with
  | Some f => if Float.is_nan f then [] else [f]
  | None => []
  end.

Lemma dropna_cons (v : PyVal) (l : list PyVal) :
  Series.dropna (v :: l)
  = if Pd.isna_scalar v then Series.dropna l else v :: Series.dropna l.
Proof.
  unfold Series.dropna. simpl. now destruct (Pd.isna_scalar v).
Qed.

Lemma dropna_infer_float (c : list (option Float.float)) :
  Series.dropna (Series.infer_float c) = map VFloat (flat_map kept c).
Proof.
  unfold Series.infer_float.
  destruct (forallb Series.is_none c);
    induction c as [| o c IH]; try reflexivity;
    cbn [map flat_map]; rewrite dropna_cons, IH;
    destruct o as [f |]; try reflexivity;
    unfold Pd.isna_scalar; simpl; destruct (Float.is_nan f); reflexivity.
Qed.

Lemma sum_floats (l : list Float.float) (a : Float.float) :
  fold_left (fun acc v => a <- acc ;; f <- Series.number v ;; Ret (Float.add a f))
            (map VFloat l) (Ret a)
  = Ret (fold_left Float.add l a).
Proof.
  revert a. induction l as [| f l IH]; intros a; simpl; [reflexivity |].
  apply IH.
Qed.

Lemma fold_kept {A} (g : A -> option Float.float) (l : list A) (a : Float.float) :
  fold_left Float.add (flat_map kept (map g l)) a
  = fold_left (fun acc r =>
                 match g r with
                 | Some f => if Float.is_nan f then acc else Float.add acc f
                 | None => acc
                 end) l a.
Proof.
  revert a. induction l as [| r l IH]; intros a; simpl; [reflexivity |].
  rewrite fold_left_app, IH.
  destruct (g r) as [f |]; simpl; [destruct (Float.is_nan f) |]; reflexivity.
Qed.

Lemma fold_left_pointwise {A B} (f g : A -> B -> A) (l : list B) (a : A) :
  (forall x y, f x y = g x y) -> fold_left f l a = fold_left g l a.
Proof.
  intros H. revert a. induction l as [| b l IH]; intros a; simpl; [reflexivity |].
  now rewrite H, IH.
Qed.

(** the total of a coerced float column is the row-wise sum *)
Lemma column_total_parsed (c : Row -> string) (t : Table) :
  column_total
    (Series.infer_float (map (fun r => value_or None (_safe_float (VStr (c r)))) t))
  = Ret (parsed_sum c t).
Proof.
  unfold column_total, Series.sum. rewrite dropna_infer_float, sum_floats.
  rewrite (fold_kept (fun r => value_or None (_safe_float (VStr (c r))))).
  unfold parsed_sum. f_equal.
  apply fold_left_pointwise. intros acc r.
  destruct (_safe_float_total (VStr (c r))) as [o Ho]. rewrite Ho. simpl.
  reflexivity.
Qed.



Lemma coerce_columns_inv (RT : Runtime) t df :
  coerce_columns t = Ret df -> df = coerced t.
Proof.
  rewrite coerce_columns_ret. intros H. now injection H.
Qed.



(** ** Sorting keeps the rows *)

Section SortFacts.
Variables K A : Type.
Variable ltb : K -> K -> bool.
Variable key_isna : K -> bool.

Lemma insert_perm (x : K * A) (l : list (K * A)) :
  Permutation (insert ltb x l) (x :: l).
Proof.
  induction l as [| y l IH]; simpl; [reflexivity |].
  destruct (ltb (fst y) (fst x)); [| reflexivity].
  rewrite IH. apply perm_swap.
Qed.

Lemma argsort_perm (l : list (K * A)) : Permutation (argsort ltb l) l.
Proof.
  induction l as [| x l IH]; simpl; [reflexivity |].
  rewrite insert_perm. now constructor.
Qed.

Lemma filter_partition_perm {B} (p : B -> bool) (l : list B) :
  Permutation (filter (fun x => negb (p x)) l ++ filter p l) l.
Proof.
  induction l as [| x l IH]; simpl; [reflexivity |].
  destruct (p x); simpl.
  - rewrite <- Permutation_middle. now constructor.
  - now constructor.
Qed.

Lemma nargsort_desc_perm (l : list (K * A)) :
  Permutation (nargsort_desc ltb key_isna l) l.
Proof.
  unfold nargsort_desc.
  rewrite <- Permutation_rev, argsort_perm, <- Permutation_rev.
  apply (filter_partition_perm (fun p => key_isna (fst p))).
Qed.

Lemma map_snd_combine (keys : list K) (rows : list A) :
  List.length keys = List.length rows -> map snd (combine keys rows) = rows.
Proof.
  revert keys. induction rows as [| r rows IH]; intros [| k keys]; simpl;
    try discriminate; try reflexivity.
  intros H. injection H as H. now rewrite IH.
Qed.

Lemma sort_values_desc_perm (keys : list K) (rows : list A) :
  List.length keys = List.length rows ->
  Permutation (sort_values_desc ltb key_isna keys rows) rows.
Proof.
  intros H. unfold sort_values_desc.
  rewrite nargsort_desc_perm. now rewrite map_snd_combine.
Qed.

End SortFacts.

Lemma zip_with_length {A B C} (f : A -> B -> C) (a : list A) (b : list B) :
  List.length a = List.length b ->
  List.length (Series.zip_with f a b) = List.length a.
Proof.
  intros H. unfold Series.zip_with.
  rewrite length_map, length_combine, H. apply Nat.min_id.
Qed.

Section Records.
Context {RT : Runtime}.

Lemma sorted_rows_perm (t : Table) : Permutation (sorted_rows (coerced t)) t.
Proof.
  unfold sorted_rows. apply sort_values_desc_perm.
  cbn [coerced year_int start_date_dt rows].
  rewrite zip_with_length;
    rewrite infer_int_length, ?infer_datetime_length, !length_map; reflexivity.
Qed.





Lemma cv_conferences_rows (t : Table) : cv_conferences t = map row_is_conf t.
Proof.
  unfold cv_conferences, Series.or, Series.eq, Series.str_lower.
  rewrite !map_map. apply zip_with_map.
Qed.

Lemma conference_rows_perm (t : Table) :
  exists conf, conference_rows t = Ret conf /\ Permutation conf (filter row_is_conf t).
Proof.
  unfold conference_rows. rewrite cv_conferences_rows, loc_map.
  unfold cells. rewrite (mapM_total None _safe_int_total).
  rewrite (mapM_total None _parse_date_ddmmyyyy_total). simpl.
  eexists. split; [reflexivity |].
  apply sort_values_desc_perm.
  rewrite zip_with_length;
    rewrite infer_datetime_length, ?infer_int_length, !length_map; reflexivity.
Qed.

Lemma _format_date_range_total (a b : string) : exists s, _format_date_range a b = Ret s.
Proof.
  unfold _format_date_range.
  destruct (_parse_date_ddmmyyyy_total (VStr a)) as [x ->].
  destruct (_parse_date_ddmmyyyy_total (VStr b)) as [y ->]. simpl.
  destruct x as [x |], y as [y |]; eauto.
  destruct (same_date x y); eauto.
Qed.

Lemma conference_entry_text_total (i : nat) (r : Row) :
  exists s, conference_entry_text i r = Ret s.
Proof.
  unfold conference_entry_text.
  destruct (_format_date_range_total (start_date r) (end_date r)) as [dr ->].
  simpl. eauto.
Qed.

Lemma conference_texts_ret (conf : list Row) :
  exists texts, conference_texts conf = Ret texts /\
                List.length texts = List.length conf.
Proof.
  unfold conference_texts. rewrite (mapM_total ""%string).
  - eexists. split; [reflexivity |].
    unfold Text.enumerate.
    rewrite length_map, length_combine, length_seq. apply Nat.min_id.
  - intros ir. apply conference_entry_text_total.
Qed.


Lemma conference_section (t : Table) :
  exists conf, conference_section_of t conf /\
               Permutation conf (filter row_is_conf t).
Proof.
  destruct (conference_rows_perm t) as (conf & Hc & Hp).
  destruct (conference_texts_ret conf) as (texts & Ht & Hl).
  exists conf. split; [| exact Hp].
  exists texts. split; [exact Hc |]. split; [exact Ht |]. split; [exact Hl |].
  unfold pdf_conferences, docx_conferences. rewrite Hc. cbn [bind].
  rewrite cv_conferences_rows, loc_map.
  destruct (filter row_is_conf t) as [| r rest] eqn:Ef.
  - apply Permutation_sym, Permutation_nil in Hp. subst conf.
    destruct texts; [| discriminate]. split; reflexivity.
  - destruct conf as [| c conf].
    { apply Permutation_nil in Hp. discriminate. }
    rewrite Ht. cbn [bind].
    destruct texts; [discriminate |]. split; reflexivity.
Qed.


End Records.

(** ** The file effects of a run *)

Local Open Scope list_scope.

(** [m] adds to the trace no more than the events of [budget], each at
    most as often as it occurs there, and leaves every file it does not
    write as it was *)
Definition within {A} (m : IO A) (budget : list Event) : Prop :=
  forall w, exists evs,
    trace (snd (m w)) = trace w ++ evs /\
    (forall e, (occurrences e evs <= occurrences e budget)%nat) /\
    (forall p, ~ In (Write p) evs -> fs (snd (m w)) p = fs w p).

Lemma within_ret {A} (a : A) : within (io_ret a) [].
Proof.
  intros w. exists []. simpl. rewrite app_nil_r. repeat split; auto.
Qed.

Lemma within_raise {A} (e : exn) : within (@io_raise A e) [].
Proof.
  intros w. exists []. simpl. rewrite app_nil_r. repeat split; auto.
Qed.

Lemma within_lift {A} (r : Res A) : within (io_lift r) [].
Proof.
  intros w. exists []. simpl. rewrite app_nil_r. repeat split; auto.
Qed.

Lemma within_weaken {A} (m : IO A) (b b' : list Event) :
  within m b -> (forall e, (occurrences e b <= occurrences e b')%nat) -> within m b'.
Proof.
  intros H Hb w. destruct (H w) as (evs & Ht & Hc & Hf).
  exists evs. repeat split; auto.
  intros e. specialize (Hc e). specialize (Hb e). lia.
Qed.

Lemma within_bind {A B} (m : IO A) (k : A -> IO B) (b1 b2 : list Event) :
  within m b1 -> (forall a, within (k a) b2) -> within (io_bind m k) (b1 ++ b2).
Proof.
  intros Hm Hk w. unfold io_bind.
  destruct (Hm w) as (e1 & Ht1 & Hc1 & Hf1).
  destruct (m w) as [[a | e] w1]; simpl in *.
  - destruct (Hk a w1) as (e2 & Ht2 & Hc2 & Hf2).
    exists (e1 ++ e2). split; [| split].
    + rewrite Ht2, Ht1. now rewrite app_assoc.
    + intros e. unfold occurrences in *. rewrite !count_occ_app.
      specialize (Hc1 e). specialize (Hc2 e). lia.
    + intros p Hp. rewrite Hf2, Hf1; auto.
      * intros Hin. apply Hp. apply in_or_app. now left.
      * intros Hin. apply Hp. apply in_or_app. now right.
  - exists e1. split; [assumption | split].
    + intros e'. unfold occurrences in *. rewrite count_occ_app.
      specialize (Hc1 e'). lia.
    + assumption.
Qed.

Lemma within_try {A} (body : IO A) (handler : exn -> IO A) (b1 b2 : list Event) :
  within body b1 -> (forall e, within (handler e) b2) ->
  within (io_try body handler) (b1 ++ b2).
Proof.
  intros Hm Hk w. unfold io_try.
  destruct (Hm w) as (e1 & Ht1 & Hc1 & Hf1).
  destruct (body w) as [[a | e] w1]; simpl in *.
  - exists e1. split; [assumption | split].
    + intros e'. unfold occurrences in *. rewrite count_occ_app.
      specialize (Hc1 e'). lia.
    + assumption.
  - destruct (Hk e w1) as (e2 & Ht2 & Hc2 & Hf2).
    exists (e1 ++ e2). split; [| split].
    + rewrite Ht2, Ht1. now rewrite app_assoc.
    + intros e'. unfold occurrences in *. rewrite !count_occ_app.
      specialize (Hc1 e'). specialize (Hc2 e'). lia.
    + intros p Hp. rewrite Hf2, Hf1; auto.
      * intros Hin. apply Hp. apply in_or_app. now left.
      * intros Hin. apply Hp. apply in_or_app. now right.
Qed.

Lemma within_exists (p : Path) : within (path_exists p) [Probe p].
Proof.
  intros w. exists [Probe p]. simpl. repeat split; auto.
Qed.

Lemma within_read (p : Path) : within (read_bytes p) [Read p].
Proof.
  intros w. unfold read_bytes. destruct (fs w p); simpl.
  - exists [Read p]. repeat split; auto.
  - exists []. rewrite app_nil_r. repeat split; auto.
    intros e. unfold occurrences. simpl. lia.
Qed.

Lemma within_write (p : Path) (s : string) : within (write_bytes p s) [Write p].
Proof.
  intros w. exists [Write p]. simpl. repeat split; auto.
  intros q Hq. unfold path_eqb. destruct (Path_eq_dec q p) as [-> |]; [| reflexivity].
  exfalso. apply Hq. now left.
Qed.

Lemma within_if {A} (c : bool) (m1 m2 : IO A) (b : list Event) :
  within m1 b -> within m2 b -> within (if c then m1 else m2) b.
Proof. now destruct c. Qed.

Lemma within_nil_l {A} (m : IO A) (b : list Event) : within m [] -> within m b.
Proof.
  intros H. eapply within_weaken; [exact H |].
  intros e. unfold occurrences. simpl. lia.
Qed.

Section BuildEffects.
Context {RT : Runtime}.

Lemma load_profile_within : within load_profile [Probe PROFILE_JSON; Read PROFILE_JSON].
Proof.
  unfold load_profile.
  apply within_bind with (b1 := [Probe PROFILE_JSON]) (b2 := [Read PROFILE_JSON]);
    [apply within_exists |].
  intros ex. apply within_if; [apply within_nil_l, within_raise |].
  apply within_bind with (b1 := [Read PROFILE_JSON]) (b2 := []); [apply within_read |].
  intros text. destruct (json_loads text); [apply within_ret | apply within_raise].
Qed.

Lemma load_scholar_metrics_within :
  within load_scholar_metrics [Probe METRICS_JSON; Read METRICS_JSON].
Proof.
  unfold load_scholar_metrics.
  apply within_bind with (b1 := [Probe METRICS_JSON]) (b2 := [Read METRICS_JSON]);
    [apply within_exists |].
  intros ex. apply within_if; [apply within_nil_l, within_ret |].
  apply within_bind with (b1 := [Read METRICS_JSON]) (b2 := []); [apply within_read |].
  intros text. destruct (json_loads text); [apply within_ret | apply within_raise].
Qed.

Lemma read_csv_file_within (enc : Encoding) :
  within (read_csv_file enc) [Read PUBLICATIONS_CSV].
Proof.
  unfold read_csv_file.
  apply within_bind with (b1 := [Read PUBLICATIONS_CSV]) (b2 := []); [apply within_read |].
  intros bytes. destruct (read_csv enc bytes);
    [apply within_raise | apply within_raise | apply within_ret].
Qed.

Lemma read_with_fallback_within (encs : list Encoding) (last_err : option exn) :
  within (read_with_fallback encs last_err)
         (repeat (Read PUBLICATIONS_CSV) (List.length encs)).
Proof.
  revert last_err. induction encs as [| enc rest IH]; intros last_err; simpl.
  - apply within_ret.
  - apply within_try with (b1 := [Read PUBLICATIONS_CSV]).
    + apply within_bind with (b1 := [Read PUBLICATIONS_CSV]) (b2 := []);
        [apply read_csv_file_within | intros t; apply within_ret].
    + intros e. apply IH.
Qed.

Lemma load_publications_df_within :
  within load_publications_df
         (Probe PUBLICATIONS_CSV :: repeat (Read PUBLICATIONS_CSV) 5).
Proof.
  unfold load_publications_df.
  apply within_bind with (b1 := [Probe PUBLICATIONS_CSV]); [apply within_exists |].
  intros ex. apply within_if; [apply within_nil_l, within_raise |].
  replace (repeat (Read PUBLICATIONS_CSV) 5)
    with (repeat (Read PUBLICATIONS_CSV) (List.length encodings_to_try) ++ [])
    by reflexivity.
  apply within_bind; [apply read_with_fallback_within |].
  intros [[t |] [e |]];
    first [apply within_lift | apply within_raise].
Qed.

Lemma load_font_within (p : Path) : within (load_font p) [Read p].
Proof.
  unfold load_font.
  apply within_bind with (b1 := [Read p]) (b2 := []); [apply within_read |].
  intros bytes. destruct (ttfont bytes); [apply within_ret | apply within_raise].
Qed.

Lemma choose_fonts_within :
  within choose_fonts [Probe FONT_REGULAR; Read FONT_REGULAR; Probe FONT_BOLD; Read FONT_BOLD].
Proof.
  unfold choose_fonts.
  replace [Probe FONT_REGULAR; Read FONT_REGULAR; Probe FONT_BOLD; Read FONT_BOLD]
    with ([Probe FONT_REGULAR; Read FONT_REGULAR; Probe FONT_BOLD; Read FONT_BOLD] ++ [])
    by reflexivity.
  apply within_try; [| intros e; apply within_ret].
  apply within_bind with (b1 := [Probe FONT_REGULAR]); [apply within_exists |].
  intros ex. apply within_if; [| apply within_nil_l, within_ret].
  apply within_bind with (b1 := [Read FONT_REGULAR]); [apply load_font_within |].
  intros _.
  apply within_bind with (b1 := [Probe FONT_BOLD]); [apply within_exists |].
  intros exb. apply within_if; [| apply within_nil_l, within_ret].
  apply within_bind with (b1 := [Read FONT_BOLD]) (b2 := []); [apply load_font_within |].
  intros _. apply within_ret.
Qed.

Lemma generate_cv_pdf_within profile summary df :
  within (generate_cv_pdf profile summary df)
         [Probe FONT_REGULAR; Read FONT_REGULAR; Probe FONT_BOLD; Read FONT_BOLD; Write CV_PDF].
Proof.
  unfold generate_cv_pdf.
  apply within_bind with (b1 := [Probe FONT_REGULAR; Read FONT_REGULAR; Probe FONT_BOLD; Read FONT_BOLD]) (b2 := [Write CV_PDF]); [apply choose_fonts_within |].
  intros fonts.
  apply within_bind with (b1 := []) (b2 := [Write CV_PDF]); [apply within_lift |].
  intros doc. apply within_write.
Qed.

Lemma generate_cv_docx_within profile summary df :
  within (generate_cv_docx profile summary df) [Write CV_DOCX].
Proof.
  unfold generate_cv_docx.
  apply within_if; [apply within_nil_l, within_ret |].
  apply within_bind with (b1 := []) (b2 := [Write CV_DOCX]); [apply within_lift |].
  intros doc. apply within_write.
Qed.

(** everything a run may do to files, each event as often as it may occur *)
Definition main_budget : list Event :=
  [Probe PROFILE_JSON; Read PROFILE_JSON;
   Probe METRICS_JSON; Read METRICS_JSON;
   Probe PUBLICATIONS_CSV;
   Read PUBLICATIONS_CSV; Read PUBLICATIONS_CSV; Read PUBLICATIONS_CSV;
   Read PUBLICATIONS_CSV; Read PUBLICATIONS_CSV;
   Write PUBLICATIONS_JSON;
   Write SUMMARY_JSON;
   Probe FONT_REGULAR; Read FONT_REGULAR; Probe FONT_BOLD; Read FONT_BOLD;
   Write CV_PDF;
   Write CV_DOCX].

Lemma main_within : within main main_budget.
Proof.
  unfold main, main_budget.
  apply within_bind with (b1 := [Probe PROFILE_JSON; Read PROFILE_JSON]);
    [apply load_profile_within |]. intros profile.
  apply within_bind with (b1 := [Probe METRICS_JSON; Read METRICS_JSON]);
    [apply load_scholar_metrics_within |]. intros metrics.
  apply within_bind with (b1 := Probe PUBLICATIONS_CSV :: repeat (Read PUBLICATIONS_CSV) 5);
    [apply load_publications_df_within |]. intros df.
  apply within_bind with (b1 := [Write PUBLICATIONS_JSON]); [apply within_write |]. intros _.
  apply within_bind with (b1 := []); [apply within_lift |]. intros summary.
  apply within_bind with (b1 := [Write SUMMARY_JSON]); [apply within_write |]. intros _.
  apply within_bind with (b1 := [Probe FONT_REGULAR; Read FONT_REGULAR; Probe FONT_BOLD; Read FONT_BOLD; Write CV_PDF]);
    [apply generate_cv_pdf_within |]. intros _.
  apply generate_cv_docx_within.
Qed.

End BuildEffects.

(** C7, as the code has it. In a single run the build reads profile.json
    and metrics.json at most once each and publications.csv at most five
    times (once for every encoding it tries, until one is read), writes
    each of its four outputs at most once, and never writes to any of its
    input files, which are the same after the run as before. *)
Theorem read_aggregate_write_once (RT : Runtime) (w : World) :
  exists evs,
    trace (snd (main w)) = trace w ++ evs /\
    (occurrences (Read PROFILE_JSON) evs <= 1)%nat /\
    (occurrences (Read METRICS_JSON) evs <= 1)%nat /\
    (occurrences (Read PUBLICATIONS_CSV) evs <= 5)%nat /\
    (forall p, is_output p = true -> (occurrences (Write p) evs <= 1)%nat) /\
    (forall p, is_input p = true ->
               occurrences (Write p) evs = 0%nat /\ fs (snd (main w)) p = fs w p).
Proof.
  destruct (main_within w) as (evs & Ht & Hc & Hf).
  exists evs. split; [exact Ht |].
  split; [exact (Hc (Read PROFILE_JSON)) |].
  split; [exact (Hc (Read METRICS_JSON)) |].
  split; [exact (Hc (Read PUBLICATIONS_CSV)) |].
  split.
  - intros p Hp. destruct p; try discriminate; exact (Hc (Write _)).
  - intros p Hp.
    assert (Hz : occurrences (Write p) evs = 0%nat).
    { destruct p; try discriminate;
        match goal with |- occurrences ?e _ = _ => pose proof (Hc e) as H end;
        unfold occurrences in *; simpl in H; lia. }
    split; [exact Hz |].
    apply Hf. unfold occurrences in Hz.
    now apply (count_occ_not_In Event_eq_dec).
Qed.

(** ** What can raise, and what *)

(** a computation that does not raise [FileNotFoundError] *)
Definition never_fnf {A} (r : Res A) : Prop := r <> Raise FileNotFoundError.

Lemma never_fnf_ret {A} (a : A) : never_fnf (Ret a).
Proof. discriminate. Qed.

Lemma never_fnf_returns {A} (r : Res A) : (exists a, r = Ret a) -> never_fnf r.
Proof. intros [a ->]. discriminate. Qed.

Lemma never_fnf_bind {A B} (m : Res A) (k : A -> Res B) :
  never_fnf m -> (forall a, never_fnf (k a)) -> never_fnf (bind m k).
Proof.
  intros Hm Hk. destruct m as [a | e]; simpl; [apply Hk |].
  intros H. apply Hm. injection H as ->. reflexivity.
Qed.

Lemma never_fnf_raise {A B} (e : exn) :
  never_fnf (@Raise A e) -> @Raise B e <> Raise FileNotFoundError.
Proof.
  intros H E. apply H. injection E as ->. reflexivity.
Qed.

Lemma never_fnf_dict_get (d : Json) (k : string) (default : Json) :
  never_fnf (dict_get d k default).
Proof. destruct d; discriminate. Qed.

Lemma int_if_integer_total : total int_if_integer.
Proof.
  intros x. unfold int_if_integer, Py.int.
  destruct x as [s | s | | s m e]; simpl; eauto.
  destruct (if 0 <=? e then true else Z.pos m mod 2 ^ (- e) =? 0); simpl; eauto.
Qed.

Section CvTotal.
Context {RT : Runtime}.

Lemma join_values_never_fnf (items : list Json) : never_fnf (join_values items).
Proof.
  induction items as [| j items IH]; simpl; [discriminate |].
  destruct j; try discriminate.
  apply never_fnf_bind; [exact IH | intros; discriminate].
Qed.

Lemma links_line_never_fnf (links : Json) : never_fnf (links_line links).
Proof. destruct links; discriminate. Qed.

Lemma section_rows_total (t : Table) (mask : list bool) :
  exists sub, section_rows t mask = Ret sub.
Proof.
  unfold section_rows, cells.
  rewrite (mapM_total None _safe_int_total). simpl. eauto.
Qed.

Lemma conference_rows_total (t : Table) : exists conf, conference_rows t = Ret conf.
Proof.
  unfold conference_rows, cells.
  rewrite (mapM_total None _safe_int_total).
  rewrite (mapM_total None _parse_date_ddmmyyyy_total). simpl. eauto.
Qed.

Lemma pdf_add_section_total t title mask :
  exists fl, pdf_add_section t title mask = Ret fl.
Proof.
  unfold pdf_add_section.
  destruct (section_rows_total t mask) as [sub ->]. simpl. eauto.
Qed.

Lemma docx_add_section_total t title mask :
  exists items, docx_add_section t title mask = Ret items.
Proof.
  unfold docx_add_section.
  destruct (section_rows_total t mask) as [sub ->]. simpl. eauto.
Qed.

Lemma pdf_conferences_total t : exists fl, pdf_conferences t = Ret fl.
Proof.
  unfold pdf_conferences.
  destruct (Series.loc t (cv_conferences t)); [eauto |].
  destruct (conference_rows_total t) as [conf ->]. simpl.
  destruct (conference_texts_ret conf) as (texts & -> & _). simpl. eauto.
Qed.

Lemma docx_conferences_total t : exists items, docx_conferences t = Ret items.
Proof.
  unfold docx_conferences.
  destruct (conference_rows_total t) as [conf ->]. simpl.
  destruct conf; [eauto |].
  destruct (conference_texts_ret (r :: conf)) as (texts & -> & _). simpl. eauto.
Qed.

Lemma pdf_story_never_fnf profile summary df : never_fnf (pdf_story profile summary df).
Proof.
  unfold pdf_story.
  repeat (apply never_fnf_bind; [apply never_fnf_dict_get | intros ?]).
  apply never_fnf_bind; [apply join_values_never_fnf | intros ?].
  apply never_fnf_bind.
  { destruct (json_truthy _); [| discriminate].
    apply never_fnf_bind; [apply links_line_never_fnf | intros; discriminate]. }
  intros ?.
  repeat (apply never_fnf_bind;
          [apply never_fnf_returns, pdf_add_section_total | intros ?]).
  apply never_fnf_bind; [apply never_fnf_returns, pdf_conferences_total | intros ?].
  discriminate.
Qed.

Lemma docx_document_never_fnf profile summary df :
  never_fnf (docx_document profile summary df).
Proof.
  unfold docx_document.
  repeat (apply never_fnf_bind; [apply never_fnf_dict_get | intros ?]).
  apply never_fnf_bind; [apply join_values_never_fnf | intros ?].
  apply never_fnf_bind; [apply never_fnf_dict_get | intros ?].
  apply never_fnf_bind.
  { destruct (json_truthy _); [| discriminate].
    apply never_fnf_bind; [apply links_line_never_fnf | intros; discriminate]. }
  intros ?.
  repeat (apply never_fnf_bind;
          [apply never_fnf_returns, docx_add_section_total | intros ?]).
  apply never_fnf_bind; [apply never_fnf_returns, docx_conferences_total | intros ?].
  discriminate.
Qed.

(** on a loaded frame the summary fails only for metrics that are not a
    dict *)
Lemma compute_summary_coerced (t : Table) (metrics : Json) :
  match metrics with
  | JObj _ => exists s, compute_summary (coerced t) metrics = Ret s
  | _ => compute_summary (coerced t) metrics = Raise AttributeError
  end.
Proof.
  unfold compute_summary. cbn [coerced mnicsw_points_num impact_factor_num].
  rewrite !column_total_parsed. simpl.
  destruct (int_if_integer_total (parsed_sum mnicsw_points t)) as [points ->]. simpl.
  destruct metrics; simpl; eauto.
Qed.

Lemma compute_summary_never_fnf (t : Table) (metrics : Json) :
  never_fnf (compute_summary (coerced t) metrics).
Proof.
  pose proof (compute_summary_coerced t metrics) as H.
  destruct metrics; try (rewrite H; discriminate).
  destruct H as [s ->]. discriminate.
Qed.

End CvTotal.

(** ** Running the loaders *)

Section Running.
Context {RT : Runtime}.

Lemma load_profile_absent (w : World) :
  fs w PROFILE_JSON = None ->
  load_profile w = (Raise FileNotFoundError, log (Probe PROFILE_JSON) w).
Proof.
  intros H. unfold load_profile, io_bind, path_exists. rewrite H. reflexivity.
Qed.

Lemma load_profile_present (w : World) (text : string) :
  fs w PROFILE_JSON = Some text ->
  load_profile w
  = (match json_loads text with Some j => Ret j | None => Raise ValueError end,
     log (Read PROFILE_JSON) (log (Probe PROFILE_JSON) w)).
Proof.
  intros H. unfold load_profile, io_bind, path_exists, read_bytes. rewrite H. simpl.
  rewrite H. destruct (json_loads text); reflexivity.
Qed.

Lemma load_scholar_metrics_absent (w : World) :
  fs w METRICS_JSON = None ->
  load_scholar_metrics w = (Ret default_metrics, log (Probe METRICS_JSON) w).
Proof.
  intros H. unfold load_scholar_metrics, io_bind, path_exists. rewrite H. reflexivity.
Qed.

Lemma load_scholar_metrics_present (w : World) (text : string) :
  fs w METRICS_JSON = Some text ->
  load_scholar_metrics w
  = (match json_loads text with Some j => Ret j | None => Raise ValueError end,
     log (Read METRICS_JSON) (log (Probe METRICS_JSON) w)).
Proof.
  intros H. unfold load_scholar_metrics, io_bind, path_exists, read_bytes.
  rewrite H. simpl. rewrite H. destruct (json_loads text); reflexivity.
Qed.

Lemma read_with_fallback_run (encs : list Encoding) (last_err : option exn)
      (w : World) (bytes : string) :
  fs w PUBLICATIONS_CSV = Some bytes ->
  exists w', read_with_fallback encs last_err w
             = (Ret (fallback_result encs last_err bytes), w')
             /\ fs w' = fs w.
Proof.
  revert last_err w. induction encs as [| enc rest IH]; intros last_err w H; simpl.
  - exists w. split; reflexivity.
  - unfold io_try, read_csv_file, io_bind, read_bytes. rewrite H.
    destruct (read_csv enc bytes) as [| | t]; simpl.
    + destruct (IH (Some UnicodeDecodeError) (log (Read PUBLICATIONS_CSV) w) H)
        as (w' & Hr & Hfs).
      exists w'. split; [exact Hr | exact Hfs].
    + destruct (IH (Some ParserError) (log (Read PUBLICATIONS_CSV) w) H)
        as (w' & Hr & Hfs).
      exists w'. split; [exact Hr | exact Hfs].
    + eexists. split; reflexivity.
Qed.

Lemma fallback_result_error encs last_err bytes e :
  fallback_result encs last_err bytes = (None, Some e) ->
  last_err = Some e \/ e = UnicodeDecodeError \/ e = ParserError.
Proof.
  revert last_err. induction encs as [| enc rest IH]; intros last_err; simpl.
  - intros H. injection H as ->. now left.
  - destruct (read_csv enc bytes); intros H.
    + destruct (IH _ H) as [Hl | Hr]; [injection Hl as <-; auto | auto].
    + destruct (IH _ H) as [Hl | Hr]; [injection Hl as <-; auto | auto].
    + discriminate.
Qed.

Lemma load_publications_df_absent (w : World) :
  fs w PUBLICATIONS_CSV = None ->
  load_publications_df w = (Raise FileNotFoundError, log (Probe PUBLICATIONS_CSV) w).
Proof.
  intros H. unfold load_publications_df, io_bind, path_exists. rewrite H. reflexivity.
Qed.

Lemma load_publications_df_present (w : World) (bytes : string) :
  fs w PUBLICATIONS_CSV = Some bytes ->
  exists w', load_publications_df w = (load_outcome bytes, w') /\ fs w' = fs w.
Proof.
  intros H. unfold load_publications_df, io_bind at 1, path_exists.
  cbv beta. rewrite H. cbv beta iota. cbn [negb].
  destruct (read_with_fallback_run encodings_to_try None
              (log (Probe PUBLICATIONS_CSV) w) H) as (w' & Hr & Hfs).
  unfold io_bind. rewrite Hr. unfold load_outcome.
  exists w'. split; [| exact Hfs].
  destruct (fallback_result encodings_to_try None bytes) as [[t |] [e |]]; reflexivity.
Qed.

Lemma load_outcome_cases (bytes : string) :
  (exists t, load_outcome bytes = Ret (coerced t)) \/
  (exists e, load_outcome bytes = Raise e /\ e <> FileNotFoundError).
Proof.
  unfold load_outcome.
  destruct (fallback_result encodings_to_try None bytes) as [[t |] [e |]] eqn:E.
  - left. exists t. apply coerce_columns_ret.
  - left. exists t. apply coerce_columns_ret.
  - right. exists e. split; [reflexivity |].
    destruct (fallback_result_error _ _ _ E) as [H | [-> | ->]]; discriminate.
  - right. exists UnboundLocalError. split; [reflexivity | discriminate].
Qed.

Lemma choose_fonts_returns (w : World) :
  exists fonts w', choose_fonts w = (Ret fonts, w') /\ fs w' = fs w.
Proof.
  unfold choose_fonts, io_try, io_bind, path_exists, load_font, io_bind, read_bytes.
  destruct (fs w FONT_REGULAR) as [b1 |] eqn:E1;
    destruct (fs w FONT_BOLD) as [b2 |] eqn:E2;
    repeat (simpl; rewrite ?E1, ?E2; simpl;
            try match goal with
                | |- context [if ttfont ?b then _ else _] => destruct (ttfont b)
                end);
    do 2 eexists; split; reflexivity.
Qed.

(** the part of [main] after the three loads *)
Definition render (profile metrics : Json) (df : DataFrame) : IO unit :=
  _ <~ export_publications_json df ;;
  summary <~ io_lift (compute_summary df metrics) ;;
  _ <~ write_bytes SUMMARY_JSON (json_dumps (summary_json summary)) ;;
  _ <~ generate_cv_pdf profile summary df ;;
  generate_cv_docx profile summary df.

Lemma main_render :
  main = (profile <~ load_profile ;;
          metrics <~ load_scholar_metrics ;;
          df <~ load_publications_df ;;
          render profile metrics df).
Proof. reflexivity. Qed.

Lemma generate_cv_pdf_run profile summary df (w : World) :
  exists fonts w',
    fs w' = fs w /\
    generate_cv_pdf profile summary df w
    = match pdf_story profile summary df with
      | Ret doc => write_bytes CV_PDF
                     (render_pdf (fst doc) (fst fonts) (snd fonts) (snd doc)) w'
      | Raise e => (Raise e, w')
      end.
Proof.
  destruct (choose_fonts_returns w) as (fonts & w' & Hc & Hfs).
  exists fonts, w'. split; [exact Hfs |].
  unfold generate_cv_pdf, io_bind, io_lift. rewrite Hc.
  destruct (pdf_story profile summary df); reflexivity.
Qed.

Lemma generate_cv_docx_run profile summary df (w : World) :
  generate_cv_docx profile summary df w
  = if negb docx_installed then (Ret tt, w)
    else match docx_document profile summary df with
         | Ret doc => write_bytes CV_DOCX (render_docx doc) w
         | Raise e => (Raise e, w)
         end.
Proof.
  unfold generate_cv_docx, io_bind, io_lift, io_ret.
  destruct docx_installed; simpl; [| reflexivity].
  destruct (docx_document profile summary df); reflexivity.
Qed.

Lemma render_never_fnf profile metrics (t : Table) (w : World) :
  fst (render profile metrics (coerced t) w) <> Raise FileNotFoundError.
Proof.
  unfold render, io_bind at 1, export_publications_json, write_bytes at 1.
  unfold io_bind at 1, io_lift.
  pose proof (@compute_summary_never_fnf _ t metrics) as Hs.
  destruct (compute_summary (coerced t) metrics) as [s | e];
    [| exact (never_fnf_raise Hs)].
  unfold io_bind at 1, write_bytes at 1. unfold io_bind.
  match goal with |- context [generate_cv_pdf _ _ _ ?w0] =>
    destruct (generate_cv_pdf_run profile s (coerced t) w0) as (fonts & w' & _ & ->)
  end.
  pose proof (@pdf_story_never_fnf _ profile s (coerced t)) as Hp.
  destruct (pdf_story profile s (coerced t)) as [doc | e];
    [| exact (never_fnf_raise Hp)].
  unfold write_bytes at 1. rewrite generate_cv_docx_run.
  destruct (negb docx_installed); [discriminate |].
  pose proof (@docx_document_never_fnf _ profile s (coerced t)) as Hd.
  destruct (docx_document profile s (coerced t)) as [d | e];
    [discriminate | exact (never_fnf_raise Hd)].
Qed.

End Running.

(** ** The run, load by load *)

Section MainRun.
Context {RT : Runtime}.

Definition after_metrics (profile metrics : Json) : IO unit :=
  df <~ load_publications_df ;; render profile metrics df.

Definition after_profile (profile : Json) : IO unit :=
  metrics <~ load_scholar_metrics ;; after_metrics profile metrics.

Lemma main_profile_absent (w : World) :
  fs w PROFILE_JSON = None ->
  main w = (Raise FileNotFoundError, log (Probe PROFILE_JSON) w).
Proof.
  intros H. rewrite main_render. unfold io_bind at 1.
  now rewrite (load_profile_absent w H).
Qed.

Lemma main_profile_present (w : World) (text : string) :
  fs w PROFILE_JSON = Some text ->
  main w
  = match json_loads text with
    | Some profile =>
        after_profile profile (log (Read PROFILE_JSON) (log (Probe PROFILE_JSON) w))
    | None =>
        (Raise ValueError, log (Read PROFILE_JSON) (log (Probe PROFILE_JSON) w))
    end.
Proof.
  intros H. rewrite main_render. unfold io_bind at 1.
  rewrite (load_profile_present w H).
  destruct (json_loads text); reflexivity.
Qed.

Lemma after_profile_metrics_absent profile (w : World) :
  fs w METRICS_JSON = None ->
  after_profile profile w
  = after_metrics profile default_metrics (log (Probe METRICS_JSON) w).
Proof.
  intros H. unfold after_profile, io_bind at 1.
  now rewrite (load_scholar_metrics_absent w H).
Qed.

Lemma after_profile_metrics_present profile (w : World) (text : string) :
  fs w METRICS_JSON = Some text ->
  after_profile profile w
  = match json_loads text with
    | Some metrics =>
        after_metrics profile metrics
          (log (Read METRICS_JSON) (log (Probe METRICS_JSON) w))
    | None =>
        (Raise ValueError, log (Read METRICS_JSON) (log (Probe METRICS_JSON) w))
    end.
Proof.
  intros H. unfold after_profile, io_bind at 1.
  rewrite (load_scholar_metrics_present w H).
  destruct (json_loads text); reflexivity.
Qed.

Lemma after_metrics_csv_absent profile metrics (w : World) :
  fs w PUBLICATIONS_CSV = None ->
  after_metrics profile metrics w
  = (Raise FileNotFoundError, log (Probe PUBLICATIONS_CSV) w).
Proof.
  intros H. unfold after_metrics, io_bind at 1.
  now rewrite (load_publications_df_absent w H).
Qed.

Lemma after_metrics_csv_present profile metrics (w : World) (bytes : string) :
  fs w PUBLICATIONS_CSV = Some bytes ->
  exists w',
    fs w' = fs w /\
    after_metrics profile metrics w
    = match load_outcome bytes with
      | Ret df => render profile metrics df w'
      | Raise e => (Raise e, w')
      end.
Proof.
  intros H. destruct (load_publications_df_present w H) as (w' & Hr & Hfs).
  exists w'. split; [exact Hfs |].
  unfold after_metrics, io_bind at 1. rewrite Hr.
  destruct (load_outcome bytes); reflexivity.
Qed.

Lemma after_metrics_never_fnf profile metrics (w : World) (bytes : string) :
  fs w PUBLICATIONS_CSV = Some bytes ->
  fst (after_metrics profile metrics w) <> Raise FileNotFoundError.
Proof.
  intros H. destruct (after_metrics_csv_present profile metrics w H) as (w' & _ & ->).
  destruct (load_outcome_cases bytes) as [[t ->] | (e & -> & He)].
  - apply render_never_fnf.
  - simpl. intros E. apply He. now injection E.
Qed.

(** C5, as the code has it. The build fails with a file-not-found error
    exactly when profile.json is absent, or publications.csv is absent and
    the JSON inputs that are there (profile.json, and metrics.json when it
    exists) parse. Whenever publications.csv or profile.json is absent the
    build fails, with that error or with the parse error of a JSON input
    read before, and leaves every file as it was: it writes none of its
    outputs. *)
Theorem missing_required_input (w : World) :
  (fst (main w) = Raise FileNotFoundError <->
     fs w PROFILE_JSON = None \/
     (fs w PUBLICATIONS_CSV = None /\
      json_broken w PROFILE_JSON = false /\
      json_broken w METRICS_JSON = false)) /\
  (fs w PUBLICATIONS_CSV = None \/ fs w PROFILE_JSON = None ->
     (exists e, fst (main w) = Raise e) /\
     fs (snd (main w)) = fs w /\
     exists evs, trace (snd (main w)) = trace w ++ evs /\
                 forall p, ~ In (Write p) evs).
Proof.
  unfold json_broken.
  destruct (fs w PROFILE_JSON) as [ptext |] eqn:Ep.
  2:{ rewrite (main_profile_absent w Ep). simpl. split.
      - split; auto.
      - intros _. split; [eauto |]. split; [reflexivity |].
        exists [Probe PROFILE_JSON]. split; [reflexivity |].
        intros p [H | []]. discriminate. }
  rewrite (main_profile_present w Ep).
  destruct (json_loads ptext) as [profile |] eqn:Ej.
  2:{ simpl. split.
      - split; [discriminate |]. intros [H | (_ & H & _)]; discriminate.
      - intros _. split; [eauto |]. split; [reflexivity |].
        exists [Probe PROFILE_JSON; Read PROFILE_JSON].
        split; [now rewrite <- app_assoc |].
        intros p [H | [H | []]]; discriminate. }
  set (w1 := log (Read PROFILE_JSON) (log (Probe PROFILE_JSON) w)).
  assert (Hfs1 : fs w1 = fs w) by reflexivity.
  assert (Ht1 : trace w1 = trace w ++ [Probe PROFILE_JSON; Read PROFILE_JSON])
    by (simpl; now rewrite <- app_assoc).
  (* the metrics *)
  assert (Hm : (exists metrics w2 ev2,
                  json_broken w METRICS_JSON = false /\
                  after_profile profile w1 = after_metrics profile metrics w2 /\
                  fs w2 = fs w /\ trace w2 = trace w ++ ev2 /\
                  (forall p, ~ In (Write p) ev2))
               \/ (json_broken w METRICS_JSON = true /\
                   exists w2 ev2,
                     after_profile profile w1 = (Raise ValueError, w2) /\
                     fs w2 = fs w /\ trace w2 = trace w ++ ev2 /\
                     (forall p, ~ In (Write p) ev2))).
  { unfold json_broken.
    destruct (fs w METRICS_JSON) as [mtext |] eqn:Em.
    - rewrite (after_profile_metrics_present profile w1 (text := mtext)) by exact Em.
      destruct (json_loads mtext) as [metrics |].
      + left. do 3 eexists. split; [reflexivity |]. split; [reflexivity |].
        split; [reflexivity |]. split.
        * simpl. rewrite <- !app_assoc. reflexivity.
        * simpl. intros p [H | [H | [H | [H | []]]]]; discriminate.
      + right. split; [reflexivity |]. do 2 eexists.
        split; [reflexivity |]. split; [reflexivity |]. split.
        * simpl. rewrite <- !app_assoc. reflexivity.
        * simpl. intros p [H | [H | [H | [H | []]]]]; discriminate.
    - rewrite (after_profile_metrics_absent profile w1) by exact Em.
      left. do 3 eexists. split; [reflexivity |]. split; [reflexivity |].
      split; [reflexivity |]. split.
      * simpl. rewrite <- !app_assoc. reflexivity.
      * simpl. intros p [H | [H | [H | []]]]; discriminate. }
  unfold json_broken in Hm.
  destruct Hm as [(metrics & w2 & ev2 & Hb & -> & Hfs2 & Ht2 & Hw2)
                 | (Hb & w2 & ev2 & -> & Hfs2 & Ht2 & Hw2)].
  2:{ rewrite Hb. simpl. split.
      - split; [discriminate |]. intros [H | (_ & _ & H)]; discriminate.
      - intros _. split; [eauto |]. split; [exact Hfs2 |].
        exists ev2. split; assumption. }
  rewrite Hb.
  destruct (fs w PUBLICATIONS_CSV) as [bytes |] eqn:Ec.
  - assert (Hc2 : fs w2 PUBLICATIONS_CSV = Some bytes) by (now rewrite Hfs2).
    split.
    + split.
      * intros H. exfalso. exact (after_metrics_never_fnf profile metrics w2 Hc2 H).
      * intros [H | (H & _)]; discriminate.
    + intros [H | H]; discriminate.
  - assert (Hc2 : fs w2 PUBLICATIONS_CSV = None) by (now rewrite Hfs2).
    rewrite (after_metrics_csv_absent profile metrics w2 Hc2). simpl. split.
    + split; auto.
    + intros _. split; [eauto |]. split; [exact Hfs2 |].
      exists (ev2 ++ [Probe PUBLICATIONS_CSV]). split.
      * rewrite Ht2. now rewrite app_assoc.
      * intros p Hin. apply in_app_or in Hin. destruct Hin as [Hin | [Hin | []]].
        -- exact (Hw2 p Hin).
        -- discriminate.
Qed.

End MainRun.

(** ** When the CV renders *)

Section Rendering.
Context {RT : Runtime}.









End Rendering.

(** ** The export order when every year parses *)

Section SortedFacts.
Variables K A : Type.
Variable ltb : K -> K -> bool.
Hypothesis ltb_asym : forall a b, ltb a b = true -> ltb b a = false.
Hypothesis ltb_trans : forall a b c, ltb b a = false -> ltb c b = false -> ltb c a = false.

(** [p] is not above [q] *)
Definition key_le (p q : K * A) : Prop := ltb (fst q) (fst p) = false.

Lemma insert_forall (P : K * A -> Prop) x l :
  P x -> Forall P l -> Forall P (insert ltb x l).
Proof.
  intros Hx Hl. induction Hl as [| y l Hy Hl IH]; simpl.
  - now constructor.
  - destruct (ltb (fst y) (fst x)); repeat constructor; auto.
Qed.

Lemma insert_sorted x l :
  StronglySorted key_le l -> StronglySorted key_le (insert ltb x l).
Proof.
  intros Hs. induction Hs as [| y l Hs IH Hy]; simpl.
  - repeat constructor.
  - destruct (ltb (fst y) (fst x)) eqn:E.
    + constructor; [exact IH |].
      apply insert_forall; [| exact Hy].
      unfold key_le. now apply ltb_asym.
    + constructor; [now constructor |].
      constructor; [exact E |].
      apply Forall_forall. intros z Hz.
      rewrite Forall_forall in Hy. specialize (Hy z Hz).
      unfold key_le in *. eapply ltb_trans; eassumption.
Qed.

Lemma argsort_sorted l : StronglySorted key_le (argsort ltb l).
Proof.
  induction l as [| x l IH]; simpl; [constructor | now apply insert_sorted].
Qed.

Lemma sorted_snoc {B} (R : B -> B -> Prop) l x :
  StronglySorted R l -> Forall (fun y => R y x) l -> StronglySorted R (l ++ [x]).
Proof.
  intros Hs Hf. induction Hs as [| y l Hs IH Hy]; simpl.
  - repeat constructor.
  - inversion Hf as [| ? ? Hyx Hf']; subst.
    constructor; [now apply IH |].
    apply Forall_app. split; [exact Hy | now repeat constructor].
Qed.

Lemma sorted_rev {B} (R : B -> B -> Prop) l :
  StronglySorted R l -> StronglySorted (fun a b => R b a) (rev l).
Proof.
  intros Hs. induction Hs as [| y l Hs IH Hy]; simpl; [constructor |].
  apply sorted_snoc; [exact IH |].
  apply Forall_rev. exact Hy.
Qed.

Lemma filter_all {B} (l : list B) : filter (fun _ => true) l = l.
Proof. induction l as [| b l IH]; simpl; [reflexivity | now rewrite IH]. Qed.

Lemma filter_none {B} (l : list B) : filter (fun _ => false) l = [].
Proof. induction l as [| b l IH]; simpl; [reflexivity | exact IH]. Qed.

(** without null keys the order is descending *)
Lemma nargsort_desc_sorted l :
  StronglySorted (fun p q => key_le q p) (nargsort_desc ltb (fun _ => false) l).
Proof.
  unfold nargsort_desc. cbn [negb].
  rewrite filter_all, filter_none, app_nil_r.
  apply sorted_rev, argsort_sorted.
Qed.

Lemma sorted_map {B C} (R : B -> B -> Prop) (S : C -> C -> Prop) (f : B -> C) l :
  (forall a b, In a l -> In b l -> R a b -> S (f a) (f b)) ->
  StronglySorted R l -> StronglySorted S (map f l).
Proof.
  intros H Hs. induction Hs as [| y l Hs IH Hy]; simpl; [constructor |].
  constructor.
  - apply IH. intros a b Ha Hb. apply H; now right.
  - apply Forall_forall. intros z Hz. apply in_map_iff in Hz.
    destruct Hz as (b & <- & Hb).
    rewrite Forall_forall in Hy. apply H; [now left | now right | now apply Hy].
Qed.

(** sorting rows by a key computed from each row *)
Lemma sort_values_desc_sorted (key : A -> K) (rows : list A) :
  StronglySorted (fun a b => ltb (key a) (key b) = false)
                 (sort_values_desc ltb (fun _ => false) (map key rows) rows).
Proof.
  unfold sort_values_desc.
  apply sorted_map with (R := fun p q => key_le q p);
    [| apply nargsort_desc_sorted].
  assert (Hk : forall p, In p (combine (map key rows) rows) -> fst p = key (snd p)).
  { clear. induction rows as [| r rows IH]; simpl; [intros p [] |].
    intros p [<- | Hp]; [reflexivity | now apply IH]. }
  intros a b Ha Hb Hab.
  assert (Hperm := nargsort_desc_perm ltb (fun _ => false) (combine (map key rows) rows)).
  apply (Permutation_in _ Hperm) in Ha. apply (Permutation_in _ Hperm) in Hb.
  unfold key_le in Hab. now rewrite <- (Hk a Ha), <- (Hk b Hb).
Qed.

End SortedFacts.

Lemma pair_ltb_asym (a b : Z * Z) : pair_ltb a b = true -> pair_ltb b a = false.
Proof.
  unfold pair_ltb. destruct a as [a1 a2], b as [b1 b2]; simpl.
  intros H. apply orb_true_iff in H.
  apply orb_false_iff. rewrite andb_false_iff, Z.ltb_ge, Z.ltb_ge, Z.eqb_neq.
  destruct H as [H | H].
  - apply Z.ltb_lt in H. split; [lia | left; lia].
  - apply andb_true_iff in H. destruct H as [H1 H2].
    apply Z.eqb_eq in H1. apply Z.ltb_lt in H2. split; [lia | right; lia].
Qed.

Lemma pair_ltb_trans (a b c : Z * Z) :
  pair_ltb b a = false -> pair_ltb c b = false -> pair_ltb c a = false.
Proof.
  unfold pair_ltb. destruct a as [a1 a2], b as [b1 b2], c as [c1 c2]; simpl.
  rewrite !orb_false_iff, !andb_false_iff, !Z.ltb_ge, !Z.eqb_neq.
  intros [H1 H2] [H3 H4]. split; [lia |].
  destruct H2 as [H2 | H2], H4 as [H4 | H4]; try (left; lia).
  destruct (Z.eq_dec c1 a1); [right; lia | left; assumption].
Qed.

Section ExportOrder.
Context {RT : Runtime}.

Lemma infer_int_all_parsed (c : list (option Z)) :
  existsb Series.is_none c = false -> Series.infer_int c = map Series.box_int c.
Proof. unfold Series.infer_int. now intros ->. Qed.

Lemma sort_key_of_cells (y : option Z) (d : option datetime) (cell : PyVal) :
  y <> None ->
  cell = Series.box_timestamp d \/ cell = Series.box_datetime d ->
  sort_key (Series.box_int y) cell
  = (match y with Some y => y | None => -1 end,
     match d with Some d => Date.timestamp d | None => 0 end).
Proof.
  intros Hy Hc. destruct y as [y |]; [| congruence].
  destruct Hc as [-> | ->]; destruct d; reflexivity.
Qed.

Lemma export_keys (t : Table) :
  (forall r, In r t -> year_of_row r <> None) ->
  Series.zip_with sort_key (year_int (coerced t)) (start_date_dt (coerced t))
  = map intended_key t.
Proof.
  intros Hall. cbn [coerced year_int start_date_dt].
  rewrite infer_int_all_parsed.
  2:{ apply not_true_is_false. intros H. apply existsb_exists in H.
      destruct H as (o & Ho & Hn). apply in_map_iff in Ho.
      destruct Ho as (r & <- & Hr). apply (Hall r Hr).
      fold (year_of_row r) in Hn. now destruct (year_of_row r). }
  unfold Series.infer_datetime.
  match goal with |- context [if ?c then _ else _] => destruct c end;
    rewrite !map_map, zip_with_map; apply map_ext_in; intros r Hr;
    apply sort_key_of_cells; auto; apply (Hall r Hr).
Qed.

(** When every year of the table parses, the records of
    publications.json are the rows sorted by year descending, ties broken
    by conference start descending, a row without a start date counting as
    the epoch. *)
Theorem export_sorted_when_years_parse (t : Table) (df : DataFrame) :
  coerce_columns t = Ret df ->
  (forall r, In r t -> exists y, _safe_int (VStr (year r)) = Ret (Some y)) ->
  Permutation (sorted_rows df) t /\
  StronglySorted (fun a b => pair_ltb (intended_key a) (intended_key b) = false)
                 (sorted_rows df).
Proof.
  intros H Hall. apply coerce_columns_inv in H. subst df.
  split; [apply sorted_rows_perm |].
  unfold sorted_rows. rewrite export_keys.
  - cbn [coerced rows].
    apply sort_values_desc_sorted; [apply pair_ltb_asym | apply pair_ltb_trans].
  - intros r Hr. destruct (Hall r Hr) as [y Hy].
    unfold year_of_row. rewrite Hy. discriminate.
Qed.

End ExportOrder.

(** * Further properties *)

(** ** The text handed to ReportLab *)

(** the characters ReportLab reads as markup, and those [escape] rewrites *)
Definition is_markup (c : ascii) : bool := (Ascii.eqb c "<" || Ascii.eqb c ">")%bool.

Definition is_special (c : ascii) : bool :=
  (Ascii.eqb c "&" || Ascii.eqb c "<" || Ascii.eqb c ">")%bool.

Lemma escape_no_markup (s : string) :
  existsb is_markup (Str.chars (Text.escape s)) = false.
Proof.
  induction s as [| c r IH]; simpl; [reflexivity |].
  destruct (Ascii.eqb c "&") eqn:Ea; [exact IH |].
  destruct (Ascii.eqb c "<") eqn:El; [exact IH |].
  destruct (Ascii.eqb c ">") eqn:Eg; [exact IH |].
  simpl. unfold is_markup at 1. now rewrite El, Eg.
Qed.

Lemma escape_plain (s : string) :
  existsb is_special (Str.chars s) = false -> Text.escape s = s.
Proof.
  induction s as [| c r IH]; simpl; [reflexivity |].
  intros H. apply orb_false_iff in H. destruct H as [Hc Hr].
  unfold is_special in Hc. apply orb_false_iff in Hc. destruct Hc as [Hc Hg].
  apply orb_false_iff in Hc. destruct Hc as [Ha Hl].
  rewrite Ha, Hl, Hg. now rewrite IH.
Qed.

Lemma escape_injective (a b : string) : Text.escape a = Text.escape b -> a = b.
Proof.
  revert b. induction a as [| c r IH]; intros [| c' r'].
  - reflexivity.
  - simpl. repeat match goal with |- context [if ?x then _ else _] => destruct x end;
      discriminate.
  - simpl. repeat match goal with |- context [if ?x then _ else _] => destruct x end;
      discriminate.
  - simpl.
    destruct (Ascii.eqb c "&") eqn:Ea; destruct (Ascii.eqb c "<") eqn:El;
      destruct (Ascii.eqb c ">") eqn:Eg;
      destruct (Ascii.eqb c' "&") eqn:Ea'; destruct (Ascii.eqb c' "<") eqn:El';
      destruct (Ascii.eqb c' ">") eqn:Eg';
      rewrite ?Ascii.eqb_eq in *; subst; try discriminate;
      simpl; intros H; injection H; intros;
      subst; try discriminate;
      try (f_equal; now apply IH);
      rewrite ?Ascii.eqb_neq in *; congruence.
Qed.

Section Escape.
Context {RT : Runtime}.

(** X2. The text [_rl_escape] hands to ReportLab holds no markup: neither
    "<" nor ">" occurs in it, whatever value is escaped. A text without
    "&", "<" and ">" is handed over unchanged, [None] becomes the empty
    text, and no two texts are escaped to the same text. *)
Theorem rl_escape_leaves_no_markup (s : Json) :
  existsb is_markup (Str.chars (_rl_escape s)) = false /\
  _rl_escape JNull = ""%string /\
  (forall text, existsb is_special (Str.chars text) = false ->
                _rl_escape (JStr text) = text) /\
  (forall a b, _rl_escape (JStr a) = _rl_escape (JStr b) -> a = b).
Proof.
  split; [apply escape_no_markup |]. split; [reflexivity |].
  split; [intros text; apply escape_plain | intros a b; apply escape_injective].
Qed.

End Escape.

(** ** Dates *)

Lemma build_valid (y m d : option Z) (dt : datetime) :
  Date.build y m d = Ret dt ->
  Date.valid (dt_year dt) (dt_month dt) (dt_day dt) = true.
Proof.
  unfold Date.build. destruct y as [y |], m as [m |], d as [d |]; try discriminate.
  destruct (Date.valid y m d) eqn:E; [| discriminate].
  intros H. injection H as <-. exact E.
Qed.

Lemma strptime_valid (s : string) (fmt : Date.format) (dt : datetime) :
  Date.strptime s fmt = Ret dt ->
  Date.valid (dt_year dt) (dt_month dt) (dt_day dt) = true.
Proof.
  unfold Date.strptime. destruct fmt.
  - destruct (Str.split "." s) as [| a [| b [| c [| ? ?]]]]; try discriminate.
    apply build_valid.
  - destruct (Str.split "-" s) as [| a [| b [| c [| ? ?]]]]; try discriminate.
    apply build_valid.
Qed.

Section Dates.
Context {RT : Runtime}.

Lemma try_formats_valid (s : string) (fmts : list Date.format) (dt : datetime) :
  try_formats s fmts = Ret (Some dt) ->
  Date.valid (dt_year dt) (dt_month dt) (dt_day dt) = true.
Proof.
  induction fmts as [| fmt rest IH]; simpl; [discriminate |].
  destruct (Date.strptime s fmt) as [d0 | e] eqn:E; simpl.
  - intros H. injection H as <-. exact (strptime_valid _ _ E).
  - exact IH.
Qed.


End Dates.

(** ** Printing a date and reading it back *)

(** a property of integers checked on a range *)
Definition holds_on (P : Z -> bool) (lo hi : Z) : bool :=
  forallb (fun k => P (lo + Z.of_nat k)) (seq 0 (Z.to_nat (hi - lo + 1))).

Lemma holds_on_spec (P : Z -> bool) (lo hi : Z) (z : Z) :
  holds_on P lo hi = true -> lo <= z <= hi -> P z = true.
Proof.
  unfold holds_on. intros H Hz. rewrite forallb_forall in H.
  replace z with (lo + Z.of_nat (Z.to_nat (z - lo))) by lia.
  apply H. apply in_seq. lia.
Qed.

(** a text of digits, without a blank and without a separator *)
Definition digit_text (s : string) : bool :=
  (Str.truthy s && Date.all_digits s)%bool.

Lemma string_app_nil_r (s : string) : (s ++ "")%string = s.
Proof. induction s as [| c r IH]; simpl; [reflexivity | now rewrite IH]. Qed.

Lemma string_app_assoc (a b c : string) :
  ((a ++ b) ++ c)%string = (a ++ (b ++ c))%string.
Proof. induction a as [| x r IH]; simpl; [reflexivity | now rewrite IH]. Qed.

Lemma split_on_digits (sep : ascii) (s cur rest : string) :
  Str.is_digit sep = false -> Date.all_digits s = true ->
  Str.split_on sep cur (s ++ rest) = Str.split_on sep (cur ++ s) rest.
Proof.
  intros Hsep. revert cur. induction s as [| c r IH]; intros cur H; simpl.
  - now rewrite string_app_nil_r.
  - unfold Date.all_digits in H. simpl in H.
    apply andb_prop in H. destruct H as [Hc Hr].
    destruct (Ascii.eqb c sep) eqn:E.
    + apply Ascii.eqb_eq in E. subst. congruence.
    + rewrite IH by exact Hr. f_equal.
      now rewrite string_app_assoc.
Qed.

(** three texts of digits joined by dots are split into the three *)
Lemma split_dotted (a b c : string) :
  Date.all_digits a = true -> Date.all_digits b = true -> Date.all_digits c = true ->
  Str.split "." (a ++ "." ++ b ++ "." ++ c) = [a; b; c].
Proof.
  intros Ha Hb Hc. unfold Str.split.
  rewrite split_on_digits by (reflexivity || assumption). simpl.
  rewrite split_on_digits by (reflexivity || assumption). simpl.
  rewrite <- (string_app_nil_r c) at 1.
  rewrite split_on_digits by (reflexivity || assumption). reflexivity.
Qed.

Definition no_space (s : string) : bool :=
  forallb (fun c => negb (Str.is_space c)) (Str.chars s).

Lemma no_space_app (a b : string) :
  no_space (a ++ b) = (no_space a && no_space b)%bool.
Proof.
  unfold no_space. induction a as [| c r IH]; simpl; [reflexivity |].
  now rewrite IH, andb_assoc.
Qed.

Lemma digit_not_space (c : ascii) : Str.is_digit c = true -> Str.is_space c = false.
Proof.
  unfold Str.is_digit, Str.is_space. intros H.
  apply andb_prop in H. destruct H as [H1 H2].
  apply Nat.leb_le in H1. apply Nat.leb_le in H2.
  apply orb_false_iff. split; apply andb_false_iff.
  - right. apply Nat.leb_gt. lia.
  - right. apply Nat.leb_gt. lia.
Qed.

Lemma digits_no_space (s : string) : Date.all_digits s = true -> no_space s = true.
Proof.
  unfold Date.all_digits, no_space. induction s as [| c r IH]; simpl; [reflexivity |].
  intros H. apply andb_prop in H. destruct H as [Hc Hr].
  now rewrite (digit_not_space _ Hc), IH.
Qed.

Lemma lstrip_no_space (s : string) : no_space s = true -> Str.lstrip s = s.
Proof.
  unfold no_space. destruct s as [| c r]; simpl; [reflexivity |].
  intros H. apply andb_prop in H. destruct H as [Hc _].
  apply negb_true_iff in Hc. now rewrite Hc.
Qed.

Lemma rstrip_no_space (s : string) : no_space s = true -> Str.rstrip s = s.
Proof.
  unfold no_space. induction s as [| c r IH]; simpl; [reflexivity |].
  intros H. apply andb_prop in H. destruct H as [Hc Hr].
  apply negb_true_iff in Hc. rewrite (IH Hr), Hc. now destruct r.
Qed.

Lemma strip_no_space (s : string) : no_space s = true -> Str.strip s = s.
Proof.
  intros H. unfold Str.strip. rewrite lstrip_no_space by exact H.
  now apply rstrip_no_space.
Qed.

Lemma truthy_app (a b : string) : Str.truthy a = true -> Str.truthy (a ++ b) = true.
Proof. now destruct a. Qed.

(** the fields of [strftime] are read back by the directives of
    [strptime]: checked on every day, month and four-digit year *)
Definition day_reads_back (z : Z) : bool :=
  (digit_text (Text.two_digits z)
   && match Date.field_d (Text.two_digits z) with Some v => v =? z | None => false end)%bool.

Definition month_reads_back (z : Z) : bool :=
  (digit_text (Text.two_digits z)
   && match Date.field_m (Text.two_digits z) with Some v => v =? z | None => false end)%bool.

Definition year_reads_back (z : Z) : bool :=
  (digit_text (Text.of_Z z)
   && match Date.field_Y (Text.of_Z z) with Some v => v =? z | None => false end)%bool.

Lemma days_read_back : holds_on day_reads_back 1 31 = true.
Proof. vm_compute. reflexivity. Qed.

Lemma months_read_back : holds_on month_reads_back 1 12 = true.
Proof. vm_compute. reflexivity. Qed.

Lemma years_read_back : holds_on year_reads_back 1000 9999 = true.
Proof. vm_compute. reflexivity. Qed.

Lemma reads_back (f : string -> option Z) (text : string) (z : Z) :
  (digit_text text && match f text with Some v => v =? z | None => false end)%bool = true ->
  Str.truthy text = true /\ Date.all_digits text = true /\ f text = Some z.
Proof.
  intros H. apply andb_prop in H. destruct H as [Hd Hf].
  unfold digit_text in Hd. apply andb_prop in Hd. destruct Hd as [Ht Hd].
  split; [exact Ht |]. split; [exact Hd |].
  destruct (f text) as [v |]; [| discriminate].
  apply Z.eqb_eq in Hf. now subst.
Qed.

Lemma days_in_month_le (y m : Z) : Date.days_in_month y m <= 31.
Proof.
  unfold Date.days_in_month.
  repeat match goal with |- context [if ?c then _ else _] => destruct c end; lia.
Qed.

Lemma same_date_eq (a b : datetime) : same_date a b = true <-> a = b.
Proof.
  unfold same_date. destruct a as [y m d], b as [y' m' d']; simpl.
  rewrite !andb_true_iff, !Z.eqb_eq. split.
  - intros [[-> ->] ->]. reflexivity.
  - intros H. injection H as -> -> ->. auto.
Qed.

Section RoundTrip.
Context {RT : Runtime}.

Lemma strftime_parses (d : datetime) :
  Date.valid (dt_year d) (dt_month d) (dt_day d) = true -> 1000 <= dt_year d ->
  _parse_date_ddmmyyyy (VStr (strftime d)) = Ret (Some d).
Proof.
  intros Hv Hy. destruct d as [y m dd]. cbn [dt_year dt_month dt_day] in *.
  pose proof Hv as Hv'. unfold Date.valid in Hv'.
  repeat (apply andb_prop in Hv'; destruct Hv' as [Hv' ?]).
  repeat match goal with H : (_ <=? _) = true |- _ => apply Z.leb_le in H end.
  pose proof (days_in_month_le y m) as Hdm.
  destruct (reads_back Date.field_d _ dd
              (@holds_on_spec day_reads_back 1 31 dd days_read_back ltac:(lia)))
    as (Htd & Hdd & Hfd).
  destruct (reads_back Date.field_m _ m
              (@holds_on_spec month_reads_back 1 12 m months_read_back ltac:(lia)))
    as (Htm & Hdm' & Hfm).
  destruct (reads_back Date.field_Y _ y
              (@holds_on_spec year_reads_back 1000 9999 y years_read_back ltac:(lia)))
    as (Hty & Hdy & Hfy).
  unfold _parse_date_ddmmyyyy, strftime. cbn [dt_year dt_month dt_day Py.is_float andb py_str].
  set (D := Text.two_digits dd) in *. set (M := Text.two_digits m) in *.
  set (Y := Text.of_Z y) in *.
  assert (Hns : no_space (D ++ "." ++ M ++ "." ++ Y) = true).
  { rewrite !no_space_app.
    rewrite (digits_no_space _ Hdd), (digits_no_space _ Hdm'), (digits_no_space _ Hdy).
    reflexivity. }
  rewrite (strip_no_space _ Hns), (truthy_app _ _ Htd). cbn [negb try_formats].
  unfold Date.strptime. rewrite split_dotted by assumption.
  rewrite Hfd, Hfm, Hfy. unfold Date.build. rewrite Hv. reflexivity.
Qed.

End RoundTrip.

Section DateRange.
Context {RT : Runtime}.

(** X4. The text of a date range is read back as its start. When the
    start cell of a conference parses as the date [s] (in either format,
    with a year of four digits not below 1000) and the end cell is empty,
    unparseable or the same day, [_format_date_range] gives [s] printed as
    DD.MM.YYYY; that text parses back to [s], and formatting it again
    leaves it as it is. With an end date [e] on another day the text is
    the two dates joined by a dash. *)
Theorem date_range_reads_back (start end_ : string) (s : datetime) :
  _parse_date_ddmmyyyy (VStr start) = Ret (Some s) ->
  1000 <= dt_year s ->
  _parse_date_ddmmyyyy (VStr (strftime s)) = Ret (Some s) /\
  _format_date_range (strftime s) (strftime s) = Ret (strftime s) /\
  (_parse_date_ddmmyyyy (VStr end_) = Ret None \/
   _parse_date_ddmmyyyy (VStr end_) = Ret (Some s) ->
   _format_date_range start end_ = Ret (strftime s)) /\
  (forall e, _parse_date_ddmmyyyy (VStr end_) = Ret (Some e) -> e <> s ->
             _format_date_range start end_ = Ret (strftime s ++ "–" ++ strftime e)%string).
Proof.
  intros Hs Hy.
  assert (Hv : Date.valid (dt_year s) (dt_month s) (dt_day s) = true).
  { unfold _parse_date_ddmmyyyy in Hs. cbn [Py.is_float andb py_str] in Hs.
    destruct (negb (Str.truthy (Str.strip start))); [discriminate |].
    exact (try_formats_valid _ _ Hs). }
  pose proof (strftime_parses s Hv Hy) as Hback.
  assert (Hsame : same_date s s = true) by now apply same_date_eq.
  split; [exact Hback |]. split.
  { unfold _format_date_range. rewrite Hback. cbn [bind]. now rewrite Hsame. }
  split.
  - intros [He | He]; unfold _format_date_range; rewrite Hs, He; cbn [bind];
      [reflexivity | now rewrite Hsame].
  - intros e He Hne. unfold _format_date_range. rewrite Hs, He. cbn [bind].
    destruct (same_date s e) eqn:E; [| reflexivity].
    apply same_date_eq in E. congruence.
Qed.

End DateRange.

(** ** The counts of the summary *)

Lemma count_rows_bounds (p : Row -> bool) (t : Table) :
  0 <= count_rows p t <= Z.of_nat (List.length t).
Proof.
  unfold count_rows. pose proof (filter_length_le p t). lia.
Qed.

Lemma count_rows_le (p q : Row -> bool) (t : Table) :
  (forall r, p r = true -> q r = true) -> count_rows p t <= count_rows q t.
Proof.
  intros H. unfold count_rows. apply inj_le. now apply filter_length_le_imp.
Qed.

Lemma list_a_not_list_b (r : Row) : row_is_a r = true -> row_is_b r = false.
Proof.
  unfold row_is_a, row_is_b. intros H. apply String.eqb_eq in H. now rewrite H.
Qed.

Lemma list_a_list_b_count (t : Table) :
  count_rows row_is_a t + count_rows (fun r => (row_is_b r || row_is_chapter r)%bool) t
  <= Z.of_nat (List.length t) + count_rows row_is_chapter t.
Proof.
  unfold count_rows. induction t as [| r t IH]; [simpl; lia |].
  cbn [filter]. pose proof (list_a_not_list_b r) as Hab.
  destruct (row_is_a r); [rewrite Hab by reflexivity |];
    destruct (row_is_b r), (row_is_chapter r); cbn [orb List.length];
    rewrite ?Nat2Z.inj_succ; lia.
Qed.

(** X5. In every summary the counts are numbers of rows of the table:
    [records_total] is the number of rows, each other count lies between
    zero and [records_total], none of the three conference counts exceeds
    the conference total, and List A and List B together exceed
    [records_total] by at most the number of book chapters (a chapter of
    category "A" is counted in both lists). *)
Theorem summary_counts_bounded (RT : Runtime) df metrics s :
  compute_summary df metrics = Ret s ->
  let T := totals s in
  totals_records_total T = Z.of_nat (List.length (rows df)) /\
  totals_publications_list_a T = count_rows row_is_a (rows df) /\
  totals_conference_contributions_total T = count_rows row_is_conf (rows df) /\
  (forall n, In n [totals_publications_list_a T; totals_publications_list_b T;
                   totals_book_chapters T; totals_conference_contributions_total T;
                   totals_conference_oral_presentations T; totals_conference_posters T;
                   totals_conference_type_unspecified T] ->
             0 <= n <= totals_records_total T) /\
  totals_conference_oral_presentations T <= totals_conference_contributions_total T /\
  totals_conference_posters T <= totals_conference_contributions_total T /\
  totals_conference_type_unspecified T <= totals_conference_contributions_total T /\
  totals_publications_list_a T + totals_publications_list_b T
  <= totals_records_total T + totals_book_chapters T.
Proof.
  intros H T. subst T.
  destruct (compute_summary_inv _ _ _ H) as (tp & ti & points & _ & _ & _ & Ht & _).
  rewrite Ht. cbn -[count_rows In].
  split; [reflexivity |]. split; [reflexivity |]. split; [reflexivity |].
  split.
  { intros n Hn. simpl in Hn.
    repeat (destruct Hn as [<- | Hn]; [apply count_rows_bounds |]). destruct Hn. }
  split; [apply count_rows_le; intros r Hr; now apply andb_prop in Hr |].
  split; [apply count_rows_le; intros r Hr; now apply andb_prop in Hr |].
  split; [apply count_rows_le; intros r Hr; now apply andb_prop in Hr |].
  apply list_a_list_b_count.
Qed.

(** ** The yearly counts *)

(** the conversion of an integer to a float gives a number *)
Lemma shr_1_nonneg (mrs : shr_record) : 0 <= shr_m mrs -> 0 <= shr_m (shr_1 mrs).
Proof.
  destruct mrs as [m r s]. simpl. intros H.
  destruct m as [| p | p]; simpl; try lia; destruct p; simpl; lia.
Qed.

Lemma iter_shr_1_nonneg (p : positive) (mrs : shr_record) :
  0 <= shr_m mrs -> 0 <= shr_m (iter_pos shr_1 p mrs).
Proof.
  revert mrs. induction p as [p IH | p IH |]; intros mrs H; simpl.
  - apply IH, IH. now apply shr_1_nonneg.
  - now apply IH, IH.
  - now apply shr_1_nonneg.
Qed.

Lemma shr_fexp_nonneg (m e : Z) (l : location) :
  0 <= m -> 0 <= shr_m (fst (shr_fexp Float.prec Float.emax m e l)).
Proof.
  intros H. unfold shr_fexp, shr.
  assert (H0 : 0 <= shr_m (shr_record_of_loc m l)).
  { destruct l as [| []]; exact H. }
  destruct (fexp Float.prec Float.emax (Zdigits2 m + e) - e); simpl;
    [exact H0 | now apply iter_shr_1_nonneg | exact H0].
Qed.

Lemma round_nearest_even_nonneg (m : Z) (l : location) :
  0 <= m -> 0 <= round_nearest_even m l.
Proof.
  intros H. unfold round_nearest_even.
  destruct l as [| []]; try lia. destruct (Z.even m); lia.
Qed.

Lemma binary_round_aux_not_nan (sx : bool) (mx ex : Z) (lx : location) :
  0 <= mx -> Float.is_nan (binary_round_aux Float.prec Float.emax sx mx ex lx) = false.
Proof.
  intros H. unfold binary_round_aux.
  pose proof (shr_fexp_nonneg ex lx H) as H1.
  destruct (shr_fexp Float.prec Float.emax mx ex lx) as [mrs' e'].
  simpl in H1.
  pose proof (shr_fexp_nonneg e' loc_Exact
                (round_nearest_even_nonneg (loc_of_shr_record mrs') H1)) as H2.
  destruct (shr_fexp Float.prec Float.emax _ e' loc_Exact) as [mrs'' e''].
  simpl in H2.
  destruct (shr_m mrs''); [reflexivity | | lia].
  now destruct (e'' <=? Float.emax - Float.prec).
Qed.

Lemma of_Z_not_nan (z : Z) : Float.is_nan (Float.of_Z z) = false.
Proof.
  unfold Float.of_Z, binary_normalize.
  destruct z as [| p | p]; [reflexivity | |];
    unfold binary_round;
    destruct (shl_align _ _ _) as [mz ez];
    apply binary_round_aux_not_nan; lia.
Qed.

Lemma isna_box_int (o : option Z) :
  Pd.isna_scalar (Series.box_int o) = Series.is_none o.
Proof. now destruct o. Qed.

Lemma isna_box_int_as_float (o : option Z) :
  Pd.isna_scalar (Series.box_int_as_float o) = Series.is_none o.
Proof.
  destruct o as [z |]; [| reflexivity].
  unfold Pd.isna_scalar. simpl. apply of_Z_not_nan.
Qed.

(** the cells of a column of [apply(_safe_int)] results: all boxed the
    same way, null exactly where the result is [None] *)
Lemma infer_int_boxes (c : list (option Z)) :
  exists box : option Z -> PyVal,
    Series.infer_int c = map box c /\
    (forall o, Pd.isna_scalar (box o) = Series.is_none o) /\
    (existsb Series.is_none c = false -> box = Series.box_int).
Proof.
  unfold Series.infer_int.
  destruct (existsb Series.is_none c).
  - destruct (Series.int_scan_object false false c || forallb Series.is_none c)%bool.
    + exists Series.box_int. split; [reflexivity |].
      split; [apply isna_box_int | discriminate].
    + exists Series.box_int_as_float. split; [reflexivity |].
      split; [apply isna_box_int_as_float | discriminate].
  - exists Series.box_int. split; [reflexivity |].
    split; [apply isna_box_int | reflexivity].
Qed.

(** the rows whose year parses, and those of a given year *)
Definition year_parses (r : Row) : bool :=
  match year_of_row r with Some _ => true | None => false end.

Definition has_year (y : Z) (r : Row) : bool :=
  match year_of_row r with Some z => z =? y | None => false end.

(** the number of cells of the year [k] *)
Definition same_year_count (k : Z) (l : list PyVal) : Z :=
  Z.of_nat (List.length (filter (fun v => year_key v =? k) l)).

Lemma same_year_count_cons (k : Z) (v : PyVal) (l : list PyVal) :
  same_year_count k (v :: l)
  = (if year_key v =? k then 1 else 0) + same_year_count k l.
Proof.
  unfold same_year_count. cbn [filter].
  destruct (year_key v =? k); cbn [List.length]; lia.
Qed.

Lemma same_year_count_none (k : Z) (l : list PyVal) :
  (forall v, In v l -> year_key v <> k) -> same_year_count k l = 0.
Proof.
  intros H. induction l as [| v l IH]; [reflexivity |].
  rewrite same_year_count_cons, IH by (intros x Hx; apply H; now right).
  specialize (H v (or_introl eq_refl)). apply Z.eqb_neq in H. now rewrite H.
Qed.

Lemma group_sizes_head (v : PyVal) (r : list PyVal) :
  exists n g, group_sizes (v :: r) = (v, n) :: g.
Proof.
  simpl. destruct (group_sizes r) as [| [v' n] g]; [eauto |].
  destruct (year_key v =? year_key v'); eauto.
Qed.

Lemma group_sizes_sum (l : list PyVal) :
  fold_right Z.add 0 (map snd (group_sizes l)) = Z.of_nat (List.length l).
Proof.
  induction l as [| v r IH]; [reflexivity |].
  cbn [group_sizes List.length]. rewrite Nat2Z.inj_succ, <- IH.
  destruct (group_sizes r) as [| [v' n] g]; [reflexivity |].
  destruct (year_key v =? year_key v'); cbn [map snd fold_right]; lia.
Qed.

(** cells in descending order of their years *)
Definition descending (l : list PyVal) : Prop :=
  StronglySorted (fun a b => year_key b <= year_key a) l.

(** the groups of [l]: every year once, the latest first, each with the
    number of its cells *)
Definition groups_of (l : list PyVal) (groups : list (PyVal * Z)) : Prop :=
  StronglySorted (fun a b => year_key (fst b) < year_key (fst a)) groups /\
  Forall (fun p => In (fst p) l /\ snd p = same_year_count (year_key (fst p)) l) groups /\
  (forall v, In v l -> exists p, In p groups /\ year_key (fst p) = year_key v).

Lemma group_sizes_cons (v : PyVal) (r : list PyVal) :
  group_sizes (v :: r)
  = match group_sizes r with
    | (v', n) :: g =>
        if year_key v =? year_key v' then (v, n + 1) :: g else (v, 1) :: (v', n) :: g
    | [] => [(v, 1)]
    end.
Proof. reflexivity. Qed.

Lemma group_sizes_groups (l : list PyVal) : descending l -> groups_of l (group_sizes l).
Proof.
  unfold descending, groups_of.
  induction l as [| v r IH]; intros Hd.
  { simpl. split; [constructor |]. split; [constructor | intros v []]. }
  inversion Hd as [| ? ? Hr Hv]; subst.
  destruct (IH Hr) as (Hs & Hc & Hall). clear IH.
  rewrite Forall_forall in Hv.
  rewrite group_sizes_cons.
  destruct r as [| v' r'].
  { simpl. split; [repeat constructor |]. split.
    - constructor; [| constructor]. cbn [fst snd]. split; [now left |].
      rewrite same_year_count_cons, Z.eqb_refl. reflexivity.
    - intros x [<- | []]. exists (v, 1). split; [now left | reflexivity]. }
  assert (Hle : forall x, In x (v' :: r') -> year_key x <= year_key v').
  { inversion Hr as [| ? ? _ Hv']; subst. rewrite Forall_forall in Hv'.
    intros x [<- | Hx]; [lia | now apply Hv']. }
  destruct (group_sizes_head v' r') as (n & g & Eg).
  rewrite Eg in *. set (r := v' :: r') in *.
  inversion Hs as [| ? ? Hsg Hlt]; subst.
  inversion Hc as [| ? ? Hhead Hcg]; subst. destruct Hhead as [_ Hn].
  cbn [fst snd] in Hn.
  rewrite Forall_forall in Hlt, Hcg. cbn [fst] in Hlt.
  assert (Hv'v : year_key v' <= year_key v) by (apply Hv; now left).
  destruct (year_key v =? year_key v') eqn:E.
  - apply Z.eqb_eq in E. split; [| split].
    + constructor; [exact Hsg |]. apply Forall_forall. intros p Hp. cbn [fst].
      rewrite E. now apply Hlt.
    + constructor.
      * cbn [fst snd]. split; [now left |].
        rewrite same_year_count_cons, Z.eqb_refl, E. lia.
      * apply Forall_forall. intros p Hp. destruct (Hcg p Hp) as [Hin Hcount].
        split; [now right |].
        rewrite same_year_count_cons, Hcount.
        specialize (Hlt p Hp).
        destruct (year_key v =? year_key (fst p)) eqn:E'; [| lia].
        apply Z.eqb_eq in E'. lia.
    + intros x [<- | Hx].
      * exists (v, n + 1). split; [now left | reflexivity].
      * destruct (Hall x Hx) as (p & [<- | Hp] & Hk).
        -- exists (v, n + 1). split; [now left |]. cbn [fst] in *. lia.
        -- exists p. split; [now right | exact Hk].
  - apply Z.eqb_neq in E. split; [| split].
    + constructor; [exact Hs |]. constructor; [cbn [fst]; lia |].
      apply Forall_forall. intros p Hp. specialize (Hlt p Hp). cbn [fst]. lia.
    + constructor.
      * cbn [fst snd]. split; [now left |].
        rewrite same_year_count_cons, Z.eqb_refl.
        rewrite same_year_count_none; [reflexivity |].
        intros x Hx. specialize (Hle x Hx). lia.
      * apply Forall_forall. intros p Hp.
        assert (Hpk : year_key (fst p) <= year_key v').
        { destruct Hp as [<- | Hp]; [cbn [fst]; lia |]. specialize (Hlt p Hp). lia. }
        rewrite Forall_forall in Hc. destruct (Hc p Hp) as [Hin Hcount].
        split; [now right |].
        rewrite same_year_count_cons, Hcount.
        destruct (year_key v =? year_key (fst p)) eqn:E'; [| lia].
        apply Z.eqb_eq in E'. lia.
    + intros x [<- | Hx].
      * exists (v, 1). split; [now left | reflexivity].
      * destruct (Hall x Hx) as (p & Hp & Hk).
        exists p. split; [now right | exact Hk].
Qed.

Lemma filter_perm {A} (p : A -> bool) (l l' : list A) :
  Permutation l l' -> Permutation (filter p l) (filter p l').
Proof.
  induction 1 as [| x l l' _ IH | x y l | l l' l'' _ IH1 _ IH2]; simpl.
  - constructor.
  - destruct (p x); [now constructor | exact IH].
  - destruct (p x), (p y); try reflexivity. apply perm_swap.
  - now transitivity (filter p l').
Qed.

Lemma sorted_weaken {A} (R S : A -> A -> Prop) (l : list A) :
  (forall a b, R a b -> S a b) -> StronglySorted R l -> StronglySorted S l.
Proof.
  intros H Hs. induction Hs as [| a l Hs IH Ha]; constructor; [exact IH |].
  apply Forall_forall. rewrite Forall_forall in Ha. intros b Hb. now apply H, Ha.
Qed.

Lemma groups_of_perm (l l' : list PyVal) (groups : list (PyVal * Z)) :
  Permutation l l' -> groups_of l groups -> groups_of l' groups.
Proof.
  intros Hp (Hs & Hc & Hall). split; [exact Hs |]. split.
  - rewrite Forall_forall in *. intros p Hin. destruct (Hc p Hin) as [Hi Hn].
    split; [now apply (Permutation_in _ Hp) |].
    rewrite Hn. unfold same_year_count. f_equal.
    apply Permutation_length. now apply filter_perm.
  - intros v Hv. apply Hall. now apply (Permutation_in _ (Permutation_sym Hp)).
Qed.

Section YearCounts.
Context {RT : Runtime}.

(** the yearly counts are the groups of the non-null cells of [year_int] *)
Lemma year_counts_groups (df : DataFrame) :
  exists groups,
    compute_year_counts df = map (fun p => (py_str (fst p), snd p)) groups /\
    groups_of (Series.dropna (year_int df)) groups /\
    fold_right Z.add 0 (map snd groups)
    = Z.of_nat (List.length (Series.dropna (year_int df))).
Proof.
  unfold compute_year_counts.
  set (ys := Series.dropna (year_int df)).
  set (sorted := sort_values_desc Z.ltb (fun _ => false) (map year_key ys) ys).
  assert (Hp : Permutation sorted ys).
  { apply sort_values_desc_perm. apply length_map. }
  exists (group_sizes sorted). split; [reflexivity |]. split.
  - apply (groups_of_perm Hp). apply group_sizes_groups.
    unfold descending, sorted.
    eapply sorted_weaken;
      [| apply (@sort_values_desc_sorted Z PyVal Z.ltb)].
    + intros a b H. cbv beta in H. apply Z.ltb_ge in H. exact H.
    + intros a b H. apply Z.ltb_lt in H. apply Z.ltb_ge. lia.
    + intros a b c H1 H2. apply Z.ltb_ge in H1, H2. apply Z.ltb_ge. lia.
  - rewrite group_sizes_sum. f_equal. now apply Permutation_length.
Qed.

End YearCounts.

Lemma compute_summary_year_counts (RT : Runtime) df metrics s :
  compute_summary df metrics = Ret s -> year_counts s = compute_year_counts df.
Proof.
  unfold compute_summary. intros H.
  destruct (column_total (mnicsw_points_num df)); simpl in H; [| discriminate].
  destruct (column_total (impact_factor_num df)); simpl in H; [| discriminate].
  destruct (int_if_integer _); simpl in H; [| discriminate].
  repeat (destruct (dict_get metrics _ _); simpl in H; [| discriminate]).
  now injection H as <-.
Qed.

(** the non-null cells of a boxed column, row by row *)
Lemma dropna_boxed_length (box : option Z -> PyVal) (t : Table) :
  (forall o, Pd.isna_scalar (box o) = Series.is_none o) ->
  Z.of_nat (List.length (Series.dropna (map box (map year_of_row t))))
  = count_rows year_parses t.
Proof.
  intros Hbox. unfold count_rows, year_parses. f_equal.
  induction t as [| r t IH]; [reflexivity |].
  cbn [map]. rewrite dropna_cons, Hbox. cbn [filter].
  destruct (year_of_row r); cbn [Series.is_none List.length]; now rewrite IH.
Qed.

Lemma same_year_count_rows (y : Z) (t : Table) :
  same_year_count y (Series.dropna (map Series.box_int (map year_of_row t)))
  = count_rows (has_year y) t.
Proof.
  unfold same_year_count, count_rows, has_year. f_equal.
  induction t as [| r t IH]; [reflexivity |].
  cbn [map]. rewrite dropna_cons, isna_box_int. cbn [filter].
  destruct (year_of_row r) as [z |]; cbn [Series.is_none Series.box_int filter];
    [| exact IH].
  change (year_key (VInt z)) with z.
  destruct (z =? y); cbn [List.length]; now rewrite IH.
Qed.

Lemma dropna_boxed_ints (t : Table) (v : PyVal) :
  In v (Series.dropna (map Series.box_int (map year_of_row t))) <->
  exists r y, In r t /\ year_of_row r = Some y /\ v = VInt y.
Proof.
  unfold Series.dropna. rewrite filter_In, map_map, in_map_iff. split.
  - intros [(r & <- & Hr) Hna]. destruct (year_of_row r) as [y |] eqn:E;
      [| discriminate]. now exists r, y.
  - intros (r & y & Hr & Hy & ->). split; [| reflexivity].
    exists r. now rewrite Hy.
Qed.

(** X6. For a loaded table the yearly counts of the summary add up to the
    number of rows whose year parses. When every year parses, the yearly
    counts list the years that occur in the table, the latest first, each
    with the number of rows of that year. *)
Theorem year_counts_of_table (RT : Runtime) (t : Table) df metrics s :
  coerce_columns t = Ret df ->
  compute_summary df metrics = Ret s ->
  fold_right Z.add 0 (map snd (year_counts s)) = count_rows year_parses t /\
  ((forall r, In r t -> year_parses r = true) ->
   exists years : list Z,
     StronglySorted (fun a b => b < a) years /\
     (forall y, In y years <-> exists r, In r t /\ year_of_row r = Some y) /\
     year_counts s
     = map (fun y => (py_str (VInt y), count_rows (has_year y) t)) years).
Proof.
  intros Hdf Hs. apply coerce_columns_inv in Hdf. subst df.
  rewrite (compute_summary_year_counts _ _ _ Hs).
  destruct (year_counts_groups (coerced t)) as (groups & Hg & (Hsort & Hc & Hall) & Hsum).
  cbn [coerced year_int] in Hc, Hall, Hsum.
  change (map (fun r => value_or None (_safe_int (VStr (year r)))) t)
    with (map year_of_row t) in Hc, Hall, Hsum.
  destruct (infer_int_boxes (map year_of_row t)) as (box & Hbox & Hna & Hyears).
  rewrite Hbox in Hc, Hall, Hsum.
  rewrite Hg. split.
  { rewrite map_map.
    change (fold_right Z.add 0 (map snd groups) = count_rows year_parses t).
    rewrite Hsum. now apply dropna_boxed_length. }
  intros Hparse.
  assert (Hno : existsb Series.is_none (map year_of_row t) = false).
  { apply not_true_is_false. intros H. apply existsb_exists in H.
    destruct H as (o & Ho & Hn). apply in_map_iff in Ho.
    destruct Ho as (r & <- & Hr). specialize (Hparse r Hr).
    unfold year_parses in Hparse. now destruct (year_of_row r). }
  rewrite (Hyears Hno) in Hc, Hall. clear Hbox Hna Hyears Hsum box.
  rewrite Forall_forall in Hc.
  exists (map (fun p => year_key (fst p)) groups). split; [| split].
  - apply sorted_map with (R := fun a b => year_key (fst b) < year_key (fst a));
      [| exact Hsort]. auto.
  - intros y. rewrite in_map_iff. split.
    + intros (p & <- & Hp). destruct (Hc p Hp) as [Hin _].
      apply dropna_boxed_ints in Hin. destruct Hin as (r & z & Hr & Hz & ->).
      now exists r.
    + intros (r & Hr & Hy).
      destruct (Hall (VInt y)) as (p & Hp & Hk).
      { apply dropna_boxed_ints. now exists r, y. }
      now exists p.
  - rewrite map_map. apply map_ext_in. intros p Hp.
    destruct (Hc p Hp) as [Hin Hn].
    apply dropna_boxed_ints in Hin. destruct Hin as (r & z & Hr & Hz & Hv).
    rewrite Hn, same_year_count_rows, Hv. reflexivity.
Qed.

(** ** The order of the outputs *)

















Section OutputOrder.
Context {RT : Runtime}.














End OutputOrder.

(** ** The fonts of the PDF *)

Section Fonts.
Context {RT : Runtime}.

(** the font file is there; it is there and [TTFont] loads it *)
Definition font_present (f : FileSystem) (p : Path) : bool :=
  match f p with Some _ => true | None => false end.

Definition font_loads (f : FileSystem) (p : Path) : bool :=
  match f p with Some bytes => ttfont bytes | None => false end.

(** the fonts [generate_cv_pdf] ends up with, for the files there are *)
Definition fonts_of (f : FileSystem) : string * string :=
  if font_loads f FONT_REGULAR then
    if font_present f FONT_BOLD then
      if font_loads f FONT_BOLD then ("DejaVuSans", "DejaVuSans-Bold")%string
      else ("Helvetica", "Helvetica-Bold")%string
    else ("DejaVuSans", "DejaVuSans")%string
  else ("Helvetica", "Helvetica-Bold")%string.

Lemma choose_fonts_run (w : World) :
  exists w', choose_fonts w = (Ret (fonts_of (fs w)), w') /\ fs w' = fs w.
Proof.
  unfold choose_fonts, fonts_of, font_loads, font_present,
    io_try, io_bind, path_exists, load_font, io_bind, read_bytes.
  destruct (fs w FONT_REGULAR) as [b1 |] eqn:E1;
    destruct (fs w FONT_BOLD) as [b2 |] eqn:E2;
    try destruct (ttfont b1) eqn:T1; try destruct (ttfont b2) eqn:T2;
    repeat (simpl; rewrite ?E1, ?E2, ?T1, ?T2; simpl);
    eexists; split; reflexivity.
Qed.

(** X8. Choosing the fonts of the PDF never fails and changes no file.
    The PDF is set in DejaVu Sans with its bold face exactly when both
    font files are there and load; in DejaVu Sans for both faces exactly
    when the regular file loads and the bold file is absent; and in the
    built-in Helvetica otherwise, also when the regular file loads but
    the bold file is there and does not load. *)
Theorem font_fallback (w : World) :
  exists fonts w',
    choose_fonts w = (Ret fonts, w') /\ fs w' = fs w /\
    (fonts = ("DejaVuSans", "DejaVuSans-Bold")%string <->
       font_loads (fs w) FONT_REGULAR = true /\ font_loads (fs w) FONT_BOLD = true) /\
    (fonts = ("DejaVuSans", "DejaVuSans")%string <->
       font_loads (fs w) FONT_REGULAR = true /\ font_present (fs w) FONT_BOLD = false) /\
    (fonts = ("Helvetica", "Helvetica-Bold")%string <->
       font_loads (fs w) FONT_REGULAR = false \/
       (font_present (fs w) FONT_BOLD = true /\ font_loads (fs w) FONT_BOLD = false)).
Proof.
  destruct (choose_fonts_run w) as (w' & Hc & Hfs).
  exists (fonts_of (fs w)), w'. split; [exact Hc |]. split; [exact Hfs |].
  unfold fonts_of.
  assert (Hpl : font_loads (fs w) FONT_BOLD = true -> font_present (fs w) FONT_BOLD = true).
  { unfold font_loads, font_present. now destruct (fs w FONT_BOLD). }
  destruct (font_loads (fs w) FONT_REGULAR);
    destruct (font_present (fs w) FONT_BOLD);
    destruct (font_loads (fs w) FONT_BOLD);
    try (specialize (Hpl eq_refl); discriminate);
    repeat split; try discriminate; try tauto; intuition discriminate.
Qed.

End Fonts.

(** ** The encodings of publications.csv *)

Section Encodings.
Context {RT : Runtime}.

(** the error [pd.read_csv] raises on a result that is no table *)
Definition csv_error (r : CsvResult) : exn :=
  match r with
  | ParseFail => ParserError
  | _ => UnicodeDecodeError
  end.

Definition csv_fails (enc : Encoding) (bytes : string) : bool :=
  match read_csv enc bytes with Parsed _ => false | _ => true end.

Lemma read_csv_file_fails (enc : Encoding) (w : World) (bytes : string) :
  fs w PUBLICATIONS_CSV = Some bytes -> csv_fails enc bytes = true ->
  read_csv_file enc w
  = (Raise (csv_error (read_csv enc bytes)), log (Read PUBLICATIONS_CSV) w).
Proof.
  intros H Hf. unfold read_csv_file, io_bind, read_bytes, csv_fails in *. rewrite H.
  destruct (read_csv enc bytes); [reflexivity | reflexivity | discriminate].
Qed.

Lemma read_csv_file_parses (enc : Encoding) (w : World) (bytes : string) (t : Table) :
  fs w PUBLICATIONS_CSV = Some bytes -> read_csv enc bytes = Parsed t ->
  read_csv_file enc w = (Ret t, log (Read PUBLICATIONS_CSV) w).
Proof.
  intros H Hp. unfold read_csv_file, io_bind, read_bytes. now rewrite H, Hp.
Qed.

Lemma log_reads (w : World) (n : nat) :
  mk_world (fs (log (Read PUBLICATIONS_CSV) w))
           (trace (log (Read PUBLICATIONS_CSV) w) ++ repeat (Read PUBLICATIONS_CSV) n)
  = mk_world (fs w) (trace w ++ repeat (Read PUBLICATIONS_CSV) (S n)).
Proof. simpl. now rewrite <- app_assoc. Qed.

(** the loop stops at the first encoding under which the file is read *)
Lemma fallback_first (pre post : list Encoding) (enc : Encoding) (t : Table)
      (last_err : option exn) (w : World) (bytes : string) :
  fs w PUBLICATIONS_CSV = Some bytes ->
  forallb (fun e => csv_fails e bytes) pre = true ->
  read_csv enc bytes = Parsed t ->
  exists le,
    read_with_fallback (pre ++ enc :: post) last_err w
    = (Ret (Some t, le),
       mk_world (fs w)
                (trace w ++ repeat (Read PUBLICATIONS_CSV) (S (List.length pre)))).
Proof.
  revert last_err w. induction pre as [| e pre IH]; intros last_err w H Hpre Hp.
  - exists last_err. cbn [app read_with_fallback]. unfold io_try, io_bind.
    now rewrite (read_csv_file_parses enc w H Hp).
  - cbn [forallb] in Hpre. apply andb_prop in Hpre. destruct Hpre as [He Hpre].
    cbn [app read_with_fallback]. unfold io_try at 1, io_bind at 1.
    rewrite (read_csv_file_fails e w H He).
    destruct (IH (Some (csv_error (read_csv e bytes))) (log (Read PUBLICATIONS_CSV) w)
                 H Hpre Hp) as [le Hle].
    exists le. rewrite Hle. cbn [List.length]. now rewrite log_reads.
Qed.

(** the error the loop is left with when no encoding reads the file *)
Definition last_error (encs : list Encoding) (last_err : option exn) (bytes : string)
  : option exn :=
  match rev encs with
  | [] => last_err
  | enc :: _ => Some (csv_error (read_csv enc bytes))
  end.

Lemma last_error_cons (e : Encoding) (encs : list Encoding) (last_err : option exn)
      (bytes : string) :
  last_error (e :: encs) last_err bytes
  = last_error encs (Some (csv_error (read_csv e bytes))) bytes.
Proof.
  unfold last_error. cbn [rev].
  destruct (rev encs) as [| x l] eqn:E; reflexivity.
Qed.

Lemma fallback_none (encs : list Encoding) (last_err : option exn)
      (w : World) (bytes : string) :
  fs w PUBLICATIONS_CSV = Some bytes ->
  forallb (fun e => csv_fails e bytes) encs = true ->
  read_with_fallback encs last_err w
  = (Ret (None, last_error encs last_err bytes),
     mk_world (fs w) (trace w ++ repeat (Read PUBLICATIONS_CSV) (List.length encs))).
Proof.
  revert last_err w. induction encs as [| e encs IH]; intros last_err w H Hall.
  - simpl. unfold io_ret. rewrite app_nil_r. now destruct w.
  - cbn [forallb] in Hall. apply andb_prop in Hall. destruct Hall as [He Hall].
    cbn [read_with_fallback]. unfold io_try at 1, io_bind at 1.
    rewrite (read_csv_file_fails e w H He).
    rewrite (IH _ (log (Read PUBLICATIONS_CSV) w) H Hall).
    cbn [List.length]. now rewrite log_reads, last_error_cons.
Qed.

(** X9. [load_publications_df] reads publications.csv under the encodings
    utf-8-sig, utf-8, cp1250, iso-8859-2 and latin1 in this order and
    takes the table of the first encoding under which the file is read:
    the file has then been read once for that encoding and once for every
    encoding before it. When no encoding reads the file, it has been read
    five times and the error raised is the one of the last attempt,
    latin1. *)
Theorem first_readable_encoding (w : World) (bytes : string) :
  fs w PUBLICATIONS_CSV = Some bytes ->
  (forall pre enc post t,
      encodings_to_try = pre ++ enc :: post ->
      forallb (fun e => csv_fails e bytes) pre = true ->
      read_csv enc bytes = Parsed t ->
      fst (load_publications_df w) = Ret (coerced t) /\
      trace (snd (load_publications_df w))
      = trace w ++ Probe PUBLICATIONS_CSV
                   :: repeat (Read PUBLICATIONS_CSV) (S (List.length pre))) /\
  (forallb (fun e => csv_fails e bytes) encodings_to_try = true ->
   fst (load_publications_df w) = Raise (csv_error (read_csv latin1 bytes)) /\
   trace (snd (load_publications_df w))
   = trace w ++ Probe PUBLICATIONS_CSV :: repeat (Read PUBLICATIONS_CSV) 5).
Proof.
  intros H.
  assert (H' : fs (log (Probe PUBLICATIONS_CSV) w) PUBLICATIONS_CSV = Some bytes)
    by exact H.
  split.
  - intros pre enc post t Henc Hpre Hp.
    destruct (fallback_first pre post enc None (log (Probe PUBLICATIONS_CSV) w) H' Hpre Hp)
      as [le Hle].
    assert (Hrun : load_publications_df w
                   = (Ret (coerced t),
                      mk_world (fs w)
                        ((trace w ++ [Probe PUBLICATIONS_CSV])
                         ++ repeat (Read PUBLICATIONS_CSV) (S (List.length pre))))).
    { unfold load_publications_df, io_bind at 1, path_exists.
      cbv beta. rewrite H. cbv beta iota. cbn [negb].
      unfold io_bind. rewrite Henc, Hle. unfold io_lift.
      now rewrite coerce_columns_ret. }
    rewrite Hrun. cbn [fst snd trace].
    split; [reflexivity |]. now rewrite <- app_assoc.
  - intros Hall.
    assert (Hrun : load_publications_df w
                   = (Raise (csv_error (read_csv latin1 bytes)),
                      mk_world (fs w)
                        ((trace w ++ [Probe PUBLICATIONS_CSV])
                         ++ repeat (Read PUBLICATIONS_CSV) 5))).
    { unfold load_publications_df, io_bind at 1, path_exists.
      cbv beta. rewrite H. cbv beta iota. cbn [negb].
      unfold io_bind.
      now rewrite (fallback_none encodings_to_try None
                     (log (Probe PUBLICATIONS_CSV) w) H' Hall). }
    rewrite Hrun. cbn [fst snd trace].
    split; [reflexivity |]. now rewrite <- app_assoc.
Qed.

End Encodings.

(** ** What a run leaves behind *)




Section RunOutputs.
Context {RT : Runtime}.











(** *** Running the build again *)










End RunOutputs.

(** ** The order of the CV sections *)

(** Sorting by a comparison that agrees with a preorder on the keys met:
    the comparison may be anything on other keys. *)
Section SortedByOrder.
Variables K A : Type.
Variable ltb : K -> K -> bool.
Variable key_isna : K -> bool.
Variable good : K -> Prop.
Variable le : K -> K -> Prop.
Hypothesis le_trans : forall a b c, le a b -> le b c -> le a c.
Hypothesis ltb_le : forall a b, good a -> good b -> ltb a b = true -> le a b.
Hypothesis ltb_ge : forall a b, good a -> good b -> ltb a b = false -> le b a.

Definition good_keys (l : list (K * A)) : Prop := Forall (fun p => good (fst p)) l.

Lemma insert_ordered (x : K * A) (l : list (K * A)) :
  good (fst x) -> good_keys l ->
  StronglySorted (fun p q => le (fst p) (fst q)) l ->
  StronglySorted (fun p q => le (fst p) (fst q)) (insert ltb x l).
Proof.
  intros Hx Hg Hs. induction Hs as [| y l Hs IH Hy]; simpl.
  - repeat constructor.
  - inversion Hg as [| ? ? Hgy Hgl]; subst.
    destruct (ltb (fst y) (fst x)) eqn:E.
    + constructor; [now apply IH |].
      apply insert_forall; [| exact Hy]. now apply ltb_le.
    + constructor; [now constructor |].
      assert (Hxy : le (fst x) (fst y)) by now apply ltb_ge.
      constructor; [exact Hxy |].
      apply Forall_forall. intros z Hz. rewrite Forall_forall in Hy.
      eapply le_trans; [exact Hxy | now apply Hy].
Qed.

Lemma insert_good (x : K * A) (l : list (K * A)) :
  good (fst x) -> good_keys l -> good_keys (insert ltb x l).
Proof. intros Hx Hl. now apply insert_forall. Qed.

Lemma argsort_ordered (l : list (K * A)) :
  good_keys l ->
  good_keys (argsort ltb l) /\
  StronglySorted (fun p q => le (fst p) (fst q)) (argsort ltb l).
Proof.
  induction 1 as [| x l Hx Hl IH]; simpl.
  - split; constructor.
  - destruct IH as [Hg Hs]. split.
    + now apply insert_good.
    + now apply insert_ordered.
Qed.

Lemma filter_keeps_all {B} (p : B -> bool) (l : list B) :
  (forall x, In x l -> p x = true) -> filter p l = l.
Proof.
  induction l as [| x l IH]; intros H; simpl; [reflexivity |].
  rewrite (H x (or_introl eq_refl)), IH; [reflexivity |].
  intros y Hy. apply H. now right.
Qed.

Lemma filter_drops_all {B} (p : B -> bool) (l : list B) :
  (forall x, In x l -> p x = false) -> filter p l = [].
Proof.
  induction l as [| x l IH]; intros H; simpl; [reflexivity |].
  rewrite (H x (or_introl eq_refl)). apply IH.
  intros y Hy. apply H. now right.
Qed.

(** rows sorted by a key computed from each row, no key being null *)
Lemma sort_values_desc_ordered (key : A -> K) (rows : list A) :
  (forall r, In r rows -> good (key r)) ->
  (forall r, In r rows -> key_isna (key r) = false) ->
  StronglySorted (fun a b => le (key b) (key a))
                 (sort_values_desc ltb key_isna (map key rows) rows).
Proof.
  intros Hgood Hna. unfold sort_values_desc, nargsort_desc.
  assert (Hk : forall p, In p (combine (map key rows) rows) ->
                         fst p = key (snd p) /\ In (snd p) rows).
  { clear. induction rows as [| r rows IH]; simpl; [intros p [] |].
    intros p [<- | Hp]; [split; [reflexivity | now left] |].
    destruct (IH p Hp). split; [assumption | now right]. }
  rewrite (filter_drops_all (fun p => key_isna (fst p))), app_nil_r.
  2:{ intros p Hp. destruct (Hk p Hp) as [-> Hin]. now apply Hna. }
  rewrite filter_keeps_all.
  2:{ intros p Hp. destruct (Hk p Hp) as [-> Hin]. now rewrite Hna. }
  set (l := combine (map key rows) rows) in *.
  assert (Hg : good_keys (rev l)).
  { apply Forall_rev. apply Forall_forall. intros p Hp.
    destruct (Hk p Hp) as [-> Hin]. now apply Hgood. }
  destruct (argsort_ordered Hg) as [_ Hs].
  apply sorted_rev in Hs.
  apply sorted_map with (R := fun p q => le (fst q) (fst p)); [| exact Hs].
  intros a b Ha Hb Hab.
  assert (Hperm : Permutation (rev (argsort ltb (rev l))) l).
  { rewrite <- Permutation_rev, argsort_perm, <- Permutation_rev. reflexivity. }
  apply (Permutation_in _ Hperm) in Ha. apply (Permutation_in _ Hperm) in Hb.
  destruct (Hk a Ha) as [<- _]. destruct (Hk b Hb) as [<- _]. exact Hab.
Qed.

End SortedByOrder.

Section NullsLast.
Variables K A : Type.
Variable ltb : K -> K -> bool.
Variable key_isna : K -> bool.

Lemma filter_combine_key (p : K -> bool) (key : A -> K) (rows : list A) :
  map snd (filter (fun q => p (fst q)) (combine (map key rows) rows))
  = filter (fun r => p (key r)) rows.
Proof.
  induction rows as [| r rows IH]; simpl; [reflexivity |].
  destruct (p (key r)); simpl; now rewrite IH.
Qed.

(** rows with a null key come last, in their order in the frame *)
Lemma sort_values_desc_nulls_last (key : A -> K) (rows : list A) :
  exists dated,
    sort_values_desc ltb key_isna (map key rows) rows
    = dated ++ filter (fun r => key_isna (key r)) rows /\
    Permutation dated (filter (fun r => negb (key_isna (key r))) rows).
Proof.
  unfold sort_values_desc, nargsort_desc. rewrite map_app.
  rewrite (filter_combine_key key_isna).
  eexists. split; [reflexivity |].
  rewrite <- (filter_combine_key (fun k => negb (key_isna k))).
  apply Permutation_map.
  rewrite <- Permutation_rev, argsort_perm, <- Permutation_rev. reflexivity.
Qed.

End NullsLast.

(** the year of a row, zero standing for none, and the start of a
    conference in seconds, the epoch standing for none *)
Definition year_number (r : Row) : Z :=
  match year_of_row r with Some y => y | None => 0 end.

Section SectionOrder.
Context {RT : Runtime}.

Definition start_seconds (r : Row) : Z :=
  match start_of_row r with Some d => Date.timestamp d | None => 0 end.

Lemma section_rows_sorted (t : Table) (mask : list bool) :
  exists box : option Z -> PyVal,
    section_rows t mask
    = Ret (sort_values_desc num_ltb Pd.isna_scalar
             (map (fun r => box (year_of_row r)) (Series.loc t mask))
             (Series.loc t mask)) /\
    (forall o, Pd.isna_scalar (box o) = Series.is_none o) /\
    ((forall r, In r (Series.loc t mask) -> year_parses r = true) ->
     box = Series.box_int).
Proof.
  unfold section_rows, cells. rewrite (mapM_total None _safe_int_total).
  cbn [bind]. rewrite map_map.
  change (map (fun x => value_or None (_safe_int (VStr (year x)))) (Series.loc t mask))
    with (map year_of_row (Series.loc t mask)).
  destruct (infer_int_boxes (map year_of_row (Series.loc t mask)))
    as (box & Hbox & Hna & Hyears).
  exists box. rewrite Hbox, map_map. split; [reflexivity |]. split; [exact Hna |].
  intros Hall. apply Hyears.
  apply not_true_is_false. intros H. apply existsb_exists in H.
  destruct H as (o & Ho & Hn). apply in_map_iff in Ho.
  destruct Ho as (r & <- & Hr). specialize (Hall r Hr).
  unfold year_parses in Hall. now destruct (year_of_row r).
Qed.

(** X13. A section of the CV lists the rows without a parseable year
    last, in the order of the file, after all the rows that have one.
    When every row of the section has a year, the rows are listed by year,
    the latest first. *)
Theorem section_rows_by_year (t : Table) (mask : list bool) (sub : list Row) :
  section_rows t mask = Ret sub ->
  (exists dated,
      sub = dated ++ filter (fun r => negb (year_parses r)) (Series.loc t mask) /\
      Permutation dated (filter year_parses (Series.loc t mask))) /\
  ((forall r, In r (Series.loc t mask) -> year_parses r = true) ->
   StronglySorted (fun a b => year_number b <= year_number a) sub).
Proof.
  intros H. destruct (section_rows_sorted t mask) as (box & Hs & Hna & Hyears).
  rewrite Hs in H. injection H as <-. split.
  - destruct (sort_values_desc_nulls_last num_ltb Pd.isna_scalar
                (fun r => box (year_of_row r)) (Series.loc t mask))
      as (dated & Hd & Hp).
    exists dated. rewrite Hd. split.
    + f_equal. apply filter_ext. intros r. rewrite Hna.
      unfold year_parses. now destruct (year_of_row r).
    + rewrite Hp. erewrite filter_ext; [reflexivity |].
      intros r. cbv beta. rewrite Hna. unfold year_parses. now destruct (year_of_row r).
  - intros Hall. rewrite (Hyears Hall).
    assert (Hy : forall r, In r (Series.loc t mask) ->
                           Series.box_int (year_of_row r) = VInt (year_number r)).
    { intros r Hr. specialize (Hall r Hr). unfold year_parses, year_number in *.
      now destruct (year_of_row r). }
    eapply sorted_weaken;
      [| apply sort_values_desc_ordered
           with (good := fun k => exists z, k = VInt z)
                (le := fun a b => year_key a <= year_key b)].
    + intros a b Hab. cbv beta in Hab. unfold year_number.
      destruct (year_of_row a), (year_of_row b); exact Hab.
    + intros a b c H1 H2. cbv beta in *. lia.
    + intros a b [x ->] [y ->] Hlt. cbn [num_ltb num_compare] in Hlt.
      destruct (x ?= y) eqn:E; try discriminate.
      assert (x < y) by (now apply Z.compare_lt_iff).
      change (x <= y). lia.
    + intros a b [x ->] [y ->] Hlt. cbn [num_ltb num_compare] in Hlt.
      change (y <= x). destruct (x ?= y) eqn:E; try discriminate.
      * apply Z.compare_eq_iff in E. lia.
      * assert (y < x) by (now apply Z.compare_gt_iff). lia.
    + intros r Hr. rewrite (Hy r Hr). eauto.
    + intros r Hr. now rewrite (Hy r Hr).
Qed.


Lemma timestamp_of_boxed (o : option datetime) :
  timestamp_or_zero (Series.box_timestamp o)
  = match o with Some d => Date.timestamp d | None => 0 end /\
  timestamp_or_zero (Series.box_datetime o)
  = match o with Some d => Date.timestamp d | None => 0 end.
Proof. destruct o; split; reflexivity. Qed.

Lemma infer_datetime_boxes (c : list (option datetime)) :
  exists box : option datetime -> PyVal,
    Series.infer_datetime c = map box c /\
    (forall o, timestamp_or_zero (box o)
               = match o with Some d => Date.timestamp d | None => 0 end).
Proof.
  unfold Series.infer_datetime.
  destruct (negb (forallb Series.is_none c) && forallb Series.fits_ns c)%bool.
  - exists Series.box_timestamp. split; [reflexivity |].
    intros o. apply timestamp_of_boxed.
  - exists Series.box_datetime. split; [reflexivity |].
    intros o. apply timestamp_of_boxed.
Qed.

(** the sort key of a conference row with an integer year *)
Lemma conf_key_int (cell : PyVal) (o : option Z) :
  snd (conf_sort_key cell (Series.box_int o))
  = VInt (match o with Some y => y | None => 0 end).
Proof.
  destruct o as [y |]; [| reflexivity].
  unfold conf_sort_key. cbn [snd Series.box_int cell_truthy].
  destruct (y =? 0) eqn:E; [| reflexivity].
  apply Z.eqb_eq in E. now subst.
Qed.

Lemma conf_key_ltb_ints (a b : Z * PyVal) (x y : Z) :
  snd a = VInt x -> snd b = VInt y ->
  conf_key_ltb a b = pair_ltb (fst a, x) (fst b, y).
Proof.
  intros Ha Hb. unfold conf_key_ltb, pair_ltb. rewrite Ha, Hb. cbn [fst snd].
  unfold num_eqb, num_ltb. cbn [num_compare].
  destruct (fst a =? fst b) eqn:E.
  - apply Z.eqb_eq in E. rewrite E, Z.ltb_irrefl. cbn [orb andb].
    unfold Z.ltb. now destruct (x ?= y).
  - now rewrite orb_false_r.
Qed.

Lemma conference_rows_sorted (t : Table) :
  exists (boxd : option datetime -> PyVal) (boxy : option Z -> PyVal),
    let conf := Series.loc t (cv_conferences t) in
    conference_rows t
    = Ret (sort_values_desc conf_key_ltb (fun _ => false)
             (map (fun r => conf_sort_key (boxd (start_of_row r)) (boxy (year_of_row r)))
                  conf)
             conf) /\
    (forall o, timestamp_or_zero (boxd o)
               = match o with Some d => Date.timestamp d | None => 0 end) /\
    ((forall r, In r conf -> year_parses r = true) -> boxy = Series.box_int).
Proof.
  unfold conference_rows, cells.
  rewrite (mapM_total None _safe_int_total).
  rewrite (mapM_total None _parse_date_ddmmyyyy_total). cbn [bind].
  rewrite !map_map.
  set (conf := Series.loc t (cv_conferences t)).
  change (map (fun x => value_or None (_safe_int (VStr (year x)))) conf)
    with (map year_of_row conf).
  change (map (fun x => value_or None (_parse_date_ddmmyyyy (VStr (start_date x)))) conf)
    with (map start_of_row conf).
  destruct (infer_int_boxes (map year_of_row conf)) as (boxy & Hy & _ & Hyears).
  destruct (infer_datetime_boxes (map start_of_row conf)) as (boxd & Hd & Hts).
  exists boxd, boxy. rewrite Hy, Hd, !map_map, zip_with_map.
  split; [reflexivity |]. split; [exact Hts |].
  intros Hall. apply Hyears.
  apply not_true_is_false. intros H. apply existsb_exists in H.
  destruct H as (o & Ho & Hn). apply in_map_iff in Ho.
  destruct Ho as (r & <- & Hr). specialize (Hall r Hr).
  unfold year_parses in Hall. now destruct (year_of_row r).
Qed.

(** X14. The conference contributions of the CV are listed by start date,
    the latest first, a row without a parseable start date counting as the
    epoch. When every conference row has a year, rows with the same start
    are listed by year, the latest first. *)
Theorem conferences_by_start (t : Table) (conf : list Row) :
  conference_rows t = Ret conf ->
  StronglySorted (fun a b => start_seconds b <= start_seconds a) conf /\
  ((forall r, In r (Series.loc t (cv_conferences t)) -> year_parses r = true) ->
   StronglySorted
     (fun a b => pair_ltb (start_seconds a, year_number a)
                          (start_seconds b, year_number b) = false) conf).
Proof.
  intros H. destruct (conference_rows_sorted t) as (boxd & boxy & Hs & Hts & Hyears).
  cbv zeta in Hs. rewrite Hs in H. injection H as <-. split.
  - eapply sorted_weaken;
      [| apply sort_values_desc_ordered
           with (good := fun _ => True) (le := fun a b => fst a <= fst b)].
    + intros a b Hab. cbv beta in Hab. unfold conf_sort_key in Hab.
      cbn [fst] in Hab. rewrite !Hts in Hab. exact Hab.
    + intros a b c H1 H2. cbv beta in *. lia.
    + intros a b _ _ Hlt. unfold conf_key_ltb in Hlt.
      destruct (fst a =? fst b) eqn:E.
      * apply Z.eqb_eq in E. lia.
      * apply Z.ltb_lt in Hlt. lia.
    + intros a b _ _ Hlt. unfold conf_key_ltb in Hlt.
      destruct (fst a =? fst b) eqn:E.
      * apply Z.eqb_eq in E. lia.
      * apply Z.ltb_ge in Hlt. lia.
    + auto.
    + auto.
  - intros Hall. rewrite (Hyears Hall).
    eapply sorted_weaken;
      [| apply sort_values_desc_ordered
           with (good := fun k => exists y, snd k = VInt y)
                (le := fun a b => pair_ltb (fst b, year_key (snd b))
                                           (fst a, year_key (snd a)) = false)].
    + intros a b Hab. cbv beta in Hab.
      rewrite !conf_key_int in Hab. unfold conf_sort_key in Hab.
      cbn [fst] in Hab. rewrite !Hts in Hab. exact Hab.
    + intros a b c H1 H2. cbv beta in *. eapply pair_ltb_trans; eassumption.
    + intros a b [x Hx] [y Hy] Hlt. cbv beta. rewrite Hx, Hy.
      rewrite (conf_key_ltb_ints a b Hx Hy) in Hlt.
      now apply pair_ltb_asym.
    + intros a b [x Hx] [y Hy] Hlt. cbv beta. rewrite Hx, Hy.
      now rewrite (conf_key_ltb_ints a b Hx Hy) in Hlt.
    + intros r _. rewrite conf_key_int. eauto.
    + auto.
Qed.

(** ** The two renderers print the same entries *)

(** the texts of the paragraphs of a story, and the value a DOCX item was
    made from *)
Definition paragraph_texts (story : list Flowable) : list string :=
  flat_map (fun f => match f with Paragraph text _ => [text] | _ => [] end) story.

Definition item_value (i : DocxItem) : Json :=
  match i with
  | Heading text _ => text
  | Para text => JStr text
  end.

Lemma paragraph_texts_entries {A} (f : A -> string) (l : list A) (tail : list Flowable) :
  paragraph_texts (flat_map (fun x => [Paragraph (f x) "Body"; Spacer 2]) l ++ tail)
  = map f l ++ paragraph_texts tail.
Proof.
  unfold paragraph_texts. rewrite flat_map_app. f_equal.
  induction l as [| x l IH]; simpl; [reflexivity | now rewrite IH].
Qed.

Lemma entries_agree (sub : list Row) :
  paragraph_texts (pdf_entries sub)
  = map (fun i => _rl_escape (item_value i)) (docx_entries sub).
Proof.
  unfold pdf_entries, docx_entries. destruct sub as [| r sub]; [reflexivity |].
  rewrite paragraph_texts_entries, map_map. cbn [paragraph_texts flat_map].
  now rewrite app_nil_r.
Qed.

(** X15. The PDF and the DOCX print the same sections: under each of the
    four headings the two documents hold the same numbered entries (or "No
    records."), the text of every paragraph of the PDF being the
    XML-escaped text of the corresponding paragraph of the DOCX. *)
Theorem renderers_print_the_same_entries (t : Table) :
  (forall title mask,
      exists story items,
        pdf_add_section t title mask = Ret story /\
        docx_add_section t title mask = Ret items /\
        paragraph_texts story = map (fun i => _rl_escape (item_value i)) items) /\
  (exists story items,
      pdf_conferences t = Ret story /\
      docx_conferences t = Ret items /\
      paragraph_texts story = map (fun i => _rl_escape (item_value i)) items).
Proof.
  split.
  - intros title mask. unfold pdf_add_section, docx_add_section.
    destruct (section_rows_total t mask) as [sub ->]. cbn [bind].
    do 2 eexists. split; [reflexivity |]. split; [reflexivity |].
    cbn [paragraph_texts flat_map map item_value app].
    fold (paragraph_texts (pdf_entries sub)). now rewrite entries_agree.
  - destruct (conference_section t) as (conf & (texts & _ & _ & _ & Hpdf & Hdocx) & _).
    rewrite Hpdf, Hdocx. do 2 eexists. split; [reflexivity |]. split; [reflexivity |].
    cbn [paragraph_texts flat_map map item_value app].
    destruct texts as [| x texts]; [reflexivity |].
    f_equal. unfold pdf_conference_paragraphs.
    rewrite <- (app_nil_r (flat_map _ (x :: texts))).
    fold (paragraph_texts
            (flat_map (fun text => [Paragraph (_rl_escape (JStr text)) "Body"; Spacer 2])
                      (x :: texts) ++ [])).
    rewrite paragraph_texts_entries, map_map. cbn [paragraph_texts flat_map].
    now rewrite app_nil_r.
Qed.

End SectionOrder.

(** ** The metrics read from a response *)

(** *** The rows a metric is read from *)

(** the dict a row gives for the citations, for the h-index and for the
    i10-index: a row with citations is read for nothing else *)
Definition citations_of_row (row : Json) : option (list (string * Json)) :=
  match row with
  | JObj fields =>
      match assoc "citations" fields with
      | Some (JObj d) => Some d
      | _ => None
      end
  | _ => None
  end.

Definition dict_under (keys : list string) (row : Json) : option (list (string * Json)) :=
  match row, citations_of_row row with
  | JObj fields, None =>
      match FetchMetrics.first_dict fields keys with
      | Some (JObj d) => Some d
      | _ => None
      end
  | _, _ => None
  end.

(** the last row of the table that gives a dict *)
Definition last_given {A} (f : Json -> option A) (rows : list Json) : option A :=
  fold_left (fun acc row => match f row with Some d => Some d | None => acc end)
            rows None.

Definition all_of (o : option (list (string * Json))) : Json :=
  match o with Some d => FetchMetrics.get d "all" | None => JNull end.

Definition since_of (o : option (list (string * Json))) : Json :=
  match o with
  | Some d => FetchMetrics.since_value d FetchMetrics.SINCE_KEYS
  | None => JNull
  end.

Lemma first_dict_dict (row : list (string * Json)) (keys : list string) :
  match FetchMetrics.first_dict row keys with
  | Some (JObj _) | None => True
  | Some _ => False
  end.
Proof.
  induction keys as [| k rest IH]; simpl; [exact I |].
  destruct (assoc k row) as [[| | | | | | d] |]; try exact IH. exact I.
Qed.

(** the state after a row, from the dicts the row gives *)
Definition after_row (st : FetchMetrics.Cited) (row : Json) : FetchMetrics.Cited :=
  let c := citations_of_row row in
  let h := dict_under ["h_index"; "indice_h"]%string row in
  let i := dict_under ["i10_index"; "indice_i10"]%string row in
  FetchMetrics.mk_cited
    (match c with Some d => all_of c | None => FetchMetrics.citations_all st end)
    (match c with Some d => since_of c | None => FetchMetrics.citations_since st end)
    (match h with Some d => all_of h | None => FetchMetrics.h_all st end)
    (match h with Some d => since_of h | None => FetchMetrics.h_since st end)
    (match i with Some d => all_of i | None => FetchMetrics.i10_all st end)
    (match i with Some d => since_of i | None => FetchMetrics.i10_since st end).

Lemma row_step_after (st : FetchMetrics.Cited) (row : Json) :
  FetchMetrics.row_step st row = Ret (after_row st row).
Proof.
  unfold FetchMetrics.row_step, after_row, dict_under, citations_of_row.
  destruct row as [| | | | | | fields]; try (now destruct st).
  destruct (assoc "citations" fields) as [[| | | | | | d] |];
    try reflexivity;
    pose proof (first_dict_dict fields ["h_index"; "indice_h"]%string) as Hh;
    pose proof (first_dict_dict fields ["i10_index"; "indice_i10"]%string) as Hi;
    destruct (FetchMetrics.first_dict fields ["h_index"; "indice_h"]%string)
      as [[| | | | | | dh] |];
    try contradiction;
    destruct (FetchMetrics.first_dict fields ["i10_index"; "indice_i10"]%string)
      as [[| | | | | | di] |];
    try contradiction; try reflexivity; now destruct st.
Qed.

Lemma rows_loop_after (st : FetchMetrics.Cited) (rows : list Json) :
  FetchMetrics.rows_loop st rows = Ret (fold_left after_row rows st).
Proof.
  revert st. induction rows as [| row rows IH]; intros st; simpl; [reflexivity |].
  rewrite row_step_after. cbn [bind]. apply IH.
Qed.

(** a variable of the loop is that of the last row that gives its dict *)
Lemma fold_after_row (rows : list Json) (st : FetchMetrics.Cited)
      (f : Json -> option (list (string * Json)))
      (proj : FetchMetrics.Cited -> Json) (val : option (list (string * Json)) -> Json) :
  (forall st row, proj (after_row st row)
                  = match f row with Some d => val (f row) | None => proj st end) ->
  proj (fold_left after_row rows st)
  = match last_given f rows with
    | Some d => val (Some d)
    | None => proj st
    end.
Proof.
  intros Hstep. unfold last_given. revert st.
  induction rows as [| row rows IH] using rev_ind; intros st; [reflexivity |].
  rewrite !fold_left_app. cbn [fold_left]. rewrite Hstep.
  destruct (f row) as [d |] eqn:E; [reflexivity | apply IH].
Qed.

(** the six metrics of a table, each from the last row that gives it *)
Definition metrics_of_rows (rows : list Json) : Json :=
  let c := last_given citations_of_row rows in
  let h := last_given (dict_under ["h_index"; "indice_h"]%string) rows in
  let i := last_given (dict_under ["i10_index"; "indice_i10"]%string) rows in
  JObj [ ("citations_all", all_of c);
         ("citations_since_2016", since_of c);
         ("h_index_all", all_of h);
         ("h_index_since_2016", since_of h);
         ("i10_index_all", all_of i);
         ("i10_index_since_2016", since_of i) ]%string.

Lemma parse_rows (rows : list Json) :
  FetchMetrics._parse_cited_by_table (JArr rows) = Ret (metrics_of_rows rows).
Proof.
  unfold FetchMetrics._parse_cited_by_table. rewrite rows_loop_after. cbn [bind].
  unfold FetchMetrics.cited_json, metrics_of_rows.
  set (st0 := FetchMetrics.mk_cited JNull JNull JNull JNull JNull JNull).
  rewrite (fold_after_row rows st0 citations_of_row FetchMetrics.citations_all all_of)
    by (intros st row; cbn; now destruct (citations_of_row row)).
  rewrite (fold_after_row rows st0 citations_of_row FetchMetrics.citations_since since_of)
    by (intros st row; cbn; now destruct (citations_of_row row)).
  rewrite (fold_after_row rows st0 (dict_under ["h_index"; "indice_h"]%string)
             FetchMetrics.h_all all_of)
    by (intros st row; cbn; now destruct (dict_under _ row)).
  rewrite (fold_after_row rows st0 (dict_under ["h_index"; "indice_h"]%string)
             FetchMetrics.h_since since_of)
    by (intros st row; cbn; now destruct (dict_under _ row)).
  rewrite (fold_after_row rows st0 (dict_under ["i10_index"; "indice_i10"]%string)
             FetchMetrics.i10_all all_of)
    by (intros st row; cbn; now destruct (dict_under _ row)).
  rewrite (fold_after_row rows st0 (dict_under ["i10_index"; "indice_i10"]%string)
             FetchMetrics.i10_since since_of)
    by (intros st row; cbn; now destruct (dict_under _ row)).
  cbv zeta.
  destruct (last_given citations_of_row rows);
    destruct (last_given (dict_under ["h_index"; "indice_h"]%string) rows);
    destruct (last_given (dict_under ["i10_index"; "indice_i10"]%string) rows);
    reflexivity.
Qed.

(** X16. [_parse_cited_by_table] never raises. For a value that is not a
    list it returns the empty dict. For a list it returns the six metrics,
    each read from the last row that gives it: the citations from the last
    row that is a dict with a dict under "citations"; the h-index (the
    i10-index) from the last row that is a dict without such citations and
    with a dict under "h_index" or "indice_h" ("i10_index" or
    "indice_i10"); a metric that no row gives is null. The "all" value is
    the dict's value under "all", the "since" value its value under the
    first of "since_2016", "depuis_2016", "since_2017", "since_2018" it
    has. *)
Theorem cited_by_table_last_rows (table : Json) :
  match table with
  | JArr rows =>
      let c := last_given citations_of_row rows in
      let h := last_given (dict_under ["h_index"; "indice_h"]%string) rows in
      let i := last_given (dict_under ["i10_index"; "indice_i10"]%string) rows in
      FetchMetrics._parse_cited_by_table table
      = Ret (JObj [ ("citations_all", all_of c);
                    ("citations_since_2016", since_of c);
                    ("h_index_all", all_of h);
                    ("h_index_since_2016", since_of h);
                    ("i10_index_all", all_of i);
                    ("i10_index_since_2016", since_of i) ]%string)
  | _ => FetchMetrics._parse_cited_by_table table = Ret (JObj [])
  end.
Proof.
  destruct table as [| | | | | rows |]; try reflexivity.
  apply parse_rows.
Qed.

(** *** The record written to metrics.json *)



Section Fetched.
Context {RT : Runtime}.


End Fetched.

(** * The build on the example tables *)

#[local] Existing Instance Demo.runtime.

(** ** Where the code departs from what is said of it *)




(** C4 on the code: one record without a year turns the whole [year_int]
    column into floats, every sort key gets the year -1, and the records
    are exported in the order of the file: 2020, no year, 2021. *)
Theorem export_order_with_a_missing_year :
  let df := coerced Examples.gap_table in
  coerce_columns Examples.gap_table = Ret df /\
  year_int df = [VFloat (Float.of_Z 2020); VFloat Float.nan; VFloat (Float.of_Z 2021)] /\
  Series.zip_with sort_key (year_int df) (start_date_dt df) = [(-1, 0); (-1, 0); (-1, 0)] /\
  map year (sorted_rows df) = ["2020"; ""; "2021"]%string.
Proof.
  repeat split; vm_compute; reflexivity.
Qed.

(** C5, as stated, fails: with publications.csv absent and a metrics.json
    that is not JSON, the build fails with the parse error, not with a
    file-not-found error. *)
Lemma missing_csv_behind_broken_metrics :
  fs Examples.broken_metrics PUBLICATIONS_CSV = None /\
  (exists text, fs Examples.broken_metrics PROFILE_JSON = Some text) /\
  fst (main Examples.broken_metrics) = Raise ValueError.
Proof.
  split; [reflexivity |]. split; [eexists; reflexivity |].
  vm_compute; reflexivity.
Qed.

(** C7, as stated, fails: a publications.csv that is not UTF-8 is read
    three times, under utf-8-sig, utf-8 and cp1250. *)
Lemma csv_read_once_per_encoding :
  read_csv utf_8_sig Examples.latin2_csv = DecodeFail /\
  read_csv utf_8 Examples.latin2_csv = DecodeFail /\
  fst (main Examples.latin2) = Ret tt /\
  occurrences (Read PUBLICATIONS_CSV)
              (trace (snd (main Examples.latin2))) = 3%nat.
Proof.
  repeat split; vm_compute; reflexivity.
Qed.

(** ** The theorems at work *)




(** [mixed_table] has one chapter, which is also its one List B row *)
Lemma book_chapters_le_list_b_witness :
  compute_summary (coerced Examples.mixed_table) default_metrics
  = Ret (Examples.summary_of Examples.mixed_table) /\
  totals_book_chapters (totals (Examples.summary_of Examples.mixed_table)) = 1 /\
  totals_publications_list_b (totals (Examples.summary_of Examples.mixed_table)) = 1 /\
  totals_book_chapters (totals (Examples.summary_of Examples.mixed_table))
  <= totals_publications_list_b (totals (Examples.summary_of Examples.mixed_table)).
Proof.
  assert (Hs : compute_summary (coerced Examples.mixed_table) default_metrics
               = Ret (Examples.summary_of Examples.mixed_table))
    by (vm_compute; reflexivity).
  split; [exact Hs |].
  split; [vm_compute; reflexivity |]. split; [vm_compute; reflexivity |].
  exact (proj1 (@book_chapters_le_list_b Demo.runtime _ _ _ Hs)).
Defined.

(** [mixed_table] has three talks: one oral, one poster, one unspecified *)
Lemma conference_breakdown_witness :
  compute_summary (coerced Examples.mixed_table) default_metrics
  = Ret (Examples.summary_of Examples.mixed_table) /\
  totals_conference_contributions_total
    (totals (Examples.summary_of Examples.mixed_table)) = 3 /\
  totals_conference_type_unspecified
    (totals (Examples.summary_of Examples.mixed_table)) = 1 /\
  totals_conference_type_unspecified (totals (Examples.summary_of Examples.mixed_table))
  = totals_conference_contributions_total
      (totals (Examples.summary_of Examples.mixed_table))
    - count_rows (fun r => (row_has_oral r || row_has_poster r)%bool)
        (filter row_is_conf (rows (coerced Examples.mixed_table))).
Proof.
  assert (Hs : compute_summary (coerced Examples.mixed_table) default_metrics
               = Ret (Examples.summary_of Examples.mixed_table))
    by (vm_compute; reflexivity).
  split; [exact Hs |].
  split; [vm_compute; reflexivity |]. split; [vm_compute; reflexivity |].
  exact (proj1 (@conference_breakdown Demo.runtime _ _ _ Hs)).
Defined.


(** every year of [mixed_table] parses: its records are exported by year,
    the latest first *)
Lemma export_sorted_when_years_parse_witness :
  coerce_columns Examples.mixed_table = Ret (coerced Examples.mixed_table) /\
  map year (sorted_rows (coerced Examples.mixed_table))
  = ["2022"; "2021"; "2021"; "2020"; "2019"]%string /\
  StronglySorted (fun a b => pair_ltb (intended_key a) (intended_key b) = false)
                 (sorted_rows (coerced Examples.mixed_table)).
Proof.
  assert (Hl : coerce_columns Examples.mixed_table = Ret (coerced Examples.mixed_table))
    by (vm_compute; reflexivity).
  split; [exact Hl |]. split; [vm_compute; reflexivity |].
  refine (proj2 (@export_sorted_when_years_parse Demo.runtime _ _ Hl _)).
  intros r Hr. simpl in Hr.
  repeat (destruct Hr as [<- | Hr]; [eexists; vm_compute; reflexivity |]).
  destruct Hr.
Defined.


(** a meeting from the 13th to the 15th of May 2021, its start in the ISO
    format *)
Lemma date_range_reads_back_witness :
  _parse_date_ddmmyyyy (VStr "2021-05-13") = Ret (Some (mk_datetime 2021 5 13)) /\
  strftime (mk_datetime 2021 5 13) = "13.05.2021" /\
  _parse_date_ddmmyyyy (VStr (strftime (mk_datetime 2021 5 13)))
  = Ret (Some (mk_datetime 2021 5 13)) /\
  _format_date_range "2021-05-13" "2021-05-15"
  = Ret (strftime (mk_datetime 2021 5 13) ++ "–" ++ strftime (mk_datetime 2021 5 15))%string.
Proof.
  assert (H : _parse_date_ddmmyyyy (VStr "2021-05-13")
              = Ret (Some (mk_datetime 2021 5 13))) by (vm_compute; reflexivity).
  assert (He : _parse_date_ddmmyyyy (VStr "2021-05-15")
               = Ret (Some (mk_datetime 2021 5 15))) by (vm_compute; reflexivity).
  assert (Hy : 1000 <= dt_year (mk_datetime 2021 5 13)) by (simpl; lia).
  destruct (@date_range_reads_back Demo.runtime "2021-05-13" "2021-05-15" _ H Hy)
    as (Hback & _ & _ & Hrange).
  split; [exact H |]. split; [vm_compute; reflexivity |]. split; [exact Hback |].
  apply (Hrange _ He). discriminate.
Defined.

(** the counts of [mixed_table] *)
Lemma summary_counts_bounded_witness :
  compute_summary (coerced Examples.mixed_table) default_metrics
  = Ret (Examples.summary_of Examples.mixed_table) /\
  totals_records_total (totals (Examples.summary_of Examples.mixed_table)) = 5 /\
  totals_publications_list_a (totals (Examples.summary_of Examples.mixed_table))
  + totals_publications_list_b (totals (Examples.summary_of Examples.mixed_table))
  <= totals_records_total (totals (Examples.summary_of Examples.mixed_table))
     + totals_book_chapters (totals (Examples.summary_of Examples.mixed_table)).
Proof.
  assert (Hs : compute_summary (coerced Examples.mixed_table) default_metrics
               = Ret (Examples.summary_of Examples.mixed_table))
    by (vm_compute; reflexivity).
  split; [exact Hs |]. split; [vm_compute; reflexivity |].
  exact (proj2 (proj2 (proj2 (proj2 (proj2 (proj2 (proj2
           (@summary_counts_bounded Demo.runtime _ _ _ Hs)))))))).
Defined.

(** the years of [mixed_table]: 2021 twice, the others once *)
Lemma year_counts_of_table_witness :
  coerce_columns Examples.mixed_table = Ret (coerced Examples.mixed_table) /\
  compute_summary (coerced Examples.mixed_table) default_metrics
  = Ret (Examples.summary_of Examples.mixed_table) /\
  year_counts (Examples.summary_of Examples.mixed_table)
  = [("2022", 1); ("2021", 2); ("2020", 1); ("2019", 1)] /\
  exists years : list Z,
    StronglySorted (fun a b => b < a) years /\
    (forall y, In y years <->
               exists r, In r Examples.mixed_table /\ year_of_row r = Some y) /\
    year_counts (Examples.summary_of Examples.mixed_table)
    = map (fun y => (py_str (VInt y), count_rows (has_year y) Examples.mixed_table)) years.
Proof.
  assert (Hl : coerce_columns Examples.mixed_table = Ret (coerced Examples.mixed_table))
    by (vm_compute; reflexivity).
  assert (Hs : compute_summary (coerced Examples.mixed_table) default_metrics
               = Ret (Examples.summary_of Examples.mixed_table))
    by (vm_compute; reflexivity).
  split; [exact Hl |]. split; [exact Hs |]. split; [vm_compute; reflexivity |].
  refine (proj2 (@year_counts_of_table Demo.runtime _ _ _ _ Hl Hs) _).
  intros r Hr. simpl in Hr.
  repeat (destruct Hr as [<- | Hr]; [vm_compute; reflexivity |]).
  destruct Hr.
Defined.

(** a file with the byte 243: UTF-8 fails twice, cp1250 reads it *)
Lemma first_readable_encoding_witness :
  fs Examples.latin2 PUBLICATIONS_CSV = Some Examples.latin2_csv /\
  fst (load_publications_df Examples.latin2) = Ret (coerced Worlds.latin2_table) /\
  trace (snd (load_publications_df Examples.latin2))
  = trace Examples.latin2
    ++ Probe PUBLICATIONS_CSV
       :: repeat (Read PUBLICATIONS_CSV) (S (List.length [utf_8_sig; utf_8])).
Proof.
  assert (Hf : fs Examples.latin2 PUBLICATIONS_CSV = Some Examples.latin2_csv)
    by reflexivity.
  split; [exact Hf |].
  refine (proj1 (@first_readable_encoding Demo.runtime Examples.latin2 _ Hf)
                [utf_8_sig; utf_8] cp1250 [iso_8859_2; latin1] Worlds.latin2_table _ _ _).
  - reflexivity.
  - vm_compute; reflexivity.
  - vm_compute; reflexivity.
Defined.



(** the articles of [gap_table]: those with a year by year, the one
    without a year last *)
Lemma section_rows_by_year_witness :
  section_rows Examples.gap_table [true; true; true]
  = Ret [ Examples.pub "article" "2021" "A" "" "";
          Examples.pub "article" "2020" "A" "" "";
          Examples.pub "article" "" "A" "" "" ] /\
  exists dated,
    [ Examples.pub "article" "2021" "A" "" "";
      Examples.pub "article" "2020" "A" "" "";
      Examples.pub "article" "" "A" "" "" ]
    = dated ++ filter (fun r => negb (year_parses r))
                      (Series.loc Examples.gap_table [true; true; true]) /\
    Permutation dated
      (filter year_parses (Series.loc Examples.gap_table [true; true; true])).
Proof.
  assert (H : section_rows Examples.gap_table [true; true; true]
              = Ret [ Examples.pub "article" "2021" "A" "" "";
                      Examples.pub "article" "2020" "A" "" "";
                      Examples.pub "article" "" "A" "" "" ])
    by (vm_compute; reflexivity).
  split; [exact H |].
  exact (proj1 (section_rows_by_year _ _ H)).
Defined.

(** the talks of [mixed_table]: the two with a start date by date, the
    one without after them *)
Lemma conferences_by_start_witness :
  conference_rows Examples.mixed_table
  = Ret [ Examples.talk "2021" "Poster" "2021-05-13";
          Examples.talk "2021" "Oral presentation" "12.05.2021";
          Examples.talk "2022" "Keynote" "" ] /\
  StronglySorted (fun a b => start_seconds b <= start_seconds a)
    [ Examples.talk "2021" "Poster" "2021-05-13";
      Examples.talk "2021" "Oral presentation" "12.05.2021";
      Examples.talk "2022" "Keynote" "" ].
Proof.
  assert (H : conference_rows Examples.mixed_table
              = Ret [ Examples.talk "2021" "Poster" "2021-05-13";
                      Examples.talk "2021" "Oral presentation" "12.05.2021";
                      Examples.talk "2022" "Keynote" "" ])
    by (vm_compute; reflexivity).
  split; [exact H |].
  exact (proj1 (@conferences_by_start Demo.runtime _ _ H)).
Defined.
